(** * Educational content pipeline: progress store, generation adapter,
    outline parser, publication gate and the four-stage workflow.

  Shallow embedding of
    - [progressTrackingTool]            (tools/progressTrackingTool.ts)
    - [chunkedContentGenerationTool]    (tools/chunkedContentGenerationTool.ts)
    - [improvedEducationalContentWorkflow] and its four steps
      (workflows/improvedEducationalContentWorkflow.ts)
    - the file name that [generatePDF] gives to a book
      (tools/pdfGenerationTool.ts)

  Conventions of the embedding.
    - A JavaScript string is the list of its UTF-16 code units
      ([jsstring = list N]).  ASCII literals are written [lit "..."].
    - JavaScript numbers that the program uses as counters, word counts
      and attempt numbers are integers and are modelled in [Z]; the
      review score and the progress ratios are modelled in [Q] (every
      finite double is a rational; the rounding of binary64 division
      and multiplication is not part of the model).
    - An awaited call that may reject is a computation in the monad [M],
      which threads the world (progress files, clock, the answers of the
      external agents) and returns [Ok v] or [Throw msg]. *)

From Stdlib Require Import ZArith QArith Qround Qminmax List String Ascii Bool Lia.
From Stdlib Require Import Numbers.DecimalString.
From stdpp Require Import gmap.
Import ListNotations.

Local Open Scope Z_scope.

(* ===================================================================== *)
(** * JavaScript strings                                                  *)
(* ===================================================================== *)

Module JsString.

(** A string is its sequence of UTF-16 code units. *)
Abbreviation jsstring := (list N).

(** An ASCII literal of the source. *)
Definition lit (s : string) : jsstring :=
  List.map N_of_ascii (list_ascii_of_string s).

(** The double quote U+0022, written inside template literals. *)
Definition dquote : jsstring := [34%N].

(** [String(n)] for an integer [n] (below 10^21 in absolute value, where
    JavaScript prints all the digits). *)
Definition ofZ (n : Z) : jsstring :=
  lit (NilZero.string_of_int (Z.to_int n)).

(** ECMAScript [WhiteSpace] and [LineTerminator] code points: the class
    [\s] of regular expressions, and what [trim] strips. *)
Definition isWhiteSpace (c : N) : bool :=
  let c := Z.of_N c in
  (9 <=? c) && (c <=? 13)
  || (c =? 32) || (c =? 160) || (c =? 5760)
  || (8192 <=? c) && (c <=? 8202)
  || (c =? 8232) || (c =? 8233) || (c =? 8239) || (c =? 8287)
  || (c =? 12288) || (c =? 65279).

(** [LineTerminator]: what [.] does not match. *)
Definition isLineTerminator (c : N) : bool :=
  let c := Z.of_N c in
  (c =? 10) || (c =? 13) || (c =? 8232) || (c =? 8233).

(** [\d] is [0-9]. *)
Definition isDigit (c : N) : bool :=
  let c := Z.of_N c in (48 <=? c) && (c <=? 57).

(** Lower-casing of one code unit.  Only the ASCII letters are mapped;
    the code points outside ASCII whose lower case is an ASCII letter
    (U+0130, U+212A) yield no letter sequence of the phrases searched
    for in this program. *)
Definition lowerUnit (c : N) : N :=
  if ((65 <=? c) && (c <=? 90))%N then (c + 32)%N else c.

Definition toLowerCase (s : jsstring) : jsstring := List.map lowerUnit s.

(** [s.startsWith(p)]. *)
Fixpoint startsWith (s p : jsstring) {struct p} : bool :=
  match p, s with
  | [], _ => true
  | _ :: _, [] => false
  | a :: p', b :: s' => (a =? b)%N && startsWith s' p'
  end.

(** [s.includes(p)]: [p] occurs in [s] as a run of code units. *)
Fixpoint includes (s p : jsstring) : bool :=
  startsWith s p ||
  match s with
  | [] => false
  | _ :: s' => includes s' p
  end.

(** [s.trim()]. *)
Fixpoint trimStart (s : jsstring) : jsstring :=
  match s with
  | c :: s' => if isWhiteSpace c then trimStart s' else s
  | [] => []
  end.

Definition trimEnd (s : jsstring) : jsstring := rev (trimStart (rev s)).

Definition trim (s : jsstring) : jsstring := trimEnd (trimStart s).

(** [s.split('\n')]: the pieces between line feeds; never empty. *)
Fixpoint splitLines_aux (cur : jsstring) (s : jsstring) : list jsstring :=
  match s with
  | [] => [rev cur]
  | c :: s' =>
      if (c =? 10)%N then rev cur :: splitLines_aux [] s'
      else splitLines_aux (c :: cur) s'
  end.

Definition splitLines (s : jsstring) : list jsstring := splitLines_aux [] s.

(** [s.split(/\s+/)].  The separator is a maximal run of white space; the
    piece before the first separator and the piece after the last one are
    kept even when they are empty, and the empty string splits into one
    empty piece.  [inWs] tells that the previous code unit belonged to a
    separator, [cur] is the piece being read, reversed. *)
Fixpoint splitWs_aux (inWs : bool) (cur : jsstring) (s : jsstring)
  : list jsstring :=
  match s with
  | [] => [rev cur]
  | c :: s' =>
      if isWhiteSpace c then
        if inWs then splitWs_aux true cur s'
        else rev cur :: splitWs_aux true [] s'
      else splitWs_aux false (c :: cur) s'
  end.

Definition splitWs (s : jsstring) : list jsstring := splitWs_aux false [] s.

(** [a.join(sep)]. *)
Fixpoint join (sep : jsstring) (l : list jsstring) : jsstring :=
  match l with
  | [] => []
  | [x] => x
  | x :: l' => x ++ sep ++ join sep l'
  end.

End JsString.
Import JsString.

(** The outcome of an awaited call: a value, or a rejection carrying the
  message of the thrown [Error]. *)
Inductive Result (A : Type) : Type :=
| Ok (a : A)
| Throw (message : jsstring).
Arguments Ok {A} a.
Arguments Throw {A} message.

(* ===================================================================== *)
(** * Publication gate (reviewContentStep, "Determine approval")          *)
(* ===================================================================== *)

Module Gate.

(** [qualityScore >= 7.0
      && !reviewText.toLowerCase().includes('not approved')
      && !reviewText.toLowerCase().includes('needs major revision')] *)
Definition approvedForPublication (qualityScore : Q) (reviewText : jsstring)
  : bool :=
  Qle_bool 7 qualityScore
  && negb (includes (toLowerCase reviewText) (lit "not approved"))
  && negb (includes (toLowerCase reviewText) (lit "needs major revision")).

(** The words of the specification: two strings are equal up to case, and
    a phrase occurs in a text as a case-insensitive substring. *)
Definition eqCI (a b : jsstring) : Prop :=
  Forall2 (fun x y => lowerUnit x = lowerUnit y) a b.

Definition containsCI (text phrase : jsstring) : Prop :=
  exists pre mid post, text = pre ++ mid ++ post /\ eqCI mid phrase.

End Gate.

(* ===================================================================== *)
(** * Word count of a generated section (generateContentChunk)            *)
(* ===================================================================== *)

Module WordCount.

(** [response.split(/\s+/).length] *)
Definition wordCount (response : jsstring) : Z :=
  Z.of_nat (List.length (splitWs response)).

(** The words of the specification: the white-space delimited tokens of a
    text are its maximal non-empty runs of code units that are not white
    space.  [cur] is the token being read, reversed. *)
Fixpoint tokens_aux (cur : jsstring) (s : jsstring) : list jsstring :=
  match s with
  | [] => match cur with [] => [] | _ => [rev cur] end
  | c :: s' =>
      if isWhiteSpace c then
        match cur with
        | [] => tokens_aux [] s'
        | _ => rev cur :: tokens_aux [] s'
        end
      else tokens_aux (c :: cur) s'
  end.

Definition tokens (s : jsstring) : list jsstring := tokens_aux [] s.

Definition tokenCount (s : jsstring) : Z := Z.of_nat (List.length (tokens s)).

(** The text is empty or begins with white space. *)
Definition leadingGap (s : jsstring) : bool :=
  match s with [] => true | c :: _ => isWhiteSpace c end.

(** [endsWithWs d s]: the last code unit of [s] is white space, and [d]
    when [s] is empty.  A text has a trailing gap when it is not empty and
    ends with white space. *)
Fixpoint endsWithWs (d : bool) (s : jsstring) : bool :=
  match s with
  | [] => d
  | c :: s' => endsWithWs (isWhiteSpace c) s'
  end.

Definition trailingGap (s : jsstring) : bool := endsWithWs false s.

End WordCount.

(* ===================================================================== *)
(** * Progress store (progressTrackingTool)                               *)
(* ===================================================================== *)

Module ProgressTracking.

(** [status: 'in_progress' | 'completed' | 'failed' | 'paused'] *)
Inductive Status : Type := in_progress | completed | failed | paused.

(** An instant is the number of milliseconds since the epoch; the program
    stores it as the ISO string of that number. *)
Abbreviation Instant := Z.

Record ChapterDetail : Type := {
  chapterNumber : Z;
  title : jsstring;
  wordCount : Z;
  completedAt : Instant
}.

(** [interface ProgressData].  An entry [`${iso}: ${error}`] of [errors] is
    kept as the pair of its instant and its message. *)
Record ProgressData : Type := {
  workflowId : jsstring;
  topic : jsstring;
  startTime : Instant;
  currentStep : jsstring;
  completedChapters : Z;
  totalChapters : Z;
  completedSections : Z;
  totalSections : Z;
  totalWordsGenerated : Z;
  targetWordCount : Z;
  lastUpdate : Instant;
  status : Status;
  errors : list (Instant * jsstring);
  completedChapterDetails : list ChapterDetail
}.

(** The directory [workflow_progress/]: one JSON file per workflow id. *)
Abbreviation Files := (gmap jsstring ProgressData).

(** [loadProgress]: [null] when the file does not exist. *)
Definition loadProgress (workflowId : jsstring) (files : Files)
  : option ProgressData :=
  files !! workflowId.

(** [saveProgress]: the file is written, replacing an earlier one. *)
Definition saveProgress (workflowId : jsstring) (progress : ProgressData)
  (files : Files) : Files :=
  <[workflowId := progress]> files.

(** [action: z.enum(['initialize', 'update', 'get', 'complete', 'fail'])] *)
Inductive Action : Type := Initialize | Update | Get | Complete | Fail.

Definition actionName (a : Action) : jsstring :=
  match a with
  | Initialize => lit "initialize"
  | Update => lit "update"
  | Get => lit "get"
  | Complete => lit "complete"
  | Fail => lit "fail"
  end.

(** The [context] of a call: the input schema, optional fields as options. *)
Module Context.
Record t : Type := {
  action : Action;
  workflowId : jsstring;
  topic : option jsstring;
  totalChapters : option Z;
  totalSections : option Z;
  targetWordCount : option Z;
  currentStep : option jsstring;
  completedChapters : option Z;
  completedSections : option Z;
  totalWordsGenerated : option Z;
  chapterCompleted : option (Z * jsstring * Z);
  error : option jsstring
}.

(** A context that carries only the action and the workflow id. *)
Definition bare (a : Action) (wid : jsstring) : t :=
  {| action := a; workflowId := wid; topic := None; totalChapters := None;
     totalSections := None; targetWordCount := None; currentStep := None;
     completedChapters := None; completedSections := None;
     totalWordsGenerated := None; chapterCompleted := None; error := None |}.
End Context.

(** Truthiness of an optional string and of an optional number. *)
Definition truthyS (o : option jsstring) : bool :=
  match o with Some (_ :: _) => true | _ => false end.


(** The [progress] object of the output schema.  The field
    [estimatedTimeRemaining], a text derived from the clock, is left out. *)
Record ProgressView : Type := {
  v_workflowId : jsstring;
  v_topic : jsstring;
  v_currentStep : jsstring;
  v_completedChapters : Z;
  v_totalChapters : Z;
  v_completedSections : Z;
  v_totalSections : Z;
  v_totalWordsGenerated : Z;
  v_targetWordCount : Z;
  progressPercentage : Z;
  v_status : Status;
  v_lastUpdate : Instant
}.

Record ToolResult : Type := {
  success : bool;
  progress : option ProgressView;
  message : option jsstring
}.

(** [Math.round]: the nearest integer, a tie going up. *)
Definition Math_round (x : Q) : Z := Qfloor (x + (1 # 2)).

(** [sectionProgress], [wordProgress] and [progressPercentage]. *)
Definition sectionProgress (p : ProgressData) : Q :=
  if 0 <? totalSections p
  then (inject_Z (completedSections p) / inject_Z (totalSections p)) * 100
  else 0.

Definition wordProgress (p : ProgressData) : Q :=
  if 0 <? targetWordCount p
  then (inject_Z (totalWordsGenerated p) / inject_Z (targetWordCount p)) * 100
  else 0.

Definition percentage (p : ProgressData) : Z :=
  Math_round (Qmax (sectionProgress p) (wordProgress p)).

Definition view (p : ProgressData) (pct : Z) : ProgressView :=
  {| v_workflowId := workflowId p; v_topic := topic p;
     v_currentStep := currentStep p;
     v_completedChapters := completedChapters p;
     v_totalChapters := totalChapters p;
     v_completedSections := completedSections p;
     v_totalSections := totalSections p;
     v_totalWordsGenerated := totalWordsGenerated p;
     v_targetWordCount := targetWordCount p;
     progressPercentage := pct;
     v_status := status p; v_lastUpdate := lastUpdate p |}.

(** Field updates of the loaded record. *)
Definition withCurrentStep (s : jsstring) (p : ProgressData) : ProgressData :=
  {| workflowId := workflowId p; topic := topic p; startTime := startTime p;
     currentStep := s; completedChapters := completedChapters p;
     totalChapters := totalChapters p;
     completedSections := completedSections p;
     totalSections := totalSections p;
     totalWordsGenerated := totalWordsGenerated p;
     targetWordCount := targetWordCount p; lastUpdate := lastUpdate p;
     status := status p; errors := errors p;
     completedChapterDetails := completedChapterDetails p |}.

Definition withCompletedChapters (n : Z) (p : ProgressData) : ProgressData :=
  {| workflowId := workflowId p; topic := topic p; startTime := startTime p;
     currentStep := currentStep p; completedChapters := n;
     totalChapters := totalChapters p;
     completedSections := completedSections p;
     totalSections := totalSections p;
     totalWordsGenerated := totalWordsGenerated p;
     targetWordCount := targetWordCount p; lastUpdate := lastUpdate p;
     status := status p; errors := errors p;
     completedChapterDetails := completedChapterDetails p |}.

Definition withCompletedSections (n : Z) (p : ProgressData) : ProgressData :=
  {| workflowId := workflowId p; topic := topic p; startTime := startTime p;
     currentStep := currentStep p; completedChapters := completedChapters p;
     totalChapters := totalChapters p;
     completedSections := n;
     totalSections := totalSections p;
     totalWordsGenerated := totalWordsGenerated p;
     targetWordCount := targetWordCount p; lastUpdate := lastUpdate p;
     status := status p; errors := errors p;
     completedChapterDetails := completedChapterDetails p |}.

Definition withTotalWordsGenerated (n : Z) (p : ProgressData) : ProgressData :=
  {| workflowId := workflowId p; topic := topic p; startTime := startTime p;
     currentStep := currentStep p; completedChapters := completedChapters p;
     totalChapters := totalChapters p;
     completedSections := completedSections p;
     totalSections := totalSections p;
     totalWordsGenerated := n;
     targetWordCount := targetWordCount p; lastUpdate := lastUpdate p;
     status := status p; errors := errors p;
     completedChapterDetails := completedChapterDetails p |}.

Definition withLastUpdate (t : Instant) (p : ProgressData) : ProgressData :=
  {| workflowId := workflowId p; topic := topic p; startTime := startTime p;
     currentStep := currentStep p; completedChapters := completedChapters p;
     totalChapters := totalChapters p;
     completedSections := completedSections p;
     totalSections := totalSections p;
     totalWordsGenerated := totalWordsGenerated p;
     targetWordCount := targetWordCount p; lastUpdate := t;
     status := status p; errors := errors p;
     completedChapterDetails := completedChapterDetails p |}.

Definition withStatus (s : Status) (p : ProgressData) : ProgressData :=
  {| workflowId := workflowId p; topic := topic p; startTime := startTime p;
     currentStep := currentStep p; completedChapters := completedChapters p;
     totalChapters := totalChapters p;
     completedSections := completedSections p;
     totalSections := totalSections p;
     totalWordsGenerated := totalWordsGenerated p;
     targetWordCount := targetWordCount p; lastUpdate := lastUpdate p;
     status := s; errors := errors p;
     completedChapterDetails := completedChapterDetails p |}.

(** [progress.errors.push(...)] *)
Definition pushError (t : Instant) (e : jsstring) (p : ProgressData)
  : ProgressData :=
  {| workflowId := workflowId p; topic := topic p; startTime := startTime p;
     currentStep := currentStep p; completedChapters := completedChapters p;
     totalChapters := totalChapters p;
     completedSections := completedSections p;
     totalSections := totalSections p;
     totalWordsGenerated := totalWordsGenerated p;
     targetWordCount := targetWordCount p; lastUpdate := lastUpdate p;
     status := status p; errors := errors p ++ [(t, e)];
     completedChapterDetails := completedChapterDetails p |}.

(** [progress.completedChapterDetails.push(...)] *)
Definition pushChapterDetail (d : ChapterDetail) (p : ProgressData)
  : ProgressData :=
  {| workflowId := workflowId p; topic := topic p; startTime := startTime p;
     currentStep := currentStep p; completedChapters := completedChapters p;
     totalChapters := totalChapters p;
     completedSections := completedSections p;
     totalSections := totalSections p;
     totalWordsGenerated := totalWordsGenerated p;
     targetWordCount := targetWordCount p; lastUpdate := lastUpdate p;
     status := status p; errors := errors p;
     completedChapterDetails := completedChapterDetails p ++ [d] |}.

(** [if (c) p.f = c]: apply an update when its guard holds. *)
Definition applyIf {A : Type} (guard : bool) (o : option A)
  (f : A -> ProgressData -> ProgressData) (p : ProgressData) : ProgressData :=
  match o with
  | Some a => if guard then f a p else p
  | None => p
  end.

(** The branch [action === 'update']. *)
Definition applyUpdate (now : Instant) (c : Context.t) (p : ProgressData)
  : ProgressData :=
  let p := applyIf (truthyS (Context.currentStep c)) (Context.currentStep c)
             withCurrentStep p in
  let p := applyIf true (Context.completedChapters c)
             withCompletedChapters p in
  let p := applyIf true (Context.completedSections c)
             withCompletedSections p in
  let p := applyIf true (Context.totalWordsGenerated c)
             withTotalWordsGenerated p in
  let p := applyIf (truthyS (Context.error c)) (Context.error c)
             (pushError now) p in
  let p := applyIf true (Context.chapterCompleted c)
             (fun '(n, t, w) =>
                pushChapterDetail
                  {| chapterNumber := n; title := t; wordCount := w;
                     completedAt := now |}) p in
  withLastUpdate now p.

(** The branch [action === 'complete']. *)
Definition applyComplete (now : Instant) (p : ProgressData) : ProgressData :=
  withLastUpdate now (withCurrentStep (lit "Completed") (withStatus completed p)).

(** The branch [action === 'fail']. *)
Definition applyFail (now : Instant) (c : Context.t) (p : ProgressData)
  : ProgressData :=
  let p := withCurrentStep (lit "Failed") (withStatus failed p) in
  let p := applyIf (truthyS (Context.error c)) (Context.error c)
             (pushError now) p in
  withLastUpdate now p.

(** The body of the [try] block of [execute]: the result and the files, or
    the message of the [Error] thrown. *)
Definition executeBody (now : Instant) (c : Context.t) (files : Files)
  : Result ToolResult * Files :=
  let wid := Context.workflowId c in
  match Context.action c with
  | Initialize =>
      match Context.topic c, Context.totalChapters c,
            Context.totalSections c, Context.targetWordCount c with
      | Some ((_ :: _) as tp), Some tc, Some ts, Some tw =>
          if (tc =? 0) || (ts =? 0) || (tw =? 0) then
            (Throw (lit "Topic, totalChapters, totalSections, and targetWordCount are required for initialization"), files)
          else
            let p := {| workflowId := wid; topic := tp; startTime := now;
                        currentStep := lit "Initializing";
                        completedChapters := 0; totalChapters := tc;
                        completedSections := 0; totalSections := ts;
                        totalWordsGenerated := 0; targetWordCount := tw;
                        lastUpdate := now; status := in_progress;
                        errors := []; completedChapterDetails := [] |} in
            (Ok {| success := true; progress := Some (view p 0);
                   message := Some (lit "Progress tracking initialized") |},
             saveProgress wid p files)
      | _, _, _, _ =>
          (Throw (lit "Topic, totalChapters, totalSections, and targetWordCount are required for initialization"), files)
      end
  | a =>
      match loadProgress wid files with
      | None => (Throw (lit "No progress found for workflow " ++ wid), files)
      | Some p =>
          let '(p, files) :=
            match a with
            | Update =>
                let p := applyUpdate now c p in (p, saveProgress wid p files)
            | Complete =>
                let p := applyComplete now p in (p, saveProgress wid p files)
            | Fail =>
                let p := applyFail now c p in (p, saveProgress wid p files)
            | _ => (p, files)
            end in
          (Ok {| success := true; progress := Some (view p (percentage p));
                 message := Some (lit "Progress " ++ actionName a
                                  ++ lit " completed successfully") |},
           files)
      end
  end.

(** [execute]: the [catch] clause turns every error of the body into a
    normal return with [success: false]. *)
Definition execute (now : Instant) (c : Context.t) (files : Files)
  : ToolResult * Files :=
  match executeBody now c files with
  | (Ok r, files') => (r, files')
  | (Throw msg, files') =>
      ({| success := false; progress := None;
          message := Some (lit "Progress tracking failed: " ++ msg) |}, files')
  end.

End ProgressTracking.

(* ===================================================================== *)
(** * The world of a run and the monad of awaited calls                   *)
(* ===================================================================== *)

(** The artifact written by [pdfGenerationTool]: its path and its size. *)
Record PdfResult : Type := {
  path : jsstring;
  fileSize : Z
}.

(** What an observer of a run sees, in order: the attempts and the waits of
    the generation adapter, and every call of the progress tool with the
    record that is in the file of the run once the call has returned. *)
Inductive Event : Type :=
| Attempt (attempt : Z)
| Sleep (ms : Z)
| ProgressCall (action : ProgressTracking.Action)
    (stored : option ProgressTracking.ProgressData).

(** The world: the progress files, the log of events, and the environment.
    The environment answers the [n]-th interaction of the run: the reading
    of the clock, the random suffix of a workflow id, the text or the error
    of an agent, the outcome of writing the book.  [tick] counts the
    interactions made so far.  The prompts sent to the agents are not part
    of the model: the answers range over all functions. *)
Record World : Type := {
  files : ProgressTracking.Files;
  events : list Event;
  tick : nat;
  dateNow : nat -> Z;
  mathRandom : nat -> jsstring;
  ideaGenerationAgent : nat -> Result jsstring;
  writingAgent : nat -> Result jsstring;
  reviewAgent : nat -> Result jsstring;
  generatePDF : nat -> Result PdfResult
}.

Definition setFiles (f : ProgressTracking.Files) (w : World) : World :=
  {| files := f; events := events w; tick := tick w; dateNow := dateNow w;
     mathRandom := mathRandom w;
     ideaGenerationAgent := ideaGenerationAgent w;
     writingAgent := writingAgent w; reviewAgent := reviewAgent w;
     generatePDF := generatePDF w |}.

Definition addEvent (e : Event) (w : World) : World :=
  {| files := files w; events := events w ++ [e]; tick := tick w;
     dateNow := dateNow w; mathRandom := mathRandom w;
     ideaGenerationAgent := ideaGenerationAgent w;
     writingAgent := writingAgent w; reviewAgent := reviewAgent w;
     generatePDF := generatePDF w |}.

Definition advance (w : World) : World :=
  {| files := files w; events := events w; tick := S (tick w);
     dateNow := dateNow w; mathRandom := mathRandom w;
     ideaGenerationAgent := ideaGenerationAgent w;
     writingAgent := writingAgent w; reviewAgent := reviewAgent w;
     generatePDF := generatePDF w |}.

(** A computation: from a world to an outcome and the world it leaves. *)
Definition M (A : Type) : Type := World -> Result A * World.

Definition ret {A : Type} (a : A) : M A := fun w => (Ok a, w).

Definition throw {A : Type} (msg : jsstring) : M A := fun w => (Throw msg, w).

Definition bind {A B : Type} (m : M A) (k : A -> M B) : M B :=
  fun w =>
    match m w with
    | (Ok a, w') => k a w'
    | (Throw msg, w') => (Throw msg, w')
    end.

(** [try { body } catch (error) { handler(error) }] *)
Definition tryCatch {A : Type} (body : M A) (handler : jsstring -> M A) : M A :=
  fun w =>
    match body w with
    | (Ok a, w') => (Ok a, w')
    | (Throw msg, w') => handler msg w'
    end.

Declare Scope monad_scope.
Delimit Scope monad_scope with monad.
Notation "x <- m ;; k" := (bind m (fun x => k))
  (at level 100, m at next level, right associativity) : monad_scope.
Notation "m ;;; k" := (bind m (fun _ => k))
  (at level 100, right associativity) : monad_scope.
Local Open Scope monad_scope.

(** One interaction with the environment: its answer, the tick advanced. *)
Definition ask {A : Type} (oracle : World -> nat -> A) : M A :=
  fun w => (Ok (oracle w (tick w)), advance w).

(** An awaited call of an agent: its text, or its rejection. *)
Definition await {A : Type} (oracle : World -> nat -> Result A) : M A :=
  fun w => (oracle w (tick w), advance w).

Definition emit (e : Event) : M unit := fun w => (Ok tt, addEvent e w).

(** [await new Promise(resolve => setTimeout(resolve, ms))] *)
Definition sleep (ms : Z) : M unit := emit (Sleep ms).

(** [await progressTrackingTool.execute({ context, ... })]: the clock is
    read, the tool runs on the files, and the call is logged with the
    record of the workflow as the files now hold it.  The call never
    rejects. *)
Definition progressTrackingTool_execute (c : ProgressTracking.Context.t)
  : M ProgressTracking.ToolResult :=
  now <- ask dateNow ;;
  fun w =>
    let '(r, f) := ProgressTracking.execute now c (files w) in
    (Ok r,
     addEvent (ProgressCall (ProgressTracking.Context.action c)
                 (f !! ProgressTracking.Context.workflowId c))
       (setFiles f w)).

(* ===================================================================== *)
(** * Content generation adapter (chunkedContentGenerationTool)           *)
(* ===================================================================== *)

Module ChunkedGeneration.

(** [interface ContentChunk], with [generatedAt] added by [execute]. *)
Record ContentChunk : Type := {
  sectionTitle : jsstring;
  content : jsstring;
  wordCount : Z;
  chunkIndex : nat
}.

(** [interface ChunkGenerationConfig] *)
Record ChunkGenerationConfig : Type := {
  topic : jsstring;
  chapterTitle : jsstring;
  chapterNumber : Z;
  sectionTitles : list jsstring;
  targetWordsPerSection : Z;
  context : jsstring;
  retryAttempts : option Z
}.

(** [config.retryAttempts || 3] *)
Definition maxRetriesOf (retryAttempts : option Z) : Z :=
  match retryAttempts with
  | Some n => if n =? 0 then 3 else n
  | None => 3
  end.

(** [Math.min(1000 * Math.pow(2, attempt - 1), 30000)], computed after the
    failure of attempt number [attempt]. *)
Definition backoffMs (attempt : Z) : Z :=
  Z.min (1000 * 2 ^ (attempt - 1)) 30000.

(** The loop [for (let attempt = 1; attempt <= maxRetries; attempt++)],
    entered at [attempt] with [remaining] iterations left before the
    condition fails ([remaining = maxRetries - attempt + 1], or none when
    that is negative); when the loop ends the final [throw] is reached. *)
Fixpoint attemptLoop (sectionTitle : jsstring) (sectionIndex : nat)
  (maxRetries : Z) (remaining : nat) (attempt : Z) : M ContentChunk :=
  match remaining with
  | O =>
      throw (lit "Failed to generate content for section "
             ++ dquote ++ sectionTitle ++ dquote)
  | S remaining' =>
      emit (Attempt attempt) ;;;
      tryCatch
        (response <- await writingAgent ;;
         ret {| sectionTitle := sectionTitle; content := response;
                wordCount := WordCount.wordCount response;
                chunkIndex := sectionIndex |})
        (fun error =>
           if attempt =? maxRetries then
             throw (lit "Failed to generate content for section "
                    ++ dquote ++ sectionTitle ++ dquote ++ lit " after "
                    ++ ofZ maxRetries ++ lit " attempts: " ++ error)
           else
             sleep (backoffMs attempt) ;;;
             attemptLoop sectionTitle sectionIndex maxRetries remaining'
               (attempt + 1))
  end.

(** [generateContentChunk]: the section title is read at [sectionIndex]
    (the text [undefined] outside the list; the workflow always passes an
    index of the list), and the loop starts at attempt 1. *)
Definition generateContentChunk (config : ChunkGenerationConfig)
  (sectionIndex : nat) : M ContentChunk :=
  let sectionTitle :=
    nth sectionIndex (sectionTitles config) (lit "undefined") in
  let maxRetries := maxRetriesOf (retryAttempts config) in
  attemptLoop sectionTitle sectionIndex maxRetries (Z.to_nat maxRetries) 1.

(** [chunkedContentGenerationTool.execute]: the chunk and [generatedAt]. *)
Definition execute (config : ChunkGenerationConfig) (sectionIndex : nat)
  : M (ContentChunk * Z) :=
  result <- generateContentChunk config sectionIndex ;;
  generatedAt <- ask dateNow ;;
  ret (result, generatedAt).

End ChunkedGeneration.

(* ===================================================================== *)
(** * Outline parser (parseOutlineIntoChapters)                           *)
(* ===================================================================== *)

Module Outline.

Record Chapter : Type := {
  number : Z;
  title : jsstring;
  sections : list jsstring;
  targetWordCount : Z
}.

(** The longest prefix of [s] whose code units satisfy [f], and the rest. *)
Fixpoint span (f : N -> bool) (s : jsstring) : jsstring * jsstring :=
  match s with
  | c :: s' =>
      if f c then let '(a, b) := span f s' in (c :: a, b) else ([], s)
  | [] => ([], [])
  end.

(** [(.+)$] on the rest of a line: the rest itself when it is not empty and
    holds no line terminator. *)
Definition restOfLine (s : jsstring) : option jsstring :=
  match s with
  | [] => None
  | _ => if forallb (fun c => negb (isLineTerminator c)) s then Some s else None
  end.

(** A greedy run [run] took everything up to the end of the line, and [.+]
    still needs one code unit: the run gives back its last one. *)
Definition giveBack (run : jsstring) : option jsstring :=
  match rev run with
  | c :: _ => restOfLine [c]
  | [] => None
  end.

(** [[:\.\s]] *)
Definition isSeparator (c : N) : bool :=
  (c =? 58)%N || (c =? 46)%N || isWhiteSpace c.

(** [(\d+)[:\.\s]+(.+)$], anchored at the start of [s]: the second group. *)
Definition matchNumbered (s : jsstring) : option jsstring :=
  let '(digits, r1) := span isDigit s in
  match digits with
  | [] => None
  | _ =>
      let '(seps, r2) := span isSeparator r1 in
      match seps, r2 with
      | [], _ => None
      | [_], [] => None
      | _, [] => giveBack seps
      | _, _ => restOfLine r2
      end
  end.

(** [(?:Chapter\s+)] under the flag [i], anchored at the start of [s]: what
    follows the keyword and its white space. *)
Definition afterChapterKeyword (s : jsstring) : option jsstring :=
  if startsWith (toLowerCase s) (lit "chapter") then
    match span isWhiteSpace (skipn 7 s) with
    | ([], _) => None
    | (_, r) => Some r
    end
  else None.

(** [trimmedLine.match(/^(?:Chapter\s+)?(\d+)[:\.\s]+(.+)$/i)]: the second
    group of the match, [None] when the line does not match. *)
Definition chapterMatch (trimmedLine : jsstring) : option jsstring :=
  match afterChapterKeyword trimmedLine with
  | Some r =>
      match matchNumbered r with
      | Some t => Some t
      | None => matchNumbered trimmedLine
      end
  | None => matchNumbered trimmedLine
  end.

(** The optional label of a section line, that is the word Section, white
    space, digits, a dot, digits, a colon and optional white space,
    followed by [(.+)$]; anchored at the start of [s].  The result is the
    group, [None] when the label or the title is missing. *)
Definition afterSectionLabel (s : jsstring) : option jsstring :=
  if startsWith s (lit "Section") then
    let '(ws, r1) := span isWhiteSpace (skipn 7 s) in
    let '(d1, r2) := span isDigit r1 in
    match ws, d1, r2 with
    | _ :: _, _ :: _, dot :: r3 =>
        let '(d2, r4) := span isDigit r3 in
        match d2, r4 with
        | _ :: _, colon :: r5 =>
            if ((dot =? 46) && (colon =? 58))%N then
              let '(ws2, r6) := span isWhiteSpace r5 in
              match r6 with
              | [] => giveBack ws2
              | _ => restOfLine r6
              end
            else None
        | _, _ => None
        end
    | _, _, _ => None
    end
  else None.

(** [trimmedLine.match(...)] for the pattern of section lines: a hyphen or
    a bullet U+2022 at the start, optional white space, the optional label
    above, then [(.+)$].  The result is the group of the match. *)
Definition sectionMatch (trimmedLine : jsstring) : option jsstring :=
  match trimmedLine with
  | bullet :: r0 =>
      if ((bullet =? 45) || (bullet =? 8226))%N then
        let '(ws, r1) := span isWhiteSpace r0 in
        match afterSectionLabel r1 with
        | Some t => Some t
        | None =>
            match r1 with
            | [] => giveBack ws
            | _ => restOfLine r1
            end
        end
      else None
  | [] => None
  end.

(** The condition of the first [if] of the loop, on a line of the text. *)
Definition isChapterHeader (line : jsstring) : bool :=
  let trimmedLine := trim line in
  match chapterMatch trimmedLine with
  | Some _ => negb (startsWith trimmedLine (lit "-"))
  | None => false
  end.

(** The variables of the loop over the lines. *)
Record ParseState : Type := {
  chapters : list Chapter;
  currentChapter : option Chapter;
  chapterNumber : Z
}.

(** [currentChapter.sections.push(t)] *)
Definition pushSection (t : jsstring) (c : Chapter) : Chapter :=
  {| number := number c; title := title c; sections := sections c ++ [t];
     targetWordCount := targetWordCount c |}.

(** The body of the loop, for one line. *)
Definition parseLine (wordsPerChapter : Z) (st : ParseState) (line : jsstring)
  : ParseState :=
  let trimmedLine := trim line in
  let st :=
    match chapterMatch trimmedLine with
    | Some group2 =>
        if negb (startsWith trimmedLine (lit "-")) then
          {| chapters :=
               match currentChapter st with
               | Some c => chapters st ++ [c]
               | None => chapters st
               end;
             currentChapter :=
               Some {| number := chapterNumber st; title := trim group2;
                       sections := []; targetWordCount := wordsPerChapter |};
             chapterNumber := chapterNumber st + 1 |}
        else st
    | None => st
    end in
  match sectionMatch trimmedLine, currentChapter st with
  | Some group1, Some c =>
      {| chapters := chapters st;
         currentChapter := Some (pushSection (trim group1) c);
         chapterNumber := chapterNumber st |}
  | _, _ => st
  end.

(** The default structure: [for (let i = 1; i <= 8; i++)]. *)
Definition defaultChapter (wordsPerChapter : Z) (i : Z) : Chapter :=
  {| number := i; title := lit "Chapter " ++ ofZ i;
     sections := [lit "Introduction"; lit "Core Concepts";
                  lit "Practical Examples"; lit "Advanced Topics";
                  lit "Summary"];
     targetWordCount := wordsPerChapter |}.

Definition parseOutlineIntoChapters (outlineText : jsstring)
  (targetWordCount : Z) : list Chapter :=
  let lines := splitLines outlineText in
  let estimatedChapters := 10 in
  let wordsPerChapter := targetWordCount / estimatedChapters in
  let st := fold_left (parseLine wordsPerChapter) lines
              {| chapters := []; currentChapter := None; chapterNumber := 1 |} in
  let chapters :=
    match currentChapter st with
    | Some c => chapters st ++ [c]
    | None => chapters st
    end in
  match chapters with
  | [] => List.map (defaultChapter wordsPerChapter) [1; 2; 3; 4; 5; 6; 7; 8]
  | _ => chapters
  end.

End Outline.

(* ===================================================================== *)
(** * The workflow (improvedEducationalContentWorkflow)                   *)
(* ===================================================================== *)

Module Workflow.

Import ProgressTracking.Context.

(** The schemas that the steps exchange. *)
Module PlanInput.
Record t : Type := {
  topic : jsstring;
  targetAudience : jsstring;
  targetWordCount : Z
}.
End PlanInput.

Module PlanOutput.
Record t : Type := {
  workflowId : jsstring;
  topic : jsstring;
  outline : jsstring;
  chapters : list Outline.Chapter;
  totalSections : Z;
  progressInitialized : bool
}.
End PlanOutput.

Module GeneratedSection.
Record t : Type := {
  title : jsstring;
  content : jsstring;
  wordCount : Z
}.
End GeneratedSection.

Module GeneratedChapter.
Record t : Type := {
  number : Z;
  title : jsstring;
  content : jsstring;
  wordCount : Z;
  sections : list GeneratedSection.t
}.
End GeneratedChapter.

Module GenerateOutput.
Record t : Type := {
  workflowId : jsstring;
  topic : jsstring;
  generatedChapters : list GeneratedChapter.t;
  totalWordCount : Z;
  allContentGenerated : bool
}.
End GenerateOutput.

Module ReviewOutput.
Record t : Type := {
  workflowId : jsstring;
  topic : jsstring;
  reviewSummary : jsstring;
  qualityScore : Q;
  approvedForPublication : bool;
  finalChapters : list (jsstring * jsstring);
  finalWordCount : Z
}.
End ReviewOutput.

Module PdfOutput.
Record t : Type := {
  workflowId : jsstring;
  topic : jsstring;
  bookGenerated : bool;
  bookPath : option jsstring;
  fileSize : option Z;
  finalWordCount : Z;
  qualityScore : Q;
  completedAt : Z
}.
End PdfOutput.

(** ** Step 1: initializeAndPlanStep *)

Definition initializeAndPlanStep (inputData : PlanInput.t) : M PlanOutput.t :=
  let topic := PlanInput.topic inputData in
  let targetWordCount := PlanInput.targetWordCount inputData in
  now <- ask dateNow ;;
  suffix <- ask mathRandom ;;
  let workflowId := lit "edu-" ++ ofZ now ++ lit "-" ++ suffix in
  outlineText <- await ideaGenerationAgent ;;
  let chapters := Outline.parseOutlineIntoChapters outlineText targetWordCount in
  let totalSections :=
    fold_left (fun sum chapter =>
                 sum + Z.of_nat (List.length (Outline.sections chapter)))
      chapters 0 in
  progressResult <-
    progressTrackingTool_execute
      {| action := ProgressTracking.Initialize; workflowId := workflowId;
         topic := Some topic;
         totalChapters := Some (Z.of_nat (List.length chapters));
         totalSections := Some totalSections;
         targetWordCount := Some targetWordCount;
         currentStep := None; completedChapters := None;
         completedSections := None; totalWordsGenerated := None;
         chapterCompleted := None; error := None |} ;;
  ret {| PlanOutput.workflowId := workflowId; PlanOutput.topic := topic;
         PlanOutput.outline := outlineText; PlanOutput.chapters := chapters;
         PlanOutput.totalSections := totalSections;
         PlanOutput.progressInitialized :=
           ProgressTracking.success progressResult |}.

(** ** Step 2: generateAllContentStep *)

(** The progress updates that the step sends. *)
Definition updateChapterStart (workflowId : jsstring)
  (chapter : Outline.Chapter) (completedSections : Z)
  : ProgressTracking.Context.t :=
  {| action := ProgressTracking.Update; workflowId := workflowId;
     topic := None; totalChapters := None; totalSections := None;
     targetWordCount := None;
     currentStep :=
       Some (lit "Generating Chapter " ++ ofZ (Outline.number chapter)
             ++ lit ": " ++ Outline.title chapter);
     completedChapters := None;
     completedSections := Some completedSections;
     totalWordsGenerated := None; chapterCompleted := None; error := None |}.

Definition updateSectionDone (workflowId : jsstring)
  (completedSections totalWordsGenerated : Z) : ProgressTracking.Context.t :=
  {| action := ProgressTracking.Update; workflowId := workflowId;
     topic := None; totalChapters := None; totalSections := None;
     targetWordCount := None; currentStep := None;
     completedChapters := None;
     completedSections := Some completedSections;
     totalWordsGenerated := Some totalWordsGenerated;
     chapterCompleted := None; error := None |}.

Definition updateSectionError (workflowId sectionTitle message : jsstring)
  : ProgressTracking.Context.t :=
  {| action := ProgressTracking.Update; workflowId := workflowId;
     topic := None; totalChapters := None; totalSections := None;
     targetWordCount := None; currentStep := None;
     completedChapters := None; completedSections := None;
     totalWordsGenerated := None; chapterCompleted := None;
     error :=
       Some (lit "Failed to generate section " ++ dquote ++ sectionTitle
             ++ dquote ++ lit ": " ++ message) |}.

Definition updateChapterDone (workflowId : jsstring)
  (chapter : Outline.Chapter) (completedChapters totalWordCount
   chapterWordCount : Z) : ProgressTracking.Context.t :=
  {| action := ProgressTracking.Update; workflowId := workflowId;
     topic := None; totalChapters := None; totalSections := None;
     targetWordCount := None; currentStep := None;
     completedChapters := Some completedChapters;
     completedSections := None;
     totalWordsGenerated := Some totalWordCount;
     chapterCompleted :=
       Some (Outline.number chapter, Outline.title chapter, chapterWordCount);
     error := None |}.

(** The updates of the current step, in steps 3 and 4, and the call with
    action [fail]. *)
Definition updateStep (workflowId step : jsstring)
  : ProgressTracking.Context.t :=
  {| action := ProgressTracking.Update; workflowId := workflowId;
     topic := None; totalChapters := None; totalSections := None;
     targetWordCount := None; currentStep := Some step;
     completedChapters := None; completedSections := None;
     totalWordsGenerated := None; chapterCompleted := None; error := None |}.

Definition failWith (workflowId message : jsstring)
  : ProgressTracking.Context.t :=
  {| action := ProgressTracking.Fail; workflowId := workflowId;
     topic := None; totalChapters := None; totalSections := None;
     targetWordCount := None; currentStep := None;
     completedChapters := None; completedSections := None;
     totalWordsGenerated := None; chapterCompleted := None;
     error := Some message |}.

(** The variables that the loop over the sections of a chapter changes. *)
Record SectionVars : Type := {
  chapterSections : list GeneratedSection.t;
  chapterWordCount : Z;
  completedSections : Z
}.

(** The loop over the sections of [chapter]: [rest] are the titles from
    index [sectionIndex] on. *)
Fixpoint sectionLoop (workflowId topic outline : jsstring)
  (chapter : Outline.Chapter) (targetWordsPerSection totalWordCount : Z)
  (rest : list jsstring) (sectionIndex : nat) (vars : SectionVars)
  : M SectionVars :=
  match rest with
  | [] => ret vars
  | sectionTitle :: rest' =>
      vars' <-
        tryCatch
          (sectionResult <-
             ChunkedGeneration.execute
               {| ChunkedGeneration.topic := topic;
                  ChunkedGeneration.chapterTitle := Outline.title chapter;
                  ChunkedGeneration.chapterNumber := Outline.number chapter;
                  ChunkedGeneration.sectionTitles := Outline.sections chapter;
                  ChunkedGeneration.targetWordsPerSection :=
                    targetWordsPerSection;
                  ChunkedGeneration.context := outline;
                  ChunkedGeneration.retryAttempts := Some 3 |}
               sectionIndex ;;
           let chunk := fst sectionResult in
           let vars' :=
             {| chapterSections :=
                  chapterSections vars
                  ++ [ {| GeneratedSection.title :=
                            ChunkedGeneration.sectionTitle chunk;
                          GeneratedSection.content :=
                            ChunkedGeneration.content chunk;
                          GeneratedSection.wordCount :=
                            ChunkedGeneration.wordCount chunk |} ];
                chapterWordCount :=
                  chapterWordCount vars + ChunkedGeneration.wordCount chunk;
                completedSections := completedSections vars + 1 |} in
           progressTrackingTool_execute
             (updateSectionDone workflowId (completedSections vars')
                (totalWordCount + chapterWordCount vars')) ;;;
           ret vars')
          (fun error =>
             progressTrackingTool_execute
               (updateSectionError workflowId sectionTitle error) ;;;
             throw error) ;;
      sectionLoop workflowId topic outline chapter targetWordsPerSection
        totalWordCount rest' (S sectionIndex) vars'
  end.

(** [`## ${section.title}\n\n${section.content}`] joined by two line feeds. *)
Definition chapterContentOf (chapterSections : list GeneratedSection.t)
  : jsstring :=
  join [10%N; 10%N]
    (List.map (fun section =>
                 lit "## " ++ GeneratedSection.title section
                 ++ [10%N; 10%N] ++ GeneratedSection.content section)
       chapterSections).

(** The variables that the loop over the chapters changes. *)
Record ChapterVars : Type := {
  generatedChapters : list GeneratedChapter.t;
  totalWordCount : Z;
  completedSectionsSoFar : Z
}.

(** The loop [for (const chapter of chapters)].  The quotient
    [targetWordCount / sections.length] is used only inside the loop over
    the sections, which does not run when there is no section. *)
Fixpoint chapterLoop (workflowId topic outline : jsstring)
  (chapters : list Outline.Chapter) (vars : ChapterVars) : M ChapterVars :=
  match chapters with
  | [] => ret vars
  | chapter :: rest =>
      progressTrackingTool_execute
        (updateChapterStart workflowId chapter (completedSectionsSoFar vars)) ;;;
      let targetWordsPerSection :=
        Outline.targetWordCount chapter
        / Z.of_nat (List.length (Outline.sections chapter)) in
      sv <- sectionLoop workflowId topic outline chapter targetWordsPerSection
              (totalWordCount vars) (Outline.sections chapter) 0
              {| chapterSections := []; chapterWordCount := 0;
                 completedSections := completedSectionsSoFar vars |} ;;
      let generated :=
        generatedChapters vars
        ++ [ {| GeneratedChapter.number := Outline.number chapter;
                GeneratedChapter.title := Outline.title chapter;
                GeneratedChapter.content :=
                  chapterContentOf (chapterSections sv);
                GeneratedChapter.wordCount := chapterWordCount sv;
                GeneratedChapter.sections := chapterSections sv |} ] in
      let total := totalWordCount vars + chapterWordCount sv in
      progressTrackingTool_execute
        (updateChapterDone workflowId chapter
           (Z.of_nat (List.length generated)) total (chapterWordCount sv)) ;;;
      chapterLoop workflowId topic outline rest
        {| generatedChapters := generated; totalWordCount := total;
           completedSectionsSoFar := completedSections sv |}
  end.

Definition generateAllContentStep (inputData : PlanOutput.t)
  : M GenerateOutput.t :=
  let workflowId := PlanOutput.workflowId inputData in
  let topic := PlanOutput.topic inputData in
  vars <- chapterLoop workflowId topic (PlanOutput.outline inputData)
            (PlanOutput.chapters inputData)
            {| generatedChapters := []; totalWordCount := 0;
               completedSectionsSoFar := 0 |} ;;
  ret {| GenerateOutput.workflowId := workflowId;
         GenerateOutput.topic := topic;
         GenerateOutput.generatedChapters := generatedChapters vars;
         GenerateOutput.totalWordCount := totalWordCount vars;
         GenerateOutput.allContentGenerated := true |}.

(** ** Step 3: reviewContentStep *)

(** The number written by the digits [ip], a dot and the digits [fp]: what
    [parseFloat] reads, as an exact rational. *)
Definition digitsValue (ds : jsstring) : Z :=
  fold_left (fun acc d => 10 * acc + (Z.of_N d - 48)) ds 0.

Definition decimalValue (ip fp : jsstring) : Q :=
  inject_Z (digitsValue (ip ++ fp)) / inject_Z (10 ^ Z.of_nat (List.length fp)).

(** [[:\s]] *)
Definition isColonOrSpace (c : N) : bool := (c =? 58)%N || isWhiteSpace c.

(** The pattern of the score under the flag [i], anchored at the start of
    [s]: the words quality score, any run of colons and white space, then
    digits with an optional fraction.  The result is the value of the
    group. *)
Definition scoreAt (s : jsstring) : option Q :=
  if startsWith (toLowerCase s) (lit "quality score") then
    let '(_, r) := Outline.span isColonOrSpace (skipn 13 s) in
    let '(ip, r1) := Outline.span isDigit r in
    match ip, r1 with
    | [], _ => None
    | _, dot :: r2 =>
        let '(fp, _) := Outline.span isDigit r2 in
        if (dot =? 46)%N then Some (decimalValue ip fp)
        else Some (decimalValue ip [])
    | _, [] => Some (decimalValue ip [])
    end
  else None.

(** [reviewText.match(...)]: the leftmost position where the pattern
    matches. *)
Fixpoint scoreMatch (reviewText : jsstring) : option Q :=
  match scoreAt reviewText with
  | Some q => Some q
  | None =>
      match reviewText with
      | [] => None
      | _ :: rest => scoreMatch rest
      end
  end.

Definition reviewContentStep (inputData : GenerateOutput.t)
  : M ReviewOutput.t :=
  let workflowId := GenerateOutput.workflowId inputData in
  progressTrackingTool_execute
    (updateStep workflowId (lit "Reviewing generated content")) ;;;
  reviewText <- await reviewAgent ;;
  let qualityScore :=
    match scoreMatch reviewText with
    | Some q => q
    | None => 75 # 10
    end in
  let approved := Gate.approvedForPublication qualityScore reviewText in
  let finalChapters :=
    List.map (fun chapter =>
                (GeneratedChapter.title chapter,
                 GeneratedChapter.content chapter))
      (GenerateOutput.generatedChapters inputData) in
  ret {| ReviewOutput.workflowId := workflowId;
         ReviewOutput.topic := GenerateOutput.topic inputData;
         ReviewOutput.reviewSummary := reviewText;
         ReviewOutput.qualityScore := qualityScore;
         ReviewOutput.approvedForPublication := approved;
         ReviewOutput.finalChapters := finalChapters;
         ReviewOutput.finalWordCount :=
           GenerateOutput.totalWordCount inputData |}.

(** ** Step 4: generateFinalPDFStep *)

(** The text of [${qualityScore}] is not part of the model: the message of
    a rejection ends where the score would be printed. *)
Definition generateFinalPDFStep (inputData : ReviewOutput.t) : M PdfOutput.t :=
  let workflowId := ReviewOutput.workflowId inputData in
  let topic := ReviewOutput.topic inputData in
  let finalWordCount := ReviewOutput.finalWordCount inputData in
  let qualityScore := ReviewOutput.qualityScore inputData in
  progressTrackingTool_execute
    (updateStep workflowId (lit "Generating final PDF")) ;;;
  if negb (ReviewOutput.approvedForPublication inputData) then
    progressTrackingTool_execute
      (failWith workflowId
         (lit "Content not approved for publication (quality score: ")) ;;;
    completedAt <- ask dateNow ;;
    ret {| PdfOutput.workflowId := workflowId; PdfOutput.topic := topic;
           PdfOutput.bookGenerated := false; PdfOutput.bookPath := None;
           PdfOutput.fileSize := None;
           PdfOutput.finalWordCount := finalWordCount;
           PdfOutput.qualityScore := qualityScore;
           PdfOutput.completedAt := completedAt |}
  else
    tryCatch
      (pdfResult <- await generatePDF ;;
       progressTrackingTool_execute
         (bare ProgressTracking.Complete workflowId) ;;;
       completedAt <- ask dateNow ;;
       ret {| PdfOutput.workflowId := workflowId; PdfOutput.topic := topic;
              PdfOutput.bookGenerated := true;
              PdfOutput.bookPath := Some (path pdfResult);
              PdfOutput.fileSize := Some (fileSize pdfResult);
              PdfOutput.finalWordCount := finalWordCount;
              PdfOutput.qualityScore := qualityScore;
              PdfOutput.completedAt := completedAt |})
      (fun error =>
         progressTrackingTool_execute
           (failWith workflowId (lit "PDF generation failed: " ++ error)) ;;;
         throw error).

(** ** The workflow: the four steps in order, a rejection ending the run. *)
Definition improvedEducationalContentWorkflow (inputData : PlanInput.t)
  : M PdfOutput.t :=
  plan <- initializeAndPlanStep inputData ;;
  generated <- generateAllContentStep plan ;;
  review <- reviewContentStep generated ;;
  generateFinalPDFStep review.

(** The id that step 1 gives to a run started in the world [w]. *)
Definition workflowIdOf (w : World) : jsstring :=
  lit "edu-" ++ ofZ (dateNow w (tick w)) ++ lit "-" ++ mathRandom w (S (tick w)).

End Workflow.

(** ** Observations on the log of events *)

(** The records stored after the calls with action [update], in order. *)
Fixpoint storedAfterUpdates (l : list Event)
  : list ProgressTracking.ProgressData :=
  match l with
  | ProgressCall ProgressTracking.Update (Some p) :: l' =>
      p :: storedAfterUpdates l'
  | _ :: l' => storedAfterUpdates l'
  | [] => []
  end.

(** A list of integers never decreases from one element to the next. *)
Fixpoint nondecreasing (l : list Z) : Prop :=
  match l with
  | a :: (b :: _) as l' => a <= b /\ nondecreasing l'
  | _ => True
  end.

(** "getProgress(runId).status": the status in the file of the run. *)
Definition statusOf (workflowId : jsstring) (w : World)
  : option ProgressTracking.Status :=
  match files w !! workflowId with
  | Some p => Some (ProgressTracking.status p)
  | None => None
  end.

(** The number of generation attempts in a log. *)
Definition attemptsMade (tr : list Event) : nat :=
  List.length
    (List.filter (fun e => match e with Attempt _ => true | _ => false end) tr).

(** ** The backoff schedule, in the words of the specification *)

(** The wait before attempt [k], for [k >= 2]. *)
Definition waitBefore (k : Z) : Z := Z.min (1000 * 2 ^ (k - 2)) 30000.

(** Attempt 1 has no prior wait; a later attempt comes after its wait. *)
Definition beforeAttempt (k : Z) : list Event :=
  if k <=? 1 then [] else [Sleep (waitBefore k)].

(** The log of a retry sequence of [n] attempts. *)
Definition retrySequence (n : nat) : list Event :=
  flat_map (fun k => beforeAttempt k ++ [Attempt k])
    (List.map Z.of_nat (seq 1 n)).

(** The events of the loop entered at attempt [a] that makes [n] attempts. *)
Definition loopEvents (a : nat) (n : nat) : list Event :=
  match n with
  | O => []
  | S m =>
      Attempt (Z.of_nat a)
      :: flat_map (fun k => beforeAttempt k ++ [Attempt k])
           (List.map Z.of_nat (seq (S a) m))
  end.

(** ** The fallback outline, in the words of the specification *)

Definition fallbackOutline (requestedTotalWordCount : Z)
  : list Outline.Chapter :=
  List.map
    (fun '(i, name) =>
       {| Outline.number := i; Outline.title := lit name;
          Outline.sections :=
            List.map lit ["Introduction"; "Core Concepts";
                          "Practical Examples"; "Advanced Topics";
                          "Summary"]%string;
          Outline.targetWordCount := requestedTotalWordCount / 10 |})
    [(1, "Chapter 1"); (2, "Chapter 2"); (3, "Chapter 3"); (4, "Chapter 4");
     (5, "Chapter 5"); (6, "Chapter 6"); (7, "Chapter 7");
     (8, "Chapter 8")]%string.

(* ===================================================================== *)
(** * Reasoning about computations                                        *)
(* ===================================================================== *)

(** Hoare triples over the monad: from a world that satisfies [P], the
    outcome and the world left satisfy [Q]. *)
Definition hoare {A : Type} (P : World -> Prop) (m : M A)
  (Q : Result A -> World -> Prop) : Prop :=
  forall w, P w -> Q (fst (m w)) (snd (m w)).

(** A property of the world is stable under a computation. *)
Definition stable {A : Type} (I : World -> Prop) (m : M A) : Prop :=
  hoare I m (fun _ w => I w).

(** The world [w'] comes after [w] without any call of the progress tool:
    same files, and only events of the adapter added. *)
Definition adapterEvent (e : Event) : Prop :=
  match e with
  | ProgressCall _ _ => False
  | _ => True
  end.

Definition quietly (w w' : World) : Prop :=
  files w' = files w
  /\ exists tr, events w' = events w ++ tr /\ Forall adapterEvent tr.

(** A computation is quiet when it leaves the progress files alone and logs
    no call of the progress tool. *)
Definition quiet {A : Type} (m : M A) : Prop :=
  forall w, quietly w (snd (m w)).

Definition statusIs (wid : jsstring) (st : option ProgressTracking.Status)
  (w : World) : Prop :=
  statusOf wid w = st.

(** Invariant of a run with id [wid] started when the log was [ev0]: the
    log has grown by [tr]; the counters stored after the updates of [tr]
    never decrease; the record of the run, when there is one, bounds them
    and is itself bounded by the counters [s] and [c] of the step. *)
Definition Inv (ev0 : list Event) (wid : jsstring) (s c : Z) (w : World)
  : Prop :=
  exists tr,
    events w = ev0 ++ tr
    /\ nondecreasing
         (List.map ProgressTracking.completedSections (storedAfterUpdates tr))
    /\ nondecreasing
         (List.map ProgressTracking.completedChapters (storedAfterUpdates tr))
    /\ match files w !! wid with
       | None => storedAfterUpdates tr = []
       | Some p =>
           ProgressTracking.completedSections p <= s
           /\ ProgressTracking.completedChapters p <= c
           /\ Forall
                (fun q =>
                   ProgressTracking.completedSections q
                   <= ProgressTracking.completedSections p
                   /\ ProgressTracking.completedChapters q
                      <= ProgressTracking.completedChapters p)
                (storedAfterUpdates tr)
       end.

Definition InvE (ev0 : list Event) (wid : jsstring) (w : World) : Prop :=
  exists s c, Inv ev0 wid s c w.

(* ===================================================================== *)
(** * Book file name (generatePDF) and time estimate (progressTrackingTool) *)
(* ===================================================================== *)

Module PdfGeneration.

(** [[a-zA-Z0-9]] *)
Definition isAlphaNumeric (c : N) : bool :=
  let c := Z.of_N c in
  (48 <=? c) && (c <=? 57) || (65 <=? c) && (c <=? 90)
  || (97 <=? c) && (c <=? 122).

(** [bookContent.title.replace(/[^a-zA-Z0-9]/g, '_')] *)
Definition sanitizedTitle (title : jsstring) : jsstring :=
  List.map (fun c => if isAlphaNumeric c then c else 95%N) title.

(** [new Date().toISOString().replace(/[:.]/g, '-')], on the ISO text. *)
Definition timestampOf (iso : jsstring) : jsstring :=
  List.map (fun c => if ((c =? 58) || (c =? 46))%N then 45%N else c) iso.

(** [`${sanitizedTitle}_${timestamp}`], the name of the file without its
    directory and its extension. *)
Definition filename (title iso : jsstring) : jsstring :=
  sanitizedTitle title ++ lit "_" ++ timestampOf iso.

End PdfGeneration.

Module TimeEstimate.

(** [x % m] on numbers, for [m > 0]: the remainder has the sign of [x]. *)
Definition truncate (x : Q) : Z :=
  if Qle_bool 0 x then Qfloor x else Qceiling x.

Definition remainder (x m : Q) : Q := x - m * inject_Z (truncate (x / m)).

(** The text [estimatedTimeRemaining] of the progress tool, computed at the
    instant [currentTime] from the record that the call leaves. *)
Definition estimatedTimeRemaining (currentTime : Z)
  (p : ProgressTracking.ProgressData) : jsstring :=
  if 0 <? ProgressTracking.completedSections p then
    let elapsedMs := currentTime - ProgressTracking.startTime p in
    let avgTimePerSection :=
      (inject_Z elapsedMs / inject_Z (ProgressTracking.completedSections p))%Q in
    let remainingSections :=
      ProgressTracking.totalSections p - ProgressTracking.completedSections p in
    let remainingMs := (avgTimePerSection * inject_Z remainingSections)%Q in
    let hours := Qfloor (remainingMs / inject_Z (1000 * 60 * 60)) in
    let minutes :=
      Qfloor (remainder remainingMs (inject_Z (1000 * 60 * 60))
              / inject_Z (1000 * 60)) in
    if 0 <? hours then ofZ hours ++ lit "h " ++ ofZ minutes ++ lit "m"
    else ofZ minutes ++ lit "m"
  else lit "Calculating...".

End TimeEstimate.

(* ===================================================================== *)
(** * Notions used to state properties of the code                        *)
(* ===================================================================== *)

(** The sum of a list of integers. *)
Definition sumZ (l : list Z) : Z := fold_right Z.add 0 l.

(** The first answer [Ok] among the [limit] answers of [answers] from index
    [start] on: how many answers precede it, and its text. *)
Fixpoint firstSuccess (answers : nat -> Result jsstring) (start limit : nat)
  : option (nat * jsstring) :=
  match limit with
  | O => None
  | S limit' =>
      match answers start with
      | Ok text => Some (O, text)
      | Throw _ =>
          match firstSuccess answers (S start) limit' with
          | Some (k, text) => Some (S k, text)
          | None => None
          end
      end
  end.

(** The number of lines of a text that the parser takes as chapter
    headers. *)
Definition headerCount (outlineText : jsstring) : nat :=
  List.length (List.filter Outline.isChapterHeader (splitLines outlineText)).

(** The chapters that the loop of the parser has opened so far: those it
    has closed, then the one it is building. *)
Definition chaptersSoFar (st : Outline.ParseState) : list Outline.Chapter :=
  Outline.chapters st
  ++ match Outline.currentChapter st with
     | Some c => [c]
     | None => []
     end.

(** A text has no white space at either end. *)
Definition trimmed (s : jsstring) : Prop := trim s = s.

(** The entry that a call adds to the error log of a record: one entry
    when the action is [update] or [fail] and the error text is not empty. *)
Definition loggedError (now : Z) (c : ProgressTracking.Context.t)
  : list (Z * jsstring) :=
  match ProgressTracking.Context.action c, ProgressTracking.Context.error c with
  | ProgressTracking.Update, Some ((_ :: _) as e) => [(now, e)]
  | ProgressTracking.Fail, Some ((_ :: _) as e) => [(now, e)]
  | _, _ => []
  end.

(** The chapter detail that a call adds to a record. *)
Definition loggedChapter (now : Z) (c : ProgressTracking.Context.t)
  : list ProgressTracking.ChapterDetail :=
  match ProgressTracking.Context.action c,
        ProgressTracking.Context.chapterCompleted c with
  | ProgressTracking.Update, Some (n, t, wc) =>
      [{| ProgressTracking.chapterNumber := n; ProgressTracking.title := t;
          ProgressTracking.wordCount := wc;
          ProgressTracking.completedAt := now |}]
  | _, _ => []
  end.

(** The record of the run [wid] exists, with the error log [errs], the
    counters [s] and [c] and [wds] words generated. *)
Definition recordIs (wid : jsstring) (errs : list (Z * jsstring))
  (s c wds : Z) (w : World) : Prop :=
  exists p,
    files w !! wid = Some p
    /\ ProgressTracking.errors p = errs
    /\ ProgressTracking.completedSections p = s
    /\ ProgressTracking.completedChapters p = c
    /\ ProgressTracking.totalWordsGenerated p = wds.

(** The word counts and the section counts of generated chapters. *)
Definition chapterWords (l : list Workflow.GeneratedChapter.t) : list Z :=
  List.map Workflow.GeneratedChapter.wordCount l.

Definition sectionWords (l : list Workflow.GeneratedSection.t) : list Z :=
  List.map Workflow.GeneratedSection.wordCount l.

Definition sectionCounts (l : list Workflow.GeneratedChapter.t) : list Z :=
  List.map (fun g => Z.of_nat (List.length (Workflow.GeneratedChapter.sections g)))
    l.

(** A generated chapter is coherent with the chapter of the outline it was
    written for. *)
Definition writtenFor (chapter : Outline.Chapter)
  (g : Workflow.GeneratedChapter.t) : Prop :=
  Workflow.GeneratedChapter.number g = Outline.number chapter
  /\ Workflow.GeneratedChapter.title g = Outline.title chapter
  /\ List.map Workflow.GeneratedSection.title
       (Workflow.GeneratedChapter.sections g)
     = Outline.sections chapter
  /\ Workflow.GeneratedChapter.wordCount g
     = sumZ (sectionWords (Workflow.GeneratedChapter.sections g))
  /\ Workflow.GeneratedChapter.content g
     = Workflow.chapterContentOf (Workflow.GeneratedChapter.sections g).

(** The error text that step 2 records when a section fails. *)
Definition sectionFailure (sectionTitle message : jsstring) : jsstring :=
  lit "Failed to generate section " ++ dquote ++ sectionTitle ++ dquote
  ++ lit ": " ++ message.

(** The shape of the chapters that the loop of the parser has opened so
    far: [n] of them, numbered from 1 in order, the next number ready, each
    with the budget [wpc], trimmed titles and trimmed sections. *)
Definition shaped (wpc : Z) (n : nat) (st : Outline.ParseState) : Prop :=
  List.length (chaptersSoFar st) = n
  /\ List.map Outline.number (chaptersSoFar st) = List.map Z.of_nat (seq 1 n)
  /\ Outline.chapterNumber st = Z.of_nat n + 1
  /\ Forall (fun c => Outline.targetWordCount c = wpc) (chaptersSoFar st)
  /\ Forall (fun c => trimmed (Outline.title c)
                      /\ Forall trimmed (Outline.sections c))
       (chaptersSoFar st).

(** The record of a run whose step 2 has failed with [message]: its error
    log is [errs] and one more entry, for a section among [titles]. *)
Definition failedOnce (wid : jsstring) (errs : list (Z * jsstring))
  (titles : list jsstring) (message : jsstring) (w : World) : Prop :=
  exists p t title,
    files w !! wid = Some p
    /\ In title titles
    /\ ProgressTracking.errors p
       = errs ++ [(t, sectionFailure title message)].

(** The units of the text of [toISOString]: digits, [T], [Z], [-], [:]
    and [.]. *)
Definition isoUnit (c : N) : bool :=
  isDigit c || (c =? 84)%N || (c =? 90)%N || (c =? 45)%N || (c =? 58)%N
  || (c =? 46)%N.

(** The units of a file name that is safe in any directory: letters,
    digits, [_] and [-]. *)
Definition nameUnit (c : N) : bool :=
  PdfGeneration.isAlphaNumeric c || (c =? 95)%N || (c =? 45)%N.

(* ===================================================================== *)
(** * Sample runs                                                         *)
(* ===================================================================== *)

Module Samples.

Definition lineFeed : jsstring := [10%N].

(** An outline of one chapter with two sections. *)
Definition outlineText : jsstring :=
  lit "Chapter 1: Basics" ++ lineFeed
  ++ lit "- Section 1.1: Values" ++ lineFeed
  ++ lit "- Section 1.2: Types".

(** A world with no progress file, whose writing agent answers [writer]. *)
Definition world (writer : nat -> Result jsstring) : World :=
  {| files := ∅; events := []; tick := 0;
     dateNow := fun n => 1700000000000 + Z.of_nat n;
     mathRandom := fun _ => lit "k3x9q2m7p";
     ideaGenerationAgent := fun _ => Ok outlineText;
     writingAgent := writer;
     reviewAgent := fun _ => Ok (lit "Quality score: 8. Approve.");
     generatePDF :=
       fun _ => Ok {| path := lit "generated_books/book.html";
                      fileSize := 2048 |} |}.

Definition failingWriter : nat -> Result jsstring :=
  fun _ => Throw (lit "model overloaded").

Definition workingWriter : nat -> Result jsstring :=
  fun _ => Ok (lit "Values are what programs compute.").

Definition inputData : Workflow.PlanInput.t :=
  {| Workflow.PlanInput.topic := lit "X";
     Workflow.PlanInput.targetAudience := lit "Y";
     Workflow.PlanInput.targetWordCount := 8000 |}.

(** The run of step 1 in the world whose writing agent always fails. *)
Definition planned : Result Workflow.PlanOutput.t * World :=
  Workflow.initializeAndPlanStep inputData (world failingWriter).

Definition plan : Workflow.PlanOutput.t :=
  match fst planned with
  | Ok p => p
  | Throw _ =>
      {| Workflow.PlanOutput.workflowId := []; Workflow.PlanOutput.topic := [];
         Workflow.PlanOutput.outline := []; Workflow.PlanOutput.chapters := [];
         Workflow.PlanOutput.totalSections := 0;
         Workflow.PlanOutput.progressInitialized := false |}
  end.

(** Calls of the progress store on the run [run-1]. *)
Definition runId : jsstring := lit "run-1".

Definition initializeCall : ProgressTracking.Context.t :=
  {| ProgressTracking.Context.action := ProgressTracking.Initialize;
     ProgressTracking.Context.workflowId := runId;
     ProgressTracking.Context.topic := Some (lit "X");
     ProgressTracking.Context.totalChapters := Some 1;
     ProgressTracking.Context.totalSections := Some 10;
     ProgressTracking.Context.targetWordCount := Some 1000;
     ProgressTracking.Context.currentStep := None;
     ProgressTracking.Context.completedChapters := None;
     ProgressTracking.Context.completedSections := None;
     ProgressTracking.Context.totalWordsGenerated := None;
     ProgressTracking.Context.chapterCompleted := None;
     ProgressTracking.Context.error := None |}.

(** The record that [initializeCall] creates at instant 1. *)
Definition created : ProgressTracking.ProgressData :=
  {| ProgressTracking.workflowId := runId;
     ProgressTracking.topic := lit "X";
     ProgressTracking.startTime := 1;
     ProgressTracking.currentStep := lit "Initializing";
     ProgressTracking.completedChapters := 0;
     ProgressTracking.totalChapters := 1;
     ProgressTracking.completedSections := 0;
     ProgressTracking.totalSections := 10;
     ProgressTracking.totalWordsGenerated := 0;
     ProgressTracking.targetWordCount := 1000;
     ProgressTracking.lastUpdate := 1;
     ProgressTracking.status := ProgressTracking.in_progress;
     ProgressTracking.errors := [];
     ProgressTracking.completedChapterDetails := [] |}.

(** The files after [initialize], and after [initialize] then [complete]. *)
Definition initialized : ProgressTracking.Files :=
  snd (ProgressTracking.execute 1 initializeCall ∅).

Definition completedRun : ProgressTracking.Files :=
  snd (ProgressTracking.execute 2
         (ProgressTracking.Context.bare ProgressTracking.Complete runId)
         initialized).

End Samples.

(** A run in the world whose writing agent always answers. *)
Module MoreSamples.

Definition planned : Result Workflow.PlanOutput.t * World :=
  Workflow.initializeAndPlanStep Samples.inputData
    (Samples.world Samples.workingWriter).

Definition generated : Result Workflow.GenerateOutput.t * World :=
  Workflow.generateAllContentStep Samples.plan (snd planned).

Definition generatedOutput : Workflow.GenerateOutput.t :=
  match fst generated with
  | Ok g => g
  | Throw _ =>
      {| Workflow.GenerateOutput.workflowId := [];
         Workflow.GenerateOutput.topic := [];
         Workflow.GenerateOutput.generatedChapters := [];
         Workflow.GenerateOutput.totalWordCount := 0;
         Workflow.GenerateOutput.allContentGenerated := false |}
  end.

Definition reviewed : Result Workflow.ReviewOutput.t * World :=
  Workflow.reviewContentStep generatedOutput (snd generated).

Definition reviewedOutput : Workflow.ReviewOutput.t :=
  match fst reviewed with
  | Ok r => r
  | Throw _ =>
      {| Workflow.ReviewOutput.workflowId := [];
         Workflow.ReviewOutput.topic := [];
         Workflow.ReviewOutput.reviewSummary := [];
         Workflow.ReviewOutput.qualityScore := 0;
         Workflow.ReviewOutput.approvedForPublication := false;
         Workflow.ReviewOutput.finalChapters := [];
         Workflow.ReviewOutput.finalWordCount := 0 |}
  end.

(** The instant of a [toISOString]. *)
Definition isoText : jsstring := lit "2026-01-02T03:04:05.678Z".

(** A world like [Samples.world], with the answer [review] of the review
    agent. *)
Definition reviewWorld (review : jsstring) : World :=
  {| files := Samples.initialized; events := []; tick := 0;
     dateNow := fun n => 1700000000000 + Z.of_nat n;
     mathRandom := fun _ => lit "k3x9q2m7p";
     ideaGenerationAgent := fun _ => Ok Samples.outlineText;
     writingAgent := Samples.workingWriter;
     reviewAgent := fun _ => Ok review;
     generatePDF :=
       fun _ => Ok {| path := lit "generated_books/book.html";
                      fileSize := 2048 |} |}.

Definition generatedSample : Workflow.GenerateOutput.t :=
  {| Workflow.GenerateOutput.workflowId := Samples.runId;
     Workflow.GenerateOutput.topic := lit "X";
     Workflow.GenerateOutput.generatedChapters := [];
     Workflow.GenerateOutput.totalWordCount := 1200;
     Workflow.GenerateOutput.allContentGenerated := true |}.

(** The record of [Samples.created] once its ten sections are written. *)
Definition allDone : ProgressTracking.ProgressData :=
  {| ProgressTracking.workflowId := Samples.runId;
     ProgressTracking.topic := lit "X";
     ProgressTracking.startTime := 1;
     ProgressTracking.currentStep := lit "Generating Chapter 1: Basics";
     ProgressTracking.completedChapters := 1;
     ProgressTracking.totalChapters := 1;
     ProgressTracking.completedSections := 10;
     ProgressTracking.totalSections := 10;
     ProgressTracking.totalWordsGenerated := 900;
     ProgressTracking.targetWordCount := 1000;
     ProgressTracking.lastUpdate := 600001;
     ProgressTracking.status := ProgressTracking.in_progress;
     ProgressTracking.errors := [];
     ProgressTracking.completedChapterDetails := [] |}.

End MoreSamples.

(* ===================================================================== *)
(** * Facts: strings and the publication gate                             *)
(* ===================================================================== *)

Section StringFacts.

Lemma startsWith_app (s p : jsstring) :
  startsWith s p = true <-> exists post, s = p ++ post.
Proof.
  revert s. induction p as [|a p IH]; intros s; simpl.
  - split; [intros _; now exists s | reflexivity].
  - destruct s as [|b s].
    + split; [discriminate | intros [post H]; discriminate].
    + rewrite andb_true_iff, N.eqb_eq, IH. split.
      * intros [-> [post ->]]. now exists post.
      * intros [post H]. injection H as -> ->.
        split; [reflexivity | now exists post].
Qed.

Lemma includes_app (s p : jsstring) :
  includes s p = true <-> exists pre post, s = pre ++ p ++ post.
Proof.
  induction s as [|c s IH]; simpl.
  - rewrite orb_false_r, startsWith_app. split.
    + intros [post H]. now exists [], post.
    + intros [pre [post H]]. destruct pre; [now exists post | discriminate].
  - rewrite orb_true_iff, startsWith_app, IH. split.
    + intros [[post H] | [pre [post H]]].
      * now exists [], post.
      * exists (c :: pre), post. simpl. now rewrite H.
    + intros [pre [post H]]. destruct pre as [|d pre]; simpl in H.
      * left. now exists post.
      * right. injection H as _ H. now exists pre, post.
Qed.

Lemma lowerUnit_idem (c : N) : lowerUnit (lowerUnit c) = lowerUnit c.
Proof.
  unfold lowerUnit.
  destruct ((65 <=? c)%N && (c <=? 90)%N) eqn:E; [|now rewrite E].
  apply andb_true_iff in E as [E1 E2].
  apply N.leb_le in E1, E2.
  replace ((65 <=? c + 32)%N && (c + 32 <=? 90)%N) with false; [reflexivity|].
  symmetry. apply andb_false_iff. right. apply N.leb_gt. lia.
Qed.

Lemma eqCI_lower (a b : jsstring) :
  Gate.eqCI a b <-> toLowerCase a = toLowerCase b.
Proof.
  unfold Gate.eqCI, toLowerCase. split.
  - induction 1; simpl; congruence.
  - revert b. induction a as [|x a IH]; intros [|y b] H; simpl in H;
      try discriminate; constructor.
    + now injection H.
    + apply IH. now injection H.
Qed.

(** Searching the lower-cased text for a lower-case phrase is searching the
    text for the phrase up to case. *)
Lemma includes_lower_containsCI (text phrase : jsstring) :
  toLowerCase phrase = phrase ->
  includes (toLowerCase text) phrase = true <-> Gate.containsCI text phrase.
Proof.
  intros Hp. rewrite includes_app. unfold Gate.containsCI. split.
  - intros [pre [post H]]. unfold toLowerCase in H.
    apply map_eq_app in H as [pre' [rest [-> [Hpre Hrest]]]].
    apply map_eq_app in Hrest as [mid [post' [-> [Hmid Hpost]]]].
    exists pre', mid, post'. split; [reflexivity|].
    apply eqCI_lower. rewrite Hp. exact Hmid.
  - intros [pre [mid [post [-> H]]]]. apply eqCI_lower in H. rewrite Hp in H.
    exists (toLowerCase pre), (toLowerCase post).
    unfold toLowerCase in *. now rewrite !List.map_app, H.
Qed.

End StringFacts.

(** C2.  The publication decision is [approved] exactly when the quality
    score is at least 7.0 and the review text contains neither "not
    approved" nor "needs major revision" as a case-insensitive substring;
    in particular a text that contains "needs major revision" is rejected
    with score 9. *)
Theorem gate_decision (qualityScore : Q) (reviewText : jsstring) :
  (Gate.approvedForPublication qualityScore reviewText = true <->
     (7 <= qualityScore)%Q
     /\ ~ Gate.containsCI reviewText (lit "not approved")
     /\ ~ Gate.containsCI reviewText (lit "needs major revision"))
  /\ (Gate.containsCI reviewText (lit "needs major revision") ->
      Gate.approvedForPublication 9 reviewText = false).
Proof.
  split.
  - unfold Gate.approvedForPublication.
    rewrite !andb_true_iff, !negb_true_iff, Qle_bool_iff.
    rewrite <- (includes_lower_containsCI reviewText (lit "not approved"))
      by reflexivity.
    rewrite <- (includes_lower_containsCI reviewText
                  (lit "needs major revision")) by reflexivity.
    rewrite !not_true_iff_false. tauto.
  - intros H. unfold Gate.approvedForPublication.
    apply (includes_lower_containsCI reviewText (lit "needs major revision"))
      in H; [|reflexivity].
    rewrite H. simpl. apply andb_false_r.
Qed.

(** Scenario B: score 9, and the phrase in capitals inside the review. *)
Lemma gate_decision_witness :
  Gate.containsCI (lit "Good, but NEEDS Major Revision.")
    (lit "needs major revision")
  /\ Gate.approvedForPublication 9 (lit "Good, but NEEDS Major Revision.")
     = false.
Proof.
  assert (H : Gate.containsCI (lit "Good, but NEEDS Major Revision.")
                (lit "needs major revision")).
  { exists (lit "Good, but "), (lit "NEEDS Major Revision"), (lit ".").
    split; [reflexivity|]. apply eqCI_lower. reflexivity. }
  split; [exact H|].
  exact (proj2 (gate_decision 9 (lit "Good, but NEEDS Major Revision.")) H).
Defined.

(* ===================================================================== *)
(** * Facts: the word count                                               *)
(* ===================================================================== *)

Section WordCountFacts.

Lemma splitWs_tokens_aux (s : jsstring) :
  List.length (splitWs_aux true [] s)
  = (List.length (WordCount.tokens_aux [] s)
     + (if WordCount.endsWithWs true s then 1 else 0))%nat
  /\ forall (c : N) (cur : jsstring),
    List.length (splitWs_aux false (c :: cur) s)
    = (List.length (WordCount.tokens_aux (c :: cur) s)
       + (if WordCount.endsWithWs false s then 1 else 0))%nat.
Proof.
  induction s as [|d s [IH1 IH2]]; simpl; [split; reflexivity|].
  destruct (isWhiteSpace d) eqn:E; simpl; split; intros; auto.
Qed.

End WordCountFacts.

(** C8, as the code has it.  The word count of a text is the number of
    pieces that splitting on runs of white space yields: the number of its
    white-space delimited tokens, plus one when the text is empty or begins
    with white space, plus one when it is not empty and ends with white
    space.  It is the number of tokens when the text has neither gap, and
    it is 1 for the empty string. *)
Theorem wordCount_pieces (response : jsstring) :
  WordCount.wordCount response
  = WordCount.tokenCount response
    + Z.b2z (WordCount.leadingGap response)
    + Z.b2z (WordCount.trailingGap response)
  /\ (WordCount.leadingGap response = false ->
      WordCount.trailingGap response = false ->
      WordCount.wordCount response = WordCount.tokenCount response)
  /\ WordCount.wordCount [] = 1.
Proof.
  assert (H : WordCount.wordCount response
              = WordCount.tokenCount response
                + Z.b2z (WordCount.leadingGap response)
                + Z.b2z (WordCount.trailingGap response)).
  { unfold WordCount.wordCount, WordCount.tokenCount, splitWs,
      WordCount.tokens, WordCount.trailingGap.
    destruct response as [|c s]; [reflexivity|].
    destruct (splitWs_tokens_aux s) as [H1 H2].
    simpl. destruct (isWhiteSpace c) eqn:E; simpl.
    - rewrite H1. destruct (WordCount.endsWithWs true s); simpl; lia.
    - rewrite H2. destruct (WordCount.endsWithWs false s); simpl; lia. }
  split; [exact H|]. split; [|reflexivity].
  intros Hl Ht. rewrite H, Hl, Ht. simpl. lia.
Qed.

Lemma wordCount_pieces_witness :
  WordCount.wordCount (lit "two words") = WordCount.tokenCount (lit "two words").
Proof.
  apply (proj1 (proj2 (wordCount_pieces (lit "two words")))); reflexivity.
Defined.

(** C8 as stated fails: the empty string has no token and word count 1, and
    a text with a leading and a trailing blank counts two more than its
    tokens. *)
Lemma wordCount_empty_is_one :
  WordCount.tokenCount [] = 0
  /\ WordCount.wordCount [] = 1
  /\ WordCount.wordCount [] <> WordCount.tokenCount []
  /\ WordCount.tokenCount (lit " two words ") = 2
  /\ WordCount.wordCount (lit " two words ") = 4.
Proof. repeat split. discriminate. Qed.

(* ===================================================================== *)
(** * Facts: the progress store                                           *)
(* ===================================================================== *)

Section StoreFacts.
Import ProgressTracking.

Ltac update_cases c :=
  unfold applyUpdate, applyIf;
  destruct (Context.currentStep c), (Context.completedChapters c),
    (Context.completedSections c), (Context.totalWordsGenerated c),
    (Context.error c), (Context.chapterCompleted c) as [[[? ?] ?]|];
  repeat match goal with |- context [if ?b then _ else _] => destruct b end;
  reflexivity.

Lemma applyUpdate_status now c p : status (applyUpdate now c p) = status p.
Proof. update_cases c. Qed.

Lemma applyUpdate_completedSections now c p :
  completedSections (applyUpdate now c p)
  = match Context.completedSections c with
    | Some n => n
    | None => completedSections p
    end.
Proof. update_cases c. Qed.

Lemma applyUpdate_completedChapters now c p :
  completedChapters (applyUpdate now c p)
  = match Context.completedChapters c with
    | Some n => n
    | None => completedChapters p
    end.
Proof. update_cases c. Qed.

Lemma applyFail_status now c p : status (applyFail now c p) = failed.
Proof.
  unfold applyFail, applyIf. destruct (Context.error c); [|reflexivity].
  destruct (truthyS _); reflexivity.
Qed.

Lemma applyFail_counters now c p :
  completedSections (applyFail now c p) = completedSections p
  /\ completedChapters (applyFail now c p) = completedChapters p.
Proof.
  unfold applyFail, applyIf. destruct (Context.error c); [|split; reflexivity].
  destruct (truthyS _); split; reflexivity.
Qed.

(** The body of [execute] when the record of the workflow is missing. *)
Lemma executeBody_missing now c files :
  Context.action c <> Initialize ->
  files !! Context.workflowId c = None ->
  executeBody now c files
  = (Throw (lit "No progress found for workflow " ++ Context.workflowId c),
     files).
Proof.
  intros Ha Hf. unfold executeBody, loadProgress. rewrite Hf.
  destruct (Context.action c); congruence.
Qed.

Lemma execute_missing now c files :
  Context.action c <> Initialize ->
  files !! Context.workflowId c = None ->
  execute now c files
  = ({| success := false; progress := None;
        message := Some (lit "Progress tracking failed: "
                         ++ lit "No progress found for workflow "
                         ++ Context.workflowId c) |}, files).
Proof.
  intros Ha Hf. unfold execute. now rewrite executeBody_missing.
Qed.

(** What [execute] returns and stores when the record exists. *)
Lemma execute_existing now c files p :
  Context.action c <> Initialize ->
  files !! Context.workflowId c = Some p ->
  let p' := match Context.action c with
            | Update => applyUpdate now c p
            | Complete => applyComplete now p
            | Fail => applyFail now c p
            | _ => p
            end in
  execute now c files
  = ({| success := true; progress := Some (view p' (percentage p'));
        message := Some (lit "Progress " ++ actionName (Context.action c)
                         ++ lit " completed successfully") |},
     match Context.action c with
     | Get => files
     | _ => <[Context.workflowId c := p']> files
     end).
Proof.
  intros Ha Hf. unfold execute, executeBody, loadProgress, saveProgress.
  rewrite Hf. destruct (Context.action c); try congruence; reflexivity.
Qed.

(** The call of the progress tool by a step, unfolded. *)
Lemma progress_call (c : Context.t) (w : World) :
  progressTrackingTool_execute c w
  = (Ok (fst (execute (dateNow w (tick w)) c (files w))),
     addEvent
       (ProgressCall (Context.action c)
          (snd (execute (dateNow w (tick w)) c (files w))
           !! Context.workflowId c))
       (setFiles (snd (execute (dateNow w (tick w)) c (files w)))
          (advance w))).
Proof.
  unfold progressTrackingTool_execute, bind, ask. simpl.
  destruct (execute (dateNow w (tick w)) c (files w)). reflexivity.
Qed.

Lemma progress_call_files (c : Context.t) (w : World) :
  files (snd (progressTrackingTool_execute c w))
  = snd (execute (dateNow w (tick w)) c (files w)).
Proof. rewrite progress_call. reflexivity. Qed.

Lemma progress_call_events (c : Context.t) (w : World) :
  events (snd (progressTrackingTool_execute c w))
  = events w
    ++ [ProgressCall (Context.action c)
          (files (snd (progressTrackingTool_execute c w))
           !! Context.workflowId c)].
Proof. rewrite progress_call. reflexivity. Qed.

End StoreFacts.

(** C3, as the code has it.  On an existing record, [update] (and [get])
    leave the status as it is, whatever it is; [complete] stores
    [completed] and [fail] stores [failed], whatever the status was. *)
Theorem store_status_transitions (now : Z) (c : ProgressTracking.Context.t)
  (files : ProgressTracking.Files) (p : ProgressTracking.ProgressData) :
  ProgressTracking.Context.action c <> ProgressTracking.Initialize ->
  files !! ProgressTracking.Context.workflowId c = Some p ->
  exists p',
    snd (ProgressTracking.execute now c files)
      !! ProgressTracking.Context.workflowId c = Some p'
    /\ ProgressTracking.status p'
       = match ProgressTracking.Context.action c with
         | ProgressTracking.Complete => ProgressTracking.completed
         | ProgressTracking.Fail => ProgressTracking.failed
         | _ => ProgressTracking.status p
         end.
Proof.
  intros Ha Hf. rewrite (execute_existing now c files p Ha Hf). simpl.
  destruct (ProgressTracking.Context.action c) eqn:E; try congruence.
  - eexists. rewrite lookup_insert_eq. split; [reflexivity|].
    apply applyUpdate_status.
  - exists p. split; [exact Hf | reflexivity].
  - eexists. rewrite lookup_insert_eq. split; reflexivity.
  - eexists. rewrite lookup_insert_eq. split; [reflexivity|].
    apply applyFail_status.
Qed.

(** An update of a completed run leaves it completed. *)
Lemma store_status_transitions_witness :
  exists p',
    snd (ProgressTracking.execute 3
           (Workflow.updateStep Samples.runId (lit "late"))
           Samples.completedRun) !! Samples.runId = Some p'
    /\ ProgressTracking.status p' = ProgressTracking.completed.
Proof.
  destruct (store_status_transitions 3
              (Workflow.updateStep Samples.runId (lit "late"))
              Samples.completedRun
              (ProgressTracking.applyComplete 2 Samples.created))
    as [p' [H1 H2]].
  - discriminate.
  - vm_compute. reflexivity.
  - exists p'. split; [exact H1 | exact H2].
Defined.

(** C3 as stated fails: after [initialize] and [complete] the status is
    [completed], a terminal state, and a call of [fail] moves it to
    [failed]. *)
Lemma terminal_status_overwritten :
  option_map ProgressTracking.status (Samples.completedRun !! Samples.runId)
  = Some ProgressTracking.completed
  /\ option_map ProgressTracking.status
       (snd (ProgressTracking.execute 3
               (Workflow.failWith Samples.runId (lit "late failure"))
               Samples.completedRun) !! Samples.runId)
     = Some ProgressTracking.failed.
Proof. split; vm_compute; reflexivity. Qed.

(** C4, as the code has it.  When no record exists for the workflow id, the
    body of each of [update], [complete] and [fail] throws the error "No
    progress found for workflow <id>"; the catch clause of the tool absorbs
    it, and the call returns normally with [success = false] and the
    message "Progress tracking failed: No progress found for workflow
    <id>", writing no file. *)
Theorem missing_record_is_absorbed (c : ProgressTracking.Context.t)
  (w : World) :
  In (ProgressTracking.Context.action c)
     [ProgressTracking.Update; ProgressTracking.Complete;
      ProgressTracking.Fail] ->
  files w !! ProgressTracking.Context.workflowId c = None ->
  fst (ProgressTracking.executeBody (dateNow w (tick w)) c (files w))
  = Throw (lit "No progress found for workflow "
           ++ ProgressTracking.Context.workflowId c)
  /\ fst (progressTrackingTool_execute c w)
     = Ok {| ProgressTracking.success := false;
             ProgressTracking.progress := None;
             ProgressTracking.message :=
               Some (lit "Progress tracking failed: "
                     ++ lit "No progress found for workflow "
                     ++ ProgressTracking.Context.workflowId c) |}
  /\ files (snd (progressTrackingTool_execute c w)) = files w.
Proof.
  intros Ha Hf.
  assert (Hni : ProgressTracking.Context.action c
                <> ProgressTracking.Initialize).
  { intros E. rewrite E in Ha. simpl in Ha.
    destruct Ha as [H|[H|[H|[]]]]; discriminate. }
  split; [now rewrite executeBody_missing|].
  rewrite progress_call_files, progress_call.
  rewrite execute_missing by assumption. split; reflexivity.
Qed.

Lemma missing_record_is_absorbed_witness :
  fst (progressTrackingTool_execute
         (Workflow.failWith Samples.runId (lit "boom"))
         (Samples.world Samples.failingWriter))
  = Ok {| ProgressTracking.success := false;
          ProgressTracking.progress := None;
          ProgressTracking.message :=
            Some (lit "Progress tracking failed: No progress found for workflow run-1") |}.
Proof.
  refine (proj1 (proj2 (missing_record_is_absorbed
                          (Workflow.failWith Samples.runId (lit "boom"))
                          (Samples.world Samples.failingWriter) _ _))).
  - simpl. auto.
  - reflexivity.
Defined.

(** C4 as stated fails: an [update] for a run without record returns a
    result to its caller, with [success = false]; nothing is thrown. *)
Lemma missing_record_returns_normally :
  (Samples.world Samples.failingWriter).(files) !! Samples.runId = None
  /\ exists r,
       fst (progressTrackingTool_execute
              (Workflow.updateStep Samples.runId (lit "Reviewing"))
              (Samples.world Samples.failingWriter)) = Ok r
       /\ ProgressTracking.success r = false.
Proof. split; [reflexivity|]. eexists. split; reflexivity. Qed.

Section PercentageFacts.
Import ProgressTracking.
Local Open Scope Q_scope.



(** A ratio of integers, times 100. *)
Lemma ratio_nonneg (a b : Z) :
  (0 <= a)%Z -> (0 < b)%Z -> 0 <= inject_Z a / inject_Z b * 100.
Proof.
  intros Ha Hb. apply Qmult_le_0_compat; [|discriminate].
  apply Qle_shift_div_l.
  - change 0 with (inject_Z 0). rewrite <- Zlt_Qlt. exact Hb.
  - rewrite Qmult_0_l. change 0 with (inject_Z 0). rewrite <- Zle_Qle.
    exact Ha.
Qed.




Lemma wordProgress_nonneg (p : ProgressData) :
  (0 <= totalWordsGenerated p)%Z -> 0 <= wordProgress p.
Proof.
  intros H. unfold wordProgress.
  destruct (0 <? targetWordCount p)%Z eqn:E; [|discriminate].
  apply ratio_nonneg; [exact H | now apply Z.ltb_lt].
Qed.

End PercentageFacts.




(* ===================================================================== *)
(** * Facts: the content generation adapter                               *)
(* ===================================================================== *)

Section AdapterFacts.
Import ChunkedGeneration.

(** The wait after the failure of attempt [a] is the wait that the
    specification puts before attempt [a + 1]. *)
Lemma backoff_is_wait (a : nat) :
  (1 <= a)%nat ->
  [Sleep (backoffMs (Z.of_nat a))] = beforeAttempt (Z.of_nat (S a)).
Proof.
  intros Ha. unfold beforeAttempt, backoffMs, waitBefore.
  destruct (Z.leb_spec (Z.of_nat (S a)) 1) as [E|E]; [exfalso; lia|].
  replace (Z.of_nat (S a) - 2) with (Z.of_nat a - 1) by lia. reflexivity.
Qed.

(** One iteration of the loop. *)
Lemma attemptLoop_step (title : jsstring) (idx : nat) (maxRetries : Z)
  (remaining : nat) (attempt : Z) (w : World) :
  attemptLoop title idx maxRetries (S remaining) attempt w
  = let w1 := advance (addEvent (Attempt attempt) w) in
    match writingAgent w (tick w) with
    | Ok response =>
        (Ok {| sectionTitle := title; content := response;
               wordCount := WordCount.wordCount response;
               chunkIndex := idx |}, w1)
    | Throw error =>
        if attempt =? maxRetries then
          (Throw (lit "Failed to generate content for section "
                  ++ dquote ++ title ++ dquote ++ lit " after "
                  ++ ofZ maxRetries ++ lit " attempts: " ++ error), w1)
        else
          attemptLoop title idx maxRetries remaining (attempt + 1)
            (addEvent (Sleep (backoffMs attempt)) w1)
    end.
Proof.
  simpl. unfold bind, tryCatch, emit, await, ret, sleep, throw. simpl.
  destruct (writingAgent w (tick w)); [reflexivity|].
  destruct (attempt =? maxRetries); reflexivity.
Qed.

(** The loop entered at attempt [a] with the iterations that remain up to
    [maxRetries] makes between one and [remaining] attempts (none when none
    remains) and logs them with the waits of the schedule. *)
Lemma attemptLoop_events (title : jsstring) (idx : nat) (maxRetries : Z) :
  forall (remaining a : nat) (w : World),
    (1 <= a)%nat ->
    remaining = Z.to_nat (maxRetries - Z.of_nat a + 1) ->
    exists n : nat,
      (n <= remaining)%nat
      /\ (remaining <> O -> n <> O)
      /\ events (snd (attemptLoop title idx maxRetries remaining
                        (Z.of_nat a) w))
         = events w ++ loopEvents a n.
Proof.
  induction remaining as [|remaining IH]; intros a w Ha Hrem.
  - exists O. simpl. rewrite app_nil_r. repeat split; try lia; congruence.
  - rewrite attemptLoop_step. cbv zeta.
    destruct (writingAgent w (tick w)) as [response|error].
    + exists 1%nat. simpl. repeat split; try lia.
    + destruct (Z.of_nat a =? maxRetries) eqn:E.
      * exists 1%nat. simpl. repeat split; try lia.
      * apply Z.eqb_neq in E.
        replace (Z.of_nat a + 1) with (Z.of_nat (S a)) by lia.
        destruct (IH (S a)
                    (addEvent (Sleep (backoffMs (Z.of_nat a)))
                       (advance (addEvent (Attempt (Z.of_nat a)) w))))
          as [n [Hn [Hpos Hev]]]; [lia | lia |].
        exists (S n). split; [lia|]. split; [lia|].
        rewrite Hev. simpl events. rewrite <- !app_assoc. f_equal.
        assert (Hn0 : n <> O) by (apply Hpos; lia).
        destruct n as [|m]; [congruence|].
        change ([Attempt (Z.of_nat a)] ++ [Sleep (backoffMs (Z.of_nat a))]
                ++ loopEvents (S a) (S m))
          with (Attempt (Z.of_nat a) :: [Sleep (backoffMs (Z.of_nat a))]
                ++ Attempt (Z.of_nat (S a))
                :: flat_map (fun k => beforeAttempt k ++ [Attempt k])
                     (List.map Z.of_nat (seq (S (S a)) m))).
        rewrite (backoff_is_wait a Ha). simpl loopEvents.
        f_equal. simpl seq. simpl List.map. simpl flat_map.
        rewrite <- app_assoc. reflexivity.
Qed.

(** [execute] adds no event to those of [generateContentChunk]. *)
Lemma execute_events (config : ChunkGenerationConfig) (idx : nat) (w : World) :
  events (snd (execute config idx w))
  = events (snd (generateContentChunk config idx w)).
Proof.
  unfold execute, bind.
  destruct (generateContentChunk config idx w) as [[chunk|e] w'];
    reflexivity.
Qed.

(** A negative [retryAttempts] is truthy and is kept as the limit: the loop
    is not entered, and the final [throw] is reached without any attempt. *)
Remark negative_limit_no_attempt (config : ChunkGenerationConfig)
  (idx : nat) (n : Z) (w : World) :
  retryAttempts config = Some n ->
  n < 0 ->
  generateContentChunk config idx w
  = (Throw (lit "Failed to generate content for section " ++ dquote
            ++ nth idx (sectionTitles config) (lit "undefined") ++ dquote),
     w).
Proof.
  intros Hr Hn. unfold generateContentChunk. rewrite Hr. simpl maxRetriesOf.
  destruct (Z.eqb_spec n 0) as [E|E]; [lia|].
  replace (Z.to_nat n) with O by lia. reflexivity.
Qed.

End AdapterFacts.

(** C7.  A call of the adapter with retry limit [r] makes [n] attempts, at
    least one when [r >= 1] and at most [r], and logs exactly the retry
    sequence of [n] attempts: attempt 1 with no wait before it, and before
    each later attempt [k] a wait of min(1000 * 2^(k-2), 30000) ms. *)
Theorem backoff_schedule (config : ChunkedGeneration.ChunkGenerationConfig)
  (sectionIndex : nat) (w : World) :
  exists n : nat,
    Z.min 1 (Z.max 0 (ChunkedGeneration.maxRetriesOf
                        (ChunkedGeneration.retryAttempts config)))
    <= Z.of_nat n
    <= Z.max 0 (ChunkedGeneration.maxRetriesOf
                  (ChunkedGeneration.retryAttempts config))
    /\ events (snd (ChunkedGeneration.generateContentChunk config
                      sectionIndex w))
       = events w ++ retrySequence n.
Proof.
  unfold ChunkedGeneration.generateContentChunk.
  set (r := ChunkedGeneration.maxRetriesOf
              (ChunkedGeneration.retryAttempts config)).
  destruct (attemptLoop_events
              (nth sectionIndex (ChunkedGeneration.sectionTitles config)
                 (lit "undefined"))
              sectionIndex r (Z.to_nat r) 1 w)
    as [n [Hn [Hpos Hev]]]; [lia | f_equal; lia |].
  exists n. split.
  - destruct (Z.le_gt_cases r 0) as [Hr|Hr]; [lia|].
    assert (n <> O) by (apply Hpos; lia). lia.
  - change (Z.of_nat 1) with 1 in Hev. rewrite Hev. f_equal.
    destruct n; reflexivity.
Qed.

(** C10.  When [retryAttempts] is 0 or is not given, the limit is 3, and
    the tool makes one attempt when the first generation succeeds, two when
    only the first fails, and three otherwise: never none, and 3 when
    every generation fails. *)
Theorem default_retry_limit (config : ChunkedGeneration.ChunkGenerationConfig)
  (sectionIndex : nat) (w : World) :
  ChunkedGeneration.retryAttempts config = None
  \/ ChunkedGeneration.retryAttempts config = Some 0 ->
  ChunkedGeneration.maxRetriesOf (ChunkedGeneration.retryAttempts config) = 3
  /\ exists tr,
       events (snd (ChunkedGeneration.execute config sectionIndex w))
       = events w ++ tr
       /\ attemptsMade tr
          = match writingAgent w (tick w), writingAgent w (S (tick w)) with
            | Ok _, _ => 1%nat
            | Throw _, Ok _ => 2%nat
            | Throw _, Throw _ => 3%nat
            end.
Proof.
  intros H.
  assert (Hr : ChunkedGeneration.maxRetriesOf
                 (ChunkedGeneration.retryAttempts config) = 3)
    by (destruct H as [-> | ->]; reflexivity).
  split; [exact Hr|].
  rewrite execute_events. unfold ChunkedGeneration.generateContentChunk.
  rewrite Hr. change (Z.to_nat 3) with 3%nat.
  rewrite attemptLoop_step. cbv zeta.
  destruct (writingAgent w (tick w)) as [r1|e1].
  { exists [Attempt 1]. split; reflexivity. }
  change (1 =? 3) with false. cbv iota.
  rewrite attemptLoop_step. cbv zeta. simpl tick. simpl writingAgent.
  destruct (writingAgent w (S (tick w))) as [r2|e2].
  { exists [Attempt 1; Sleep (ChunkedGeneration.backoffMs 1); Attempt 2].
    simpl. rewrite <- !app_assoc. split; reflexivity. }
  change (1 + 1 =? 3) with false. cbv iota.
  rewrite attemptLoop_step. cbv zeta. simpl tick. simpl writingAgent.
  exists [Attempt 1; Sleep (ChunkedGeneration.backoffMs 1); Attempt 2;
          Sleep (ChunkedGeneration.backoffMs 2); Attempt 3].
  destruct (writingAgent w (S (S (tick w)))) as [r3|e3];
    simpl; rewrite <- !app_assoc; split; reflexivity.
Qed.

(** A call with [retryAttempts = 0] whose generations all fail. *)
Lemma default_retry_limit_witness :
  exists tr,
    events (snd (ChunkedGeneration.execute
                   {| ChunkedGeneration.topic := lit "X";
                      ChunkedGeneration.chapterTitle := lit "Basics";
                      ChunkedGeneration.chapterNumber := 1;
                      ChunkedGeneration.sectionTitles := [lit "Values"];
                      ChunkedGeneration.targetWordsPerSection := 600;
                      ChunkedGeneration.context := Samples.outlineText;
                      ChunkedGeneration.retryAttempts := Some 0 |}
                   0 (Samples.world Samples.failingWriter)))
    = events (Samples.world Samples.failingWriter) ++ tr
    /\ attemptsMade tr = 3%nat.
Proof.
  refine (proj2 (default_retry_limit
           {| ChunkedGeneration.topic := lit "X";
              ChunkedGeneration.chapterTitle := lit "Basics";
              ChunkedGeneration.chapterNumber := 1;
              ChunkedGeneration.sectionTitles := [lit "Values"];
              ChunkedGeneration.targetWordsPerSection := 600;
              ChunkedGeneration.context := Samples.outlineText;
              ChunkedGeneration.retryAttempts := Some 0 |}
           0 (Samples.world Samples.failingWriter) _)).
  right. reflexivity.
Defined.

(* ===================================================================== *)
(** * Facts: the outline parser                                           *)
(* ===================================================================== *)

Section OutlineFacts.
Import Outline.

(** A line that is no chapter header leaves the loop as it is while no
    chapter is open. *)
Lemma parseLine_no_header (wordsPerChapter : Z) (st : ParseState)
  (line : jsstring) :
  currentChapter st = None ->
  isChapterHeader line = false ->
  parseLine wordsPerChapter st line = st.
Proof.
  intros Hc Hh. unfold parseLine, isChapterHeader in *.
  destruct (chapterMatch (trim line)) as [group2|].
  - rewrite Hh. rewrite Hc. now destruct (sectionMatch (trim line)).
  - rewrite Hc. now destruct (sectionMatch (trim line)).
Qed.

Lemma fold_parseLine_no_header (wordsPerChapter : Z) (lines : list jsstring) :
  forall st,
    currentChapter st = None ->
    (forall line, In line lines -> isChapterHeader line = false) ->
    fold_left (parseLine wordsPerChapter) lines st = st.
Proof.
  induction lines as [|line lines IH]; intros st Hc Hall; [reflexivity|].
  simpl. rewrite parseLine_no_header; [|exact Hc | apply Hall; now left].
  apply IH; [exact Hc|]. intros l Hl. apply Hall. now right.
Qed.

End OutlineFacts.

(** C6.  When no line of the text is recognised as a chapter header, the
    parser returns the fallback outline: 8 chapters numbered 1 to 8, titled
    "Chapter 1" to "Chapter 8", each with the sections Introduction, Core
    Concepts, Practical Examples, Advanced Topics, Summary and the target
    floor(requestedTotalWordCount / 10); so it does for the empty text. *)
Theorem fallback_outline (outlineText : jsstring) (targetWordCount : Z) :
  ((forall line, In line (splitLines outlineText) ->
                 Outline.isChapterHeader line = false) ->
   Outline.parseOutlineIntoChapters outlineText targetWordCount
   = fallbackOutline targetWordCount)
  /\ Outline.parseOutlineIntoChapters [] targetWordCount
     = fallbackOutline targetWordCount.
Proof.
  assert (H : forall text,
             (forall line, In line (splitLines text) ->
                           Outline.isChapterHeader line = false) ->
             Outline.parseOutlineIntoChapters text targetWordCount
             = fallbackOutline targetWordCount).
  { intros text Hall. unfold Outline.parseOutlineIntoChapters. cbv zeta.
    rewrite fold_parseLine_no_header; [reflexivity | reflexivity | exact Hall]. }
  split; [apply H|]. apply H.
  intros line [<- | []]. reflexivity.
Qed.

(** A text of prose and bullet lines, without any chapter header. *)
Lemma fallback_outline_witness :
  Outline.parseOutlineIntoChapters
    (lit "Here is the outline you asked for:" ++ Samples.lineFeed
     ++ lit "- Section 1.1: Values" ++ Samples.lineFeed
     ++ lit "Part One. Basics")
    60000
  = fallbackOutline 60000.
Proof.
  apply (proj1 (fallback_outline
                  (lit "Here is the outline you asked for:"
                   ++ Samples.lineFeed
                   ++ lit "- Section 1.1: Values" ++ Samples.lineFeed
                   ++ lit "Part One. Basics") 60000)).
  intros line Hl. vm_compute in Hl.
  destruct Hl as [<- | [<- | [<- | []]]]; vm_compute; reflexivity.
Defined.

(* ===================================================================== *)
(** * Facts: computations, and the steps of the workflow                  *)
(* ===================================================================== *)

Section MonadFacts.


Lemma hoare_ret {A : Type} (a : A) (Q : Result A -> World -> Prop) :
  hoare (Q (Ok a)) (ret a) Q.
Proof. intros w H. exact H. Qed.

Lemma hoare_throw {A : Type} (e : jsstring) (Q : Result A -> World -> Prop) :
  hoare (Q (Throw e)) (throw e) Q.
Proof. intros w H. exact H. Qed.

Lemma hoare_bind {A B : Type} (P : World -> Prop) (m : M A) (k : A -> M B)
  (R : A -> World -> Prop) (Q : Result B -> World -> Prop) :
  hoare P m (fun r w => match r with
                        | Ok a => R a w
                        | Throw e => Q (Throw e) w
                        end) ->
  (forall a, hoare (R a) (k a) Q) ->
  hoare P (bind m k) Q.
Proof.
  intros Hm Hk w HP. specialize (Hm w HP). unfold bind.
  destruct (m w) as [[a|e] w']; simpl in Hm.
  - apply Hk. exact Hm.
  - exact Hm.
Qed.

Lemma hoare_tryCatch {A : Type} (P : World -> Prop) (body : M A)
  (handler : jsstring -> M A) (R : jsstring -> World -> Prop)
  (Q : Result A -> World -> Prop) :
  hoare P body (fun r w => match r with
                           | Ok a => Q (Ok a) w
                           | Throw e => R e w
                           end) ->
  (forall e, hoare (R e) (handler e) Q) ->
  hoare P (tryCatch body handler) Q.
Proof.
  intros Hb Hh w HP. specialize (Hb w HP). unfold tryCatch.
  destruct (body w) as [[a|e] w']; simpl in Hb.
  - exact Hb.
  - apply Hh. exact Hb.
Qed.

Lemma hoare_weaken {A : Type} (P P' : World -> Prop) (m : M A)
  (Q Q' : Result A -> World -> Prop) :
  hoare P' m Q' -> (forall w, P w -> P' w) ->
  (forall r w, Q' r w -> Q r w) -> hoare P m Q.
Proof. intros H HP HQ w Hw. apply HQ, H, HP, Hw. Qed.


Lemma quietly_refl (w : World) : quietly w w.
Proof. split; [reflexivity|]. exists []. now rewrite app_nil_r. Qed.

Lemma quietly_trans (w1 w2 w3 : World) :
  quietly w1 w2 -> quietly w2 w3 -> quietly w1 w3.
Proof.
  intros [Hf [tr [He Ht]]] [Hf' [tr' [He' Ht']]].
  split; [congruence|]. exists (tr ++ tr'). rewrite He', He, app_assoc.
  split; [reflexivity|]. apply Forall_app. auto.
Qed.


Lemma quiet_ret {A : Type} (a : A) : quiet (ret a).
Proof. intros w. apply quietly_refl. Qed.

Lemma quiet_throw {A : Type} (e : jsstring) : quiet (@throw A e).
Proof. intros w. apply quietly_refl. Qed.

Lemma quiet_ask {A : Type} (oracle : World -> nat -> A) : quiet (ask oracle).
Proof. intros w. split; [reflexivity|]. exists []. simpl. now rewrite app_nil_r. Qed.

Lemma quiet_await {A : Type} (oracle : World -> nat -> Result A) :
  quiet (await oracle).
Proof. intros w. split; [reflexivity|]. exists []. simpl. now rewrite app_nil_r. Qed.

Lemma quiet_attempt (k : Z) : quiet (emit (Attempt k)).
Proof.
  intros w. split; [reflexivity|]. exists [Attempt k].
  split; [reflexivity|]. repeat constructor.
Qed.

Lemma quiet_sleep (ms : Z) : quiet (sleep ms).
Proof.
  intros w. split; [reflexivity|]. exists [Sleep ms].
  split; [reflexivity|]. repeat constructor.
Qed.

Lemma quiet_bind {A B : Type} (m : M A) (k : A -> M B) :
  quiet m -> (forall a, quiet (k a)) -> quiet (bind m k).
Proof.
  intros Hm Hk w. unfold bind. specialize (Hm w).
  destruct (m w) as [[a|e] w']; simpl in *.
  - apply quietly_trans with w'; [exact Hm | apply Hk].
  - exact Hm.
Qed.

Lemma quiet_tryCatch {A : Type} (body : M A) (handler : jsstring -> M A) :
  quiet body -> (forall e, quiet (handler e)) -> quiet (tryCatch body handler).
Proof.
  intros Hm Hk w. unfold tryCatch. specialize (Hm w).
  destruct (body w) as [[a|e] w']; simpl in *.
  - exact Hm.
  - apply quietly_trans with w'; [exact Hm | apply Hk].
Qed.

Lemma attemptLoop_quiet (title : jsstring) (idx : nat) (maxRetries : Z) :
  forall (remaining : nat) (attempt : Z),
    quiet (ChunkedGeneration.attemptLoop title idx maxRetries remaining attempt).
Proof.
  induction remaining as [|remaining IH]; intros attempt; simpl.
  - apply quiet_throw.
  - apply quiet_bind; [apply quiet_attempt|]. intros _.
    apply quiet_tryCatch.
    + apply quiet_bind; [apply quiet_await|]. intros response. apply quiet_ret.
    + intros error. destruct (attempt =? maxRetries).
      * apply quiet_throw.
      * apply quiet_bind; [apply quiet_sleep|]. intros _. apply IH.
Qed.

Lemma execute_quiet (config : ChunkedGeneration.ChunkGenerationConfig)
  (idx : nat) : quiet (ChunkedGeneration.execute config idx).
Proof.
  unfold ChunkedGeneration.execute, ChunkedGeneration.generateContentChunk.
  apply quiet_bind; [apply attemptLoop_quiet|]. intros result.
  apply quiet_bind; [apply quiet_ask|]. intros t. apply quiet_ret.
Qed.

End MonadFacts.


Section RunFacts.
Import ProgressTracking.

Lemma storedAfterUpdates_app (a b : list Event) :
  storedAfterUpdates (a ++ b) = storedAfterUpdates a ++ storedAfterUpdates b.
Proof.
  induction a as [|e a IH]; [reflexivity|]. simpl.
  destruct e as [k|ms|act [p|]]; try exact IH; destruct act; try exact IH.
  simpl. now rewrite IH.
Qed.

Lemma storedAfterUpdates_adapter (tr : list Event) :
  Forall adapterEvent tr -> storedAfterUpdates tr = [].
Proof.
  induction 1 as [|e tr He _ IH]; [reflexivity|].
  destruct e; simpl in *; [exact IH | exact IH | contradiction].
Qed.

Lemma nondecreasing_snoc (l : list Z) (x : Z) :
  nondecreasing l -> Forall (fun y => y <= x) l -> nondecreasing (l ++ [x]).
Proof.
  induction l as [|a l IH]; intros Hl Hx; [exact I|].
  destruct l as [|b l].
  - simpl. split; [|exact I]. now inversion Hx.
  - destruct Hl as [Hab Hl]. split; [exact Hab|].
    apply IH; [exact Hl | now inversion Hx].
Qed.

Lemma hoare_progress (P : World -> Prop) (c : Context.t)
  (Q : Result ToolResult -> World -> Prop) :
  (forall w r, P w -> Q (Ok r) (snd (progressTrackingTool_execute c w))) ->
  hoare P (progressTrackingTool_execute c) Q.
Proof.
  intros H w HP. specialize (H w (fst (execute (dateNow w (tick w)) c (files w))) HP).
  rewrite progress_call in *. exact H.
Qed.

Lemma hoare_quiet {A : Type} (P : World -> Prop) (m : M A)
  (Q : Result A -> World -> Prop) :
  quiet m -> (forall w w' r, quietly w w' -> P w -> Q r w') -> hoare P m Q.
Proof. intros Hq H w HP. apply (H w); [apply Hq | exact HP]. Qed.

(** ** The status of the record *)

Lemma statusOf_quietly wid w w' : quietly w w' -> statusOf wid w' = statusOf wid w.
Proof. intros [Hf _]. unfold statusOf. now rewrite Hf. Qed.

Lemma statusOf_update (wid : jsstring) (c : Context.t) (w : World) :
  Context.action c = Update ->
  statusOf wid (snd (progressTrackingTool_execute c w)) = statusOf wid w.
Proof.
  intros Ha. rewrite progress_call. unfold statusOf. simpl.
  destruct (files w !! Context.workflowId c) as [p|] eqn:Hp.
  - rewrite (execute_existing _ c (files w) p) by (congruence || exact Hp).
    rewrite Ha. simpl.
    destruct (decide (Context.workflowId c = wid)) as [<-|Hne].
    + rewrite lookup_insert_eq, Hp. now rewrite applyUpdate_status.
    + now rewrite lookup_insert_ne.
  - rewrite execute_missing by (congruence || exact Hp). reflexivity.
Qed.

End RunFacts.


Section Stable.
Variable I : World -> Prop.

Lemma stable_ret {A : Type} (a : A) : stable I (ret a).
Proof. intros w H. exact H. Qed.

Lemma stable_throw {A : Type} (e : jsstring) : stable I (@throw A e).
Proof. intros w H. exact H. Qed.

Lemma stable_bind {A B : Type} (m : M A) (k : A -> M B) :
  stable I m -> (forall a, stable I (k a)) -> stable I (bind m k).
Proof.
  intros Hm Hk.
  apply hoare_bind with (R := fun _ w => I w); [|exact Hk].
  intros w H. specialize (Hm w H). destruct (fst (m w)); exact Hm.
Qed.

Lemma stable_tryCatch {A : Type} (body : M A) (handler : jsstring -> M A) :
  stable I body -> (forall e, stable I (handler e)) ->
  stable I (tryCatch body handler).
Proof.
  intros Hm Hk.
  apply hoare_tryCatch with (R := fun _ w => I w); [|exact Hk].
  intros w H. specialize (Hm w H). destruct (fst (body w)); exact Hm.
Qed.

Lemma stable_quiet {A : Type} (m : M A) :
  (forall w w', quietly w w' -> I w -> I w') -> quiet m -> stable I m.
Proof. intros HI Hq. apply hoare_quiet; [assumption|]. intros w w' _. apply HI. Qed.

End Stable.

Section GenerateStatus.
Import ProgressTracking.
Variable wid : jsstring.
Variable st : option Status.


Lemma statusIs_quietly w w' :
  quietly w w' -> statusIs wid st w -> statusIs wid st w'.
Proof. unfold statusIs. intros Hw H. now rewrite (statusOf_quietly wid w w' Hw). Qed.

Lemma statusIs_update (c : Context.t) :
  Context.action c = Update -> stable (statusIs wid st) (progressTrackingTool_execute c).
Proof.
  intros Ha. apply hoare_progress. intros w _ H. unfold statusIs.
  now rewrite statusOf_update.
Qed.

Lemma sectionLoop_status workflowId topic outline chapter twps total :
  forall rest idx vars,
    stable (statusIs wid st)
      (Workflow.sectionLoop workflowId topic outline chapter twps total rest
         idx vars).
Proof.
  induction rest as [|sectionTitle rest IH]; intros idx vars; simpl.
  - apply stable_ret.
  - apply stable_bind; [|intros vars'; apply IH].
    apply stable_tryCatch.
    + apply stable_bind;
        [apply stable_quiet; [apply statusIs_quietly | apply execute_quiet]|].
      intros r.
      apply stable_bind; [now apply statusIs_update|]. intros _.
      apply stable_ret.
    + intros e. apply stable_bind; [now apply statusIs_update|]. intros _.
      apply stable_throw.
Qed.

Lemma chapterLoop_status workflowId topic outline :
  forall chapters vars,
    stable (statusIs wid st) (Workflow.chapterLoop workflowId topic outline chapters vars).
Proof.
  induction chapters as [|chapter rest IH]; intros vars; simpl.
  - apply stable_ret.
  - apply stable_bind; [now apply statusIs_update|]. intros _.
    apply stable_bind; [apply sectionLoop_status|]. intros sv.
    apply stable_bind; [now apply statusIs_update|]. intros _. apply IH.
Qed.

Lemma generateAllContentStep_status inputData :
  stable (statusIs wid st) (Workflow.generateAllContentStep inputData).
Proof.
  unfold Workflow.generateAllContentStep.
  apply stable_bind; [apply chapterLoop_status|]. intros vars.
  apply stable_ret.
Qed.

End GenerateStatus.

(** C1, on the code.  Step 2 sends the progress store nothing but updates,
    and an update never touches the status: it leaves the step with the
    status it found.  So when step 2 rejects on a run whose record is
    [in_progress], the record is still [in_progress] when the rejection
    leaves the step; the store's [fail] was not called. *)
Theorem generate_failure_leaves_in_progress
  (inputData : Workflow.PlanOutput.t) (w : World) (message : jsstring) :
  statusOf (Workflow.PlanOutput.workflowId inputData) w
  = Some ProgressTracking.in_progress ->
  fst (Workflow.generateAllContentStep inputData w) = Throw message ->
  statusOf (Workflow.PlanOutput.workflowId inputData)
    (snd (Workflow.generateAllContentStep inputData w))
  = Some ProgressTracking.in_progress.
Proof.
  intros H _.
  exact (generateAllContentStep_status _ _ inputData w H).
Qed.

(** The run planned in the sample world, whose writing agent fails at each
    of the three attempts for the first section: step 2 rejects with the
    message of the adapter, and the record stays [in_progress]. *)
Lemma generate_failure_leaves_in_progress_witness :
  fst (Workflow.generateAllContentStep Samples.plan (snd Samples.planned))
  = Throw (lit "Failed to generate content for section "
           ++ dquote ++ lit "Values" ++ dquote
           ++ lit " after 3 attempts: model overloaded")
  /\ statusOf (Workflow.PlanOutput.workflowId Samples.plan)
       (snd (Workflow.generateAllContentStep Samples.plan
               (snd Samples.planned)))
     = Some ProgressTracking.in_progress.
Proof.
  assert (H : fst (Workflow.generateAllContentStep Samples.plan
                     (snd Samples.planned))
              = Throw (lit "Failed to generate content for section "
                       ++ dquote ++ lit "Values" ++ dquote
                       ++ lit " after 3 attempts: model overloaded"))
    by (vm_compute; reflexivity).
  split; [exact H|].
  apply (generate_failure_leaves_in_progress Samples.plan
           (snd Samples.planned)
           (lit "Failed to generate content for section "
            ++ dquote ++ lit "Values" ++ dquote
            ++ lit " after 3 attempts: model overloaded"));
    [vm_compute; reflexivity | exact H].
Defined.

Section PublishStatus.
Import ProgressTracking.
Variable wid : jsstring.

Lemma recorded_quietly w w' :
  quietly w w' -> is_Some (files w !! wid) -> is_Some (files w' !! wid).
Proof. intros [Hf _] H. now rewrite Hf. Qed.

Lemma recorded_update (c : Context.t) (w : World) :
  Context.action c = Update -> Context.workflowId c = wid ->
  is_Some (files w !! wid) ->
  is_Some (files (snd (progressTrackingTool_execute c w)) !! wid).
Proof.
  intros Ha Hw [p Hp]. rewrite progress_call_files.
  rewrite (execute_existing _ c (files w) p)
    by (congruence || (rewrite Hw; exact Hp)).
  rewrite Ha, Hw. simpl. rewrite lookup_insert_eq. eauto.
Qed.

Lemma failed_after_fail (message : jsstring) (w : World) :
  is_Some (files w !! wid) ->
  statusOf wid (snd (progressTrackingTool_execute
                       (Workflow.failWith wid message) w))
  = Some failed.
Proof.
  intros [p Hp]. unfold statusOf. rewrite progress_call_files.
  rewrite (execute_existing _ (Workflow.failWith wid message) (files w) p)
    by (discriminate || exact Hp).
  simpl. rewrite lookup_insert_eq. now rewrite applyFail_status.
Qed.

(** Step 4, the sibling of step 2: when it rejects on a run that has a
    record, the record is [failed]. *)
Lemma publish_failure_marks_failed (rv : Workflow.ReviewOutput.t) :
  Workflow.ReviewOutput.workflowId rv = wid ->
  hoare (fun w => is_Some (files w !! wid))
    (Workflow.generateFinalPDFStep rv)
    (fun r w => match r with
                | Ok _ => True
                | Throw _ => statusOf wid w = Some failed
                end).
Proof.
  intros Hid. unfold Workflow.generateFinalPDFStep. rewrite Hid.
  eapply hoare_bind with (R := fun _ w => is_Some (files w !! wid)).
  { apply hoare_progress. intros w _ H. now apply recorded_update. }
  intros _. destruct (negb (Workflow.ReviewOutput.approvedForPublication rv)).
  - eapply hoare_bind with (R := fun _ _ => True).
    { apply hoare_progress. intros; exact I. }
    intros _. eapply hoare_bind with (R := fun _ _ => True).
    { intros w _. exact I. }
    intros t w _. exact I.
  - eapply hoare_tryCatch with (R := fun _ w => is_Some (files w !! wid)).
    + eapply hoare_bind with (R := fun _ _ => True).
      { apply hoare_quiet; [apply quiet_await|].
        intros w w' [a|e] Hq H; [exact I|].
        now apply (recorded_quietly w w'). }
      intros pdfResult. eapply hoare_bind with (R := fun _ _ => True).
      { apply hoare_progress. intros; exact I. }
      intros _. eapply hoare_bind with (R := fun _ _ => True).
      { intros w _. exact I. }
      intros t w _. exact I.
    + intros e.
      eapply hoare_bind with (R := fun _ w => statusOf wid w = Some failed).
      { apply hoare_progress. intros w _ H. now apply failed_after_fail. }
      intros _ w H. exact H.
Qed.

End PublishStatus.

Section Counters.
Import ProgressTracking.
Variable ev0 : list Event.
Variable wid : jsstring.

Lemma Inv_quietly s c w w' : quietly w w' -> Inv ev0 wid s c w -> Inv ev0 wid s c w'.
Proof.
  intros [Hf [tr' [He Ht]]] [tr [Hev [Hs [Hc Hrec]]]].
  exists (tr ++ tr'). rewrite He, Hev, app_assoc. split; [reflexivity|].
  rewrite storedAfterUpdates_app, (storedAfterUpdates_adapter tr' Ht), app_nil_r.
  rewrite Hf. auto.
Qed.

Lemma Inv_weaken s c s' c' w :
  s <= s' -> c <= c' -> Inv ev0 wid s c w -> Inv ev0 wid s' c' w.
Proof.
  intros Hs Hc [tr [Hev [H1 [H2 Hrec]]]]. exists tr. repeat split; auto.
  destruct (files w !! wid) as [p|]; [|exact Hrec].
  destruct Hrec as [Ha [Hb Hall]]. repeat split; auto; lia.
Qed.

(** A call with action [update] whose counters, when given, are not below
    the bounds [s] and [c]. *)
Lemma Inv_update (ctx : Context.t) (s c : Z) (w : World) :
  Context.action ctx = Update ->
  Context.workflowId ctx = wid ->
  (forall v, Context.completedSections ctx = Some v -> s <= v) ->
  (forall v, Context.completedChapters ctx = Some v -> c <= v) ->
  Inv ev0 wid s c w ->
  Inv ev0 wid
    (match Context.completedSections ctx with Some v => v | None => s end)
    (match Context.completedChapters ctx with Some v => v | None => c end)
    (snd (progressTrackingTool_execute ctx w)).
Proof.
  intros Ha Hw Hs Hc [tr [Hev [H1 [H2 Hrec]]]]. unfold Inv.
  rewrite progress_call_events, progress_call_files, Ha, Hw, Hev.
  destruct (files w !! wid) as [p|] eqn:Hp.
  - rewrite (execute_existing _ ctx (files w) p)
      by (congruence || (rewrite Hw; exact Hp)).
    rewrite Ha, Hw. cbv zeta. simpl snd. rewrite !lookup_insert_eq.
    set (p' := applyUpdate (dateNow w (tick w)) ctx p).
    destruct Hrec as [Hps [Hpc Hall]].
    assert (Hs' : completedSections p <= completedSections p'
                  /\ completedSections p'
                     <= match Context.completedSections ctx with
                        | Some v => v | None => s end).
    { unfold p'. rewrite applyUpdate_completedSections.
      destruct (Context.completedSections ctx) as [v|]; [|lia].
      specialize (Hs v eq_refl). lia. }
    assert (Hc' : completedChapters p <= completedChapters p'
                  /\ completedChapters p'
                     <= match Context.completedChapters ctx with
                        | Some v => v | None => c end).
    { unfold p'. rewrite applyUpdate_completedChapters.
      destruct (Context.completedChapters ctx) as [v|]; [|lia].
      specialize (Hc v eq_refl). lia. }
    exists (tr ++ [ProgressCall Update (Some p')]).
    rewrite app_assoc. split; [reflexivity|].
    rewrite storedAfterUpdates_app.
    change (storedAfterUpdates [ProgressCall Update (Some p')]) with [p'].
    rewrite !List.map_app.
    change (List.map completedSections [p']) with [completedSections p'].
    change (List.map completedChapters [p']) with [completedChapters p'].
    split; [|split; [|split; [|split]]]; try tauto.
    + apply nondecreasing_snoc; [exact H1|].
      apply List.Forall_forall. intros y Hy.
      apply List.in_map_iff in Hy as [q [<- Hq]].
      apply (proj1 (List.Forall_forall _ _) Hall) in Hq. lia.
    + apply nondecreasing_snoc; [exact H2|].
      apply List.Forall_forall. intros y Hy.
      apply List.in_map_iff in Hy as [q [<- Hq]].
      apply (proj1 (List.Forall_forall _ _) Hall) in Hq. lia.
    + apply List.Forall_app. split.
      * apply List.Forall_forall. intros q Hq.
        apply (proj1 (List.Forall_forall _ _) Hall) in Hq. lia.
      * repeat constructor; lia.
  - rewrite execute_missing by (congruence || (rewrite Hw; exact Hp)).
    simpl. rewrite Hp.
    exists (tr ++ [ProgressCall Update None]).
    rewrite app_assoc. split; [reflexivity|].
    rewrite storedAfterUpdates_app. simpl. rewrite app_nil_r. auto.
Qed.

(** A call with action [complete] or [fail]. *)
Lemma Inv_terminal (ctx : Context.t) (s c : Z) (w : World) :
  Context.action ctx = Complete \/ Context.action ctx = Fail ->
  Context.workflowId ctx = wid ->
  Inv ev0 wid s c w ->
  Inv ev0 wid s c (snd (progressTrackingTool_execute ctx w)).
Proof.
  intros Ha Hw [tr [Hev [H1 [H2 Hrec]]]]. unfold Inv.
  rewrite progress_call_events, progress_call_files, Hw, Hev.
  assert (Hni : Context.action ctx <> Initialize) by (destruct Ha; congruence).
  eexists (tr ++ [_]). rewrite app_assoc. split; [reflexivity|].
  rewrite storedAfterUpdates_app.
  assert (Hnu : forall o, storedAfterUpdates
                  [ProgressCall (Context.action ctx) o] = []).
  { intros o. destruct Ha as [-> | ->]; simpl; reflexivity. }
  rewrite Hnu, app_nil_r.
  split; [exact H1|]. split; [exact H2|].
  destruct (files w !! wid) as [p|] eqn:Hp.
  - rewrite (execute_existing _ ctx (files w) p)
      by (congruence || (rewrite Hw; exact Hp)).
    rewrite Hw.
    destruct Ha as [-> | ->]; simpl; rewrite lookup_insert_eq.
    + exact Hrec.
    + destruct (applyFail_counters (dateNow w (tick w)) ctx p) as [-> ->].
      exact Hrec.
  - rewrite execute_missing by (congruence || (rewrite Hw; exact Hp)).
    simpl. rewrite Hp. exact Hrec.
Qed.

(** The call with action [initialize] of a run whose id is fresh. *)
Lemma Inv_initialize (ctx : Context.t) (w : World) :
  Context.action ctx = Initialize ->
  Context.workflowId ctx = wid ->
  events w = ev0 ->
  files w !! wid = None ->
  Inv ev0 wid 0 0 (snd (progressTrackingTool_execute ctx w)).
Proof.
  intros Ha Hw Hev Hp. unfold Inv.
  rewrite progress_call_events, progress_call_files, Ha, Hw, Hev.
  eexists [_]. split; [reflexivity|]. simpl.
  split; [exact I|]. split; [exact I|].
  unfold execute, executeBody. rewrite Ha, Hw.
  destruct (Context.topic ctx) as [[|? ?]|], (Context.totalChapters ctx),
    (Context.totalSections ctx), (Context.targetWordCount ctx);
    simpl; rewrite ?Hp; try reflexivity.
  destruct (_ || _); simpl; rewrite ?Hp; try reflexivity.
  unfold saveProgress. rewrite lookup_insert_eq. simpl.
  repeat split; try lia. constructor.
Qed.

End Counters.


Section RunCounters.
Import ProgressTracking.
Variable ev0 : list Event.
Variable wid : jsstring.

Lemma InvE_quietly w w' : quietly w w' -> InvE ev0 wid w -> InvE ev0 wid w'.
Proof. intros Hq [s [c H]]. exists s, c. now apply (Inv_quietly ev0 wid s c w). Qed.

Lemma InvE_step (step : jsstring) :
  stable (InvE ev0 wid)
    (progressTrackingTool_execute (Workflow.updateStep wid step)).
Proof.
  apply hoare_progress. intros w _ [s [c H]]. exists s, c.
  apply (Inv_update ev0 wid (Workflow.updateStep wid step) s c w);
    try reflexivity; try exact H; intros v Hv; discriminate.
Qed.

Lemma InvE_fail (message : jsstring) :
  stable (InvE ev0 wid)
    (progressTrackingTool_execute (Workflow.failWith wid message)).
Proof.
  apply hoare_progress. intros w _ [s [c H]]. exists s, c.
  apply Inv_terminal; [right; reflexivity | reflexivity | exact H].
Qed.

Lemma InvE_complete :
  stable (InvE ev0 wid)
    (progressTrackingTool_execute (Context.bare Complete wid)).
Proof.
  apply hoare_progress. intros w _ [s [c H]]. exists s, c.
  apply Inv_terminal; [left; reflexivity | reflexivity | exact H].
Qed.

Lemma sectionLoop_counters topic outline chapter twps total (c : Z) :
  forall rest idx vars,
    hoare (Inv ev0 wid (Workflow.completedSections vars) c)
      (Workflow.sectionLoop wid topic outline chapter twps total rest idx vars)
      (fun r w => match r with
                  | Ok vars' => Inv ev0 wid (Workflow.completedSections vars') c w
                  | Throw _ => InvE ev0 wid w
                  end).
Proof.
  induction rest as [|sectionTitle rest IH]; intros idx vars; simpl.
  - intros w H. exact H.
  - eapply hoare_bind; [|intros vars'; apply IH].
    eapply hoare_tryCatch with
      (R := fun _ w => Inv ev0 wid (Workflow.completedSections vars) c w).
    + eapply hoare_bind with
        (R := fun _ w => Inv ev0 wid (Workflow.completedSections vars) c w).
      * apply hoare_quiet; [apply execute_quiet|].
        intros w w' r Hq H.
        pose proof (Inv_quietly ev0 wid _ c w w' Hq H) as H'.
        destruct r; exact H'.
      * intros r. eapply hoare_bind with
          (R := fun _ w =>
                  Inv ev0 wid (Workflow.completedSections vars + 1) c w).
        -- apply hoare_progress. intros w _ H.
           apply (Inv_update ev0 wid
                    (Workflow.updateSectionDone wid
                       (Workflow.completedSections vars + 1) _)
                    (Workflow.completedSections vars) c w);
             try reflexivity; try exact H; simpl; intros v Hv;
             [injection Hv as <-; lia | discriminate].
        -- intros _ w H. exact H.
    + intros e. eapply hoare_bind with
        (R := fun _ w => Inv ev0 wid (Workflow.completedSections vars) c w).
      * apply hoare_progress. intros w _ H.
        apply (Inv_update ev0 wid
                 (Workflow.updateSectionError wid sectionTitle e)
                 (Workflow.completedSections vars) c w);
          try reflexivity; try exact H; intros v Hv; discriminate.
      * intros _ w H. exists (Workflow.completedSections vars), c. exact H.
Qed.

Lemma chapterLoop_counters topic outline :
  forall chapters vars,
    hoare (Inv ev0 wid (Workflow.completedSectionsSoFar vars)
             (Z.of_nat (List.length (Workflow.generatedChapters vars))))
      (Workflow.chapterLoop wid topic outline chapters vars)
      (fun _ w => InvE ev0 wid w).
Proof.
  induction chapters as [|chapter rest IH]; intros vars; simpl.
  - intros w H. eexists _, _. exact H.
  - set (s := Workflow.completedSectionsSoFar vars).
    set (c := Z.of_nat (List.length (Workflow.generatedChapters vars))).
    eapply hoare_bind with (R := fun _ w => Inv ev0 wid s c w).
    { apply hoare_progress. intros w _ H.
      apply (Inv_update ev0 wid (Workflow.updateChapterStart wid chapter s)
               s c w);
        try reflexivity; try exact H; simpl; intros v Hv;
        [injection Hv as <-; lia | discriminate]. }
    intros _.
    eapply hoare_bind with
      (R := fun sv w => Inv ev0 wid (Workflow.completedSections sv) c w).
    { eapply hoare_weaken;
        [apply (sectionLoop_counters topic outline chapter _ _ c) | |].
      - intros w H. exact H.
      - intros [sv|e] w H; [exact H|]. exact H. }
    intros sv. cbv zeta. rewrite List.length_app. simpl List.length.
    replace (Z.of_nat (List.length (Workflow.generatedChapters vars) + 1))
      with (c + 1) by (unfold c; lia).
    eapply hoare_bind with
      (R := fun _ w => Inv ev0 wid (Workflow.completedSections sv) (c + 1) w).
    { apply hoare_progress. intros w _ H.
      match goal with
      | |- context [progressTrackingTool_execute ?ctx] =>
          apply (Inv_update ev0 wid ctx (Workflow.completedSections sv) c w)
      end; try reflexivity; try exact H; intros v Hv;
        [discriminate | injection Hv as <-; lia]. }
    intros _. eapply hoare_weaken; [apply IH | | intros r w H; exact H].
    intros w H. simpl. rewrite List.length_app. simpl List.length.
    replace (Z.of_nat (List.length (Workflow.generatedChapters vars) + 1))
      with (c + 1) by (unfold c; lia).
    exact H.
Qed.

End RunCounters.

Section RunCountersSteps.
Import ProgressTracking.
Variable ev0 : list Event.
Variable wid : jsstring.

Lemma bind_progress_ret {B : Type} (c : Context.t) (f : ToolResult -> B)
  (w : World) :
  bind (progressTrackingTool_execute c) (fun r => ret (f r)) w
  = (Ok (f (fst (execute (dateNow w (tick w)) c (files w)))),
     snd (progressTrackingTool_execute c w)).
Proof. unfold bind. rewrite progress_call. reflexivity. Qed.

Lemma plan_counters (inputData : Workflow.PlanInput.t) (w : World) :
  events w = ev0 ->
  Workflow.workflowIdOf w = wid ->
  files w !! wid = None ->
  hoare (eq w) (Workflow.initializeAndPlanStep inputData)
    (fun r w' => match r with
                 | Ok plan => Workflow.PlanOutput.workflowId plan = wid
                              /\ Inv ev0 wid 0 0 w'
                 | Throw _ => InvE ev0 wid w'
                 end).
Proof.
  intros Hev Hid Hf. unfold Workflow.initializeAndPlanStep.
  eapply hoare_bind with
    (R := fun now w1 => now = dateNow w (tick w) /\ w1 = advance w).
  { intros w0 <-. split; reflexivity. }
  intros now.
  eapply hoare_bind with
    (R := fun suffix w2 =>
            lit "edu-" ++ ofZ now ++ lit "-" ++ suffix = wid
            /\ w2 = advance (advance w)).
  { intros w1 [-> ->]. split; [exact Hid | reflexivity]. }
  intros suffix.
  eapply hoare_bind with
    (R := fun _ w3 =>
            lit "edu-" ++ ofZ now ++ lit "-" ++ suffix = wid
            /\ events w3 = ev0 /\ files w3 !! wid = None).
  { intros w2 [Hw ->]. unfold await. simpl.
    destruct (ideaGenerationAgent w (S (S (tick w)))); [auto|].
    exists 0, 0, []. simpl. rewrite app_nil_r, Hf. auto. }
  intros outlineText.
  eapply hoare_bind with
    (R := fun _ w4 =>
            lit "edu-" ++ ofZ now ++ lit "-" ++ suffix = wid
            /\ Inv ev0 wid 0 0 w4).
  { apply hoare_progress. intros w3 _ (Hw & He & Hn). split; [exact Hw|].
    apply Inv_initialize; auto. }
  intros r w4 [Hw H]. split; [exact Hw | exact H].
Qed.

Lemma generate_counters (plan : Workflow.PlanOutput.t) :
  Workflow.PlanOutput.workflowId plan = wid ->
  hoare (Inv ev0 wid 0 0) (Workflow.generateAllContentStep plan)
    (fun r w => match r with
                | Ok g => Workflow.GenerateOutput.workflowId g = wid
                          /\ InvE ev0 wid w
                | Throw _ => InvE ev0 wid w
                end).
Proof.
  intros Hid. unfold Workflow.generateAllContentStep. rewrite Hid.
  eapply hoare_bind with (R := fun _ w => InvE ev0 wid w).
  - eapply hoare_weaken; [apply (chapterLoop_counters ev0 wid) | |].
    + intros w H. exact H.
    + intros [v|e] w H; exact H.
  - intros vars w H. split; [reflexivity | exact H].
Qed.

Lemma review_counters (g : Workflow.GenerateOutput.t) :
  Workflow.GenerateOutput.workflowId g = wid ->
  hoare (InvE ev0 wid) (Workflow.reviewContentStep g)
    (fun r w => match r with
                | Ok rv => Workflow.ReviewOutput.workflowId rv = wid
                           /\ InvE ev0 wid w
                | Throw _ => InvE ev0 wid w
                end).
Proof.
  intros Hid. unfold Workflow.reviewContentStep. rewrite Hid.
  eapply hoare_bind with (R := fun _ w => InvE ev0 wid w).
  - intros w H.
    pose proof (InvE_step ev0 wid (lit "Reviewing generated content") w H)
      as H'.
    destruct (fst _); exact H'.
  - intros _. eapply hoare_bind with (R := fun _ w => InvE ev0 wid w).
    + apply hoare_quiet; [apply quiet_await|]. intros w w' r Hq H.
      pose proof (InvE_quietly ev0 wid w w' Hq H) as H'. destruct r; exact H'.
    + intros reviewText w H. split; [reflexivity | exact H].
Qed.

Lemma pdf_counters (rv : Workflow.ReviewOutput.t) :
  Workflow.ReviewOutput.workflowId rv = wid ->
  stable (InvE ev0 wid) (Workflow.generateFinalPDFStep rv).
Proof.
  intros Hid. unfold Workflow.generateFinalPDFStep. rewrite Hid.
  apply stable_bind; [apply InvE_step|]. intros _.
  destruct (negb (Workflow.ReviewOutput.approvedForPublication rv)).
  - apply stable_bind; [apply InvE_fail|]. intros _.
    apply stable_bind;
      [apply stable_quiet; [apply InvE_quietly | apply quiet_ask]|].
    intros t. apply stable_ret.
  - apply stable_tryCatch.
    + apply stable_bind;
        [apply stable_quiet; [apply InvE_quietly | apply quiet_await]|].
      intros pdfResult.
      apply stable_bind; [apply InvE_complete|]. intros _.
      apply stable_bind;
        [apply stable_quiet; [apply InvE_quietly | apply quiet_ask]|].
      intros t. apply stable_ret.
    + intros e. apply stable_bind; [apply InvE_fail|]. intros _.
      apply stable_throw.
Qed.

End RunCountersSteps.

(** C9.  In a run whose workflow id is fresh, the records stored after the
    update calls of the pipeline, taken in order, never decrease in
    [completedSections] nor in [completedChapters]. *)
Theorem counters_never_decrease (inputData : Workflow.PlanInput.t) (w : World) :
  files w !! Workflow.workflowIdOf w = None ->
  exists tr,
    events (snd (Workflow.improvedEducationalContentWorkflow inputData w))
    = events w ++ tr
    /\ nondecreasing
         (List.map ProgressTracking.completedSections (storedAfterUpdates tr))
    /\ nondecreasing
         (List.map ProgressTracking.completedChapters (storedAfterUpdates tr)).
Proof.
  intros Hf.
  set (ev0 := events w). set (wid := Workflow.workflowIdOf w).
  assert (H : InvE ev0 wid
                (snd (Workflow.improvedEducationalContentWorkflow inputData w))).
  { pose proof (plan_counters ev0 wid inputData w eq_refl eq_refl Hf w eq_refl)
      as H1.
    unfold Workflow.improvedEducationalContentWorkflow. unfold bind at 1.
    destruct (Workflow.initializeAndPlanStep inputData w) as [[plan|e] w1];
      simpl in H1; [|exact H1].
    destruct H1 as [Hid1 H1].
    pose proof (generate_counters ev0 wid plan Hid1 w1 H1) as H2.
    unfold bind at 1.
    destruct (Workflow.generateAllContentStep plan w1) as [[g|e] w2];
      simpl in H2; [|exact H2].
    destruct H2 as [Hid2 H2].
    pose proof (review_counters ev0 wid g Hid2 w2 H2) as H3.
    unfold bind at 1.
    destruct (Workflow.reviewContentStep g w2) as [[rv|e] w3];
      simpl in H3; [|exact H3].
    destruct H3 as [Hid3 H3].
    exact (pdf_counters ev0 wid rv Hid3 w3 H3). }
  destruct H as [s [c [tr [Hev [H1 [H2 _]]]]]].
  exists tr. auto.
Qed.

(** The run of the sample world whose writing agent answers at once. *)
Lemma counters_never_decrease_witness :
  exists tr,
    events (snd (Workflow.improvedEducationalContentWorkflow
                   Samples.inputData (Samples.world Samples.workingWriter)))
    = events (Samples.world Samples.workingWriter) ++ tr
    /\ nondecreasing
         (List.map ProgressTracking.completedSections (storedAfterUpdates tr))
    /\ nondecreasing
         (List.map ProgressTracking.completedChapters (storedAfterUpdates tr)).
Proof.
  apply (counters_never_decrease Samples.inputData
           (Samples.world Samples.workingWriter)).
  reflexivity.
Defined.

(* ===================================================================== *)
(** * More facts: the progress store                                      *)
(* ===================================================================== *)

Section StoreMoreFacts.
Import ProgressTracking.

Lemma applyUpdate_fields now c p :
  workflowId (applyUpdate now c p) = workflowId p
  /\ topic (applyUpdate now c p) = topic p
  /\ startTime (applyUpdate now c p) = startTime p
  /\ totalChapters (applyUpdate now c p) = totalChapters p
  /\ totalSections (applyUpdate now c p) = totalSections p
  /\ targetWordCount (applyUpdate now c p) = targetWordCount p
  /\ lastUpdate (applyUpdate now c p) = now.
Proof.
  unfold applyUpdate, applyIf;
  destruct (Context.currentStep c), (Context.completedChapters c),
    (Context.completedSections c), (Context.totalWordsGenerated c),
    (Context.error c), (Context.chapterCompleted c) as [[[? ?] ?]|];
  repeat match goal with |- context [if ?b then _ else _] => destruct b end;
  repeat split.
Qed.

Lemma applyUpdate_totalWordsGenerated now c p :
  totalWordsGenerated (applyUpdate now c p)
  = match Context.totalWordsGenerated c with
    | Some n => n
    | None => totalWordsGenerated p
    end.
Proof.
  unfold applyUpdate, applyIf;
  destruct (Context.currentStep c), (Context.completedChapters c),
    (Context.completedSections c), (Context.totalWordsGenerated c),
    (Context.error c), (Context.chapterCompleted c) as [[[? ?] ?]|];
  repeat match goal with |- context [if ?b then _ else _] => destruct b end;
  reflexivity.
Qed.

Lemma applyUpdate_errors now c p :
  Context.action c = Update ->
  errors (applyUpdate now c p) = errors p ++ loggedError now c.
Proof.
  intros Ha. unfold loggedError. rewrite Ha.
  unfold applyUpdate, applyIf;
  destruct (Context.currentStep c), (Context.completedChapters c),
    (Context.completedSections c), (Context.totalWordsGenerated c),
    (Context.error c) as [[|? ?]|],
    (Context.chapterCompleted c) as [[[? ?] ?]|];
  cbn;
  repeat match goal with |- context [if ?b then _ else _] => destruct b end;
  cbn; rewrite ?app_nil_r; reflexivity.
Qed.

Lemma applyUpdate_details now c p :
  Context.action c = Update ->
  completedChapterDetails (applyUpdate now c p)
  = completedChapterDetails p ++ loggedChapter now c.
Proof.
  intros Ha. unfold loggedChapter. rewrite Ha.
  unfold applyUpdate, applyIf;
  destruct (Context.currentStep c), (Context.completedChapters c),
    (Context.completedSections c), (Context.totalWordsGenerated c),
    (Context.error c) as [[|? ?]|],
    (Context.chapterCompleted c) as [[[? ?] ?]|];
  cbn;
  repeat match goal with |- context [if ?b then _ else _] => destruct b end;
  cbn; rewrite ?app_nil_r; reflexivity.
Qed.

Lemma applyFail_errors now c p :
  Context.action c = Fail ->
  errors (applyFail now c p) = errors p ++ loggedError now c.
Proof.
  intros Ha. unfold loggedError. rewrite Ha. unfold applyFail, applyIf.
  destruct (Context.error c) as [[|? ?]|]; simpl; rewrite ?app_nil_r;
    reflexivity.
Qed.

End StoreMoreFacts.





(** X3.  What an [update] writes, a later [get] reads: the view returned by
    [get] shows each counter that the update carried (the stored one for a
    counter it did not carry), the status untouched and the instant of the
    update as last update; and [get] itself writes nothing. *)
Theorem update_then_get (t1 t2 : Z) (c : ProgressTracking.Context.t)
  (files : ProgressTracking.Files) (p : ProgressTracking.ProgressData) :
  ProgressTracking.Context.action c = ProgressTracking.Update ->
  files !! ProgressTracking.Context.workflowId c = Some p ->
  let files' := snd (ProgressTracking.execute t1 c files) in
  let get := ProgressTracking.Context.bare ProgressTracking.Get
               (ProgressTracking.Context.workflowId c) in
  snd (ProgressTracking.execute t2 get files') = files'
  /\ exists v,
       ProgressTracking.progress (fst (ProgressTracking.execute t2 get files'))
       = Some v
       /\ ProgressTracking.v_completedSections v
          = match ProgressTracking.Context.completedSections c with
            | Some n => n
            | None => ProgressTracking.completedSections p
            end
       /\ ProgressTracking.v_completedChapters v
          = match ProgressTracking.Context.completedChapters c with
            | Some n => n
            | None => ProgressTracking.completedChapters p
            end
       /\ ProgressTracking.v_totalWordsGenerated v
          = match ProgressTracking.Context.totalWordsGenerated c with
            | Some n => n
            | None => ProgressTracking.totalWordsGenerated p
            end
       /\ ProgressTracking.v_status v = ProgressTracking.status p
       /\ ProgressTracking.v_lastUpdate v = t1.
Proof.
  intros Ha Hp. cbv zeta.
  rewrite (execute_existing t1 c files p) by congruence.
  rewrite Ha. simpl snd.
  set (p' := ProgressTracking.applyUpdate t1 c p).
  rewrite (execute_existing t2 _ _ p')
    by (discriminate || apply lookup_insert_eq).
  cbv zeta. simpl fst. simpl snd. split; [reflexivity|].
  exists (ProgressTracking.view p' (ProgressTracking.percentage p')).
  split; [reflexivity|].
  unfold ProgressTracking.view.
  cbn [ProgressTracking.v_completedSections
       ProgressTracking.v_completedChapters
       ProgressTracking.v_totalWordsGenerated ProgressTracking.v_status
       ProgressTracking.v_lastUpdate].
  unfold p'.
  rewrite applyUpdate_completedSections, applyUpdate_completedChapters,
    applyUpdate_totalWordsGenerated, applyUpdate_status.
  repeat split.
Qed.

Lemma update_then_get_witness :
  exists v,
    ProgressTracking.progress
      (fst (ProgressTracking.execute 7
              (ProgressTracking.Context.bare ProgressTracking.Get Samples.runId)
              (snd (ProgressTracking.execute 6
                      (Workflow.updateSectionDone Samples.runId 3 1200)
                      Samples.initialized))))
    = Some v
    /\ ProgressTracking.v_completedSections v = 3
    /\ ProgressTracking.v_completedChapters v = 0
    /\ ProgressTracking.v_totalWordsGenerated v = 1200
    /\ ProgressTracking.v_status v = ProgressTracking.in_progress
    /\ ProgressTracking.v_lastUpdate v = 6.
Proof.
  refine (proj2 (update_then_get 6 7
                   (Workflow.updateSectionDone Samples.runId 3 1200)
                   Samples.initialized Samples.created eq_refl _)).
  vm_compute. reflexivity.
Defined.

(** X4.  On an existing record, a call other than [initialize] never
    rewrites the history: the error log and the list of chapter details
    keep their entries and grow at the end by what the call logs (an error
    entry for [update] or [fail] with a non-empty error text, a chapter
    detail for [update] with a completed chapter), and the identity of the
    run, its topic, its start and its three totals stay as they are. *)
Theorem store_keeps_history (now : Z) (c : ProgressTracking.Context.t)
  (files : ProgressTracking.Files) (p : ProgressTracking.ProgressData) :
  ProgressTracking.Context.action c <> ProgressTracking.Initialize ->
  files !! ProgressTracking.Context.workflowId c = Some p ->
  exists p',
    snd (ProgressTracking.execute now c files)
      !! ProgressTracking.Context.workflowId c = Some p'
    /\ ProgressTracking.errors p'
       = ProgressTracking.errors p ++ loggedError now c
    /\ ProgressTracking.completedChapterDetails p'
       = ProgressTracking.completedChapterDetails p ++ loggedChapter now c
    /\ ProgressTracking.workflowId p' = ProgressTracking.workflowId p
    /\ ProgressTracking.topic p' = ProgressTracking.topic p
    /\ ProgressTracking.startTime p' = ProgressTracking.startTime p
    /\ ProgressTracking.totalChapters p' = ProgressTracking.totalChapters p
    /\ ProgressTracking.totalSections p' = ProgressTracking.totalSections p
    /\ ProgressTracking.targetWordCount p'
       = ProgressTracking.targetWordCount p.
Proof.
  intros Hni Hp. rewrite (execute_existing now c files p Hni Hp).
  destruct (ProgressTracking.Context.action c) eqn:Ha; [congruence| | | |];
    simpl snd.
  - rewrite lookup_insert_eq. eexists. split; [reflexivity|].
    rewrite applyUpdate_errors, applyUpdate_details by exact Ha.
    destruct (applyUpdate_fields now c p) as (H1 & H2 & H3 & H4 & H5 & H6 & _).
    repeat split; assumption.
  - exists p. split; [exact Hp|]. unfold loggedError, loggedChapter.
    rewrite Ha, !app_nil_r. repeat split.
  - rewrite lookup_insert_eq. eexists. split; [reflexivity|].
    unfold loggedError, loggedChapter. rewrite Ha, !app_nil_r. repeat split.
  - rewrite lookup_insert_eq. eexists. split; [reflexivity|].
    rewrite applyFail_errors by exact Ha.
    unfold loggedChapter. rewrite Ha, app_nil_r.
    unfold ProgressTracking.applyFail, ProgressTracking.applyIf.
    destruct (ProgressTracking.Context.error c) as [e|];
      [destruct (ProgressTracking.truthyS (Some e))|]; repeat split.
Qed.

Lemma store_keeps_history_witness :
  exists p',
    snd (ProgressTracking.execute 8
           (Workflow.failWith Samples.runId (lit "disk full"))
           Samples.initialized) !! Samples.runId = Some p'
    /\ ProgressTracking.errors p' = [(8, lit "disk full")]
    /\ ProgressTracking.startTime p' = 1.
Proof.
  destruct (store_keeps_history 8
              (Workflow.failWith Samples.runId (lit "disk full"))
              Samples.initialized Samples.created)
    as [p' (H1 & H2 & _ & _ & _ & H3 & _)].
  - discriminate.
  - vm_compute. reflexivity.
  - exists p'. auto.
Defined.

(* ===================================================================== *)
(** * More facts: the content generation adapter                          *)
(* ===================================================================== *)

Section AdapterMoreFacts.
Import ChunkedGeneration.

Lemma loopEvents_next (a m : nat) :
  (1 <= a)%nat ->
  Attempt (Z.of_nat a) :: Sleep (backoffMs (Z.of_nat a))
    :: loopEvents (S a) (S m)
  = loopEvents a (S (S m)).
Proof.
  intros Ha. simpl loopEvents. f_equal.
  simpl seq. simpl List.map. simpl flat_map.
  rewrite <- (backoff_is_wait a Ha). reflexivity.
Qed.

Lemma firstSuccess_step (answers : nat -> Result jsstring)
  (start limit : nat) :
  firstSuccess answers start (S limit)
  = match answers start with
    | Ok text => Some (O, text)
    | Throw _ =>
        match firstSuccess answers (S start) limit with
        | Some (k, text) => Some (S k, text)
        | None => None
        end
    end.
Proof. reflexivity. Qed.

(** The loop, entered at attempt [a] with the iterations that remain, stops
    at the first answer [Ok] and returns it; when every remaining answer
    fails it throws with the last error. *)
Lemma attemptLoop_first_success (title : jsstring) (idx : nat)
  (maxRetries : Z) :
  forall (remaining a : nat) (w : World),
    (1 <= a)%nat ->
    S remaining = Z.to_nat (maxRetries - Z.of_nat a + 1) ->
    let out := attemptLoop title idx maxRetries (S remaining) (Z.of_nat a) w in
    match firstSuccess (writingAgent w) (tick w) (S remaining) with
    | Some (k, text) =>
        fst out = Ok {| sectionTitle := title; content := text;
                        wordCount := WordCount.wordCount text;
                        chunkIndex := idx |}
        /\ events (snd out) = events w ++ loopEvents a (S k)
        /\ tick (snd out) = (tick w + S k)%nat
    | None =>
        exists e,
          writingAgent w (tick w + remaining)%nat = Throw e
          /\ fst out
             = Throw (lit "Failed to generate content for section "
                      ++ dquote ++ title ++ dquote ++ lit " after "
                      ++ ofZ maxRetries ++ lit " attempts: " ++ e)
          /\ events (snd out) = events w ++ loopEvents a (S remaining)
          /\ tick (snd out) = (tick w + S remaining)%nat
    end.
Proof.
  induction remaining as [|remaining IH]; intros a w Ha Hrem; cbv zeta;
    rewrite attemptLoop_step, firstSuccess_step; cbv zeta.
  - destruct (writingAgent w (tick w)) as [text|e] eqn:Hw.
    + simpl. repeat split. lia.
    + replace (Z.of_nat a =? maxRetries) with true
        by (symmetry; apply Z.eqb_eq; lia).
      exists e. rewrite Nat.add_0_r. simpl. repeat split; [exact Hw | lia].
  - destruct (writingAgent w (tick w)) as [text|e] eqn:Hw.
    + simpl. repeat split. lia.
    + replace (Z.of_nat a =? maxRetries) with false
        by (symmetry; apply Z.eqb_neq; lia).
      replace (Z.of_nat a + 1) with (Z.of_nat (S a)) by lia.
      set (w2 := addEvent (Sleep (backoffMs (Z.of_nat a)))
                   (advance (addEvent (Attempt (Z.of_nat a)) w))).
      specialize (IH (S a) w2). cbv zeta in IH.
      change (writingAgent w2) with (writingAgent w) in IH.
      change (tick w2) with (S (tick w)) in IH.
      assert (Hev : forall l, events w2 ++ l
                    = events w ++ Attempt (Z.of_nat a)
                        :: Sleep (backoffMs (Z.of_nat a)) :: l).
      { intros l. unfold w2. simpl. now rewrite <- !app_assoc. }
      destruct (firstSuccess (writingAgent w) (S (tick w)) (S remaining))
        as [[k text]|].
      * destruct IH as (H1 & H2 & H3); [lia | lia |]. cbv beta iota.
        split; [exact H1|]. split; [|lia].
        rewrite H2, Hev, (loopEvents_next a k Ha). reflexivity.
      * destruct IH as (e' & H0 & H1 & H2 & H3); [lia | lia |].
        cbv beta iota. exists e'. split; [rewrite <- H0; f_equal; lia|].
        split; [exact H1|]. split; [|lia].
        rewrite H2, Hev, (loopEvents_next a remaining Ha). reflexivity.
Qed.

End AdapterMoreFacts.

(** X5.  With a retry limit [r >= 1], the adapter stops at the first
    generation that succeeds among the first [r]: it returns that text, its
    word count, the title and the index of the section, after [k + 1]
    attempts when [k] generations failed before; when all [r] generations
    fail it throws "Failed to generate content for section <title> after
    <r> attempts: <last error>" after exactly [r] attempts.  In both cases
    the log is the retry sequence of the attempts made. *)
Theorem retry_until_first_success
  (config : ChunkedGeneration.ChunkGenerationConfig) (sectionIndex : nat)
  (w : World) :
  let r := ChunkedGeneration.maxRetriesOf
             (ChunkedGeneration.retryAttempts config) in
  let title := nth sectionIndex (ChunkedGeneration.sectionTitles config)
                 (lit "undefined") in
  let out := ChunkedGeneration.generateContentChunk config sectionIndex w in
  1 <= r ->
  match firstSuccess (writingAgent w) (tick w) (Z.to_nat r) with
  | Some (k, text) =>
      fst out
      = Ok {| ChunkedGeneration.sectionTitle := title;
              ChunkedGeneration.content := text;
              ChunkedGeneration.wordCount := WordCount.wordCount text;
              ChunkedGeneration.chunkIndex := sectionIndex |}
      /\ events (snd out) = events w ++ retrySequence (S k)
  | None =>
      exists e,
        writingAgent w (tick w + Z.to_nat r - 1)%nat = Throw e
        /\ fst out
           = Throw (lit "Failed to generate content for section "
                    ++ dquote ++ title ++ dquote ++ lit " after "
                    ++ ofZ r ++ lit " attempts: " ++ e)
        /\ events (snd out) = events w ++ retrySequence (Z.to_nat r)
  end.
Proof.
  cbv zeta. intros Hr. unfold ChunkedGeneration.generateContentChunk.
  set (r := ChunkedGeneration.maxRetriesOf
              (ChunkedGeneration.retryAttempts config)) in *.
  destruct (Z.to_nat r) as [|remaining] eqn:E; [lia|].
  pose proof (attemptLoop_first_success
                (nth sectionIndex (ChunkedGeneration.sectionTitles config)
                   (lit "undefined"))
                sectionIndex r remaining 1 w) as H.
  cbv zeta in H. change (Z.of_nat 1) with 1 in H.
  destruct (firstSuccess (writingAgent w) (tick w) (S remaining))
    as [[k text]|].
  - destruct H as (H1 & H2 & _); [lia | lia |]. split; [exact H1 | exact H2].
  - destruct H as (e & H0 & H1 & H2 & _); [lia | lia |].
    exists e. split; [rewrite <- H0; f_equal; lia|]. split; [exact H1 | exact H2].
Qed.

(** The third generation is the first to succeed. *)
Lemma retry_until_first_success_witness :
  let w := Samples.world
             (fun n => if (n <? 2)%nat then Throw (lit "busy")
                       else Ok (lit "Third time lucky.")) in
  let config :=
    {| ChunkedGeneration.topic := lit "X";
       ChunkedGeneration.chapterTitle := lit "Basics";
       ChunkedGeneration.chapterNumber := 1;
       ChunkedGeneration.sectionTitles := [lit "Values"];
       ChunkedGeneration.targetWordsPerSection := 600;
       ChunkedGeneration.context := Samples.outlineText;
       ChunkedGeneration.retryAttempts := Some 3 |} in
  fst (ChunkedGeneration.generateContentChunk config 0 w)
  = Ok {| ChunkedGeneration.sectionTitle := lit "Values";
          ChunkedGeneration.content := lit "Third time lucky.";
          ChunkedGeneration.wordCount := 3;
          ChunkedGeneration.chunkIndex := 0 |}
  /\ events (snd (ChunkedGeneration.generateContentChunk config 0 w))
     = [Attempt 1; Sleep 1000; Attempt 2; Sleep 2000; Attempt 3].
Proof.
  cbv zeta.
  refine (retry_until_first_success
            {| ChunkedGeneration.topic := lit "X";
               ChunkedGeneration.chapterTitle := lit "Basics";
               ChunkedGeneration.chapterNumber := 1;
               ChunkedGeneration.sectionTitles := [lit "Values"];
               ChunkedGeneration.targetWordsPerSection := 600;
               ChunkedGeneration.context := Samples.outlineText;
               ChunkedGeneration.retryAttempts := Some 3 |}
            0
            (Samples.world
               (fun n => if (n <? 2)%nat then Throw (lit "busy")
                         else Ok (lit "Third time lucky."))) _).
  simpl. lia.
Defined.

(** X6.  The wait after the failure of attempt [a >= 1] doubles from 1000 ms
    while [a <= 5] and is capped at 30000 ms from the sixth failure on; it
    never decreases with [a] and always lies between 1000 and 30000 ms. *)
Theorem backoff_doubles_then_caps (a : Z) :
  1 <= a ->
  (a <= 5 -> ChunkedGeneration.backoffMs a = 1000 * 2 ^ (a - 1))
  /\ (6 <= a -> ChunkedGeneration.backoffMs a = 30000)
  /\ 1000 <= ChunkedGeneration.backoffMs a <= 30000
  /\ ChunkedGeneration.backoffMs a <= ChunkedGeneration.backoffMs (a + 1).
Proof.
  intros Ha. unfold ChunkedGeneration.backoffMs.
  assert (Hpow : forall b, 0 <= b -> 1 <= 2 ^ b)
    by (intros b Hb; apply (Z.pow_le_mono_r 2 0 b); lia).
  assert (Hbig : forall b, 5 <= b -> 32 <= 2 ^ b)
    by (intros b Hb; apply (Z.pow_le_mono_r 2 5 b); lia).
  assert (Hmono : 2 ^ (a - 1) <= 2 ^ (a + 1 - 1))
    by (apply Z.pow_le_mono_r; lia).
  assert (Hsmall : a <= 5 -> 2 ^ (a - 1) <= 16).
  { intros H5. change 16 with (2 ^ 4). apply Z.pow_le_mono_r; lia. }
  pose proof (Hpow (a - 1) ltac:(lia)) as H1.
  split; [|split; [|split]].
  - intros H5. specialize (Hsmall H5). lia.
  - intros H6. specialize (Hbig (a - 1) ltac:(lia)). lia.
  - lia.
  - lia.
Qed.

Lemma backoff_doubles_then_caps_witness :
  ChunkedGeneration.backoffMs 5 = 16000
  /\ ChunkedGeneration.backoffMs 6 = 30000.
Proof.
  split.
  - apply (proj1 (backoff_doubles_then_caps 5 ltac:(lia))). lia.
  - apply (proj1 (proj2 (backoff_doubles_then_caps 6 ltac:(lia)))). lia.
Defined.

(* ===================================================================== *)
(** * More facts: the outline parser                                      *)
(* ===================================================================== *)

Section TrimFacts.

Lemma trimStart_head (s : jsstring) :
  match trimStart s with
  | [] => True
  | c :: _ => isWhiteSpace c = false
  end.
Proof.
  induction s as [|c s IH]; simpl; [exact I|].
  destruct (isWhiteSpace c) eqn:E; [exact IH | exact E].
Qed.

Lemma trimStart_fixed (s : jsstring) :
  match s with
  | [] => True
  | c :: _ => isWhiteSpace c = false
  end ->
  trimStart s = s.
Proof. destruct s as [|c s]; simpl; [reflexivity|]. now intros ->. Qed.

Lemma trimStart_snoc (l : jsstring) (c : N) :
  isWhiteSpace c = false -> trimStart (l ++ [c]) = trimStart l ++ [c].
Proof.
  intros Hc. induction l as [|d l IH]; simpl; [now rewrite Hc|].
  destruct (isWhiteSpace d); [exact IH | reflexivity].
Qed.

(** Trimming the end of a text that has no white space at its start leaves
    it without white space at its start. *)
Lemma trimEnd_keeps_start (t : jsstring) :
  trimStart t = t -> trimStart (trimEnd t) = trimEnd t.
Proof.
  intros Ht. destruct t as [|c t]; [reflexivity|].
  assert (Hc : isWhiteSpace c = false).
  { pose proof (trimStart_head (c :: t)) as H. rewrite Ht in H. exact H. }
  unfold trimEnd. simpl rev. rewrite (trimStart_snoc _ c Hc).
  rewrite rev_app_distr. simpl. now rewrite Hc.
Qed.

Lemma trimEnd_idem (t : jsstring) : trimEnd (trimEnd t) = trimEnd t.
Proof.
  unfold trimEnd. rewrite rev_involutive. f_equal.
  apply trimStart_fixed. apply trimStart_head.
Qed.

Lemma trim_trimmed (s : jsstring) : trimmed (trim s).
Proof.
  unfold trimmed, trim.
  rewrite trimEnd_keeps_start.
  - apply trimEnd_idem.
  - apply trimStart_fixed. apply trimStart_head.
Qed.

End TrimFacts.

Section OutlineMoreFacts.
Import Outline.

(** What one line does to the chapters opened so far. *)
Lemma parseLine_header (wpc : Z) (st : ParseState) (line : jsstring) :
  isChapterHeader line = true ->
  exists c,
    chaptersSoFar (parseLine wpc st line) = chaptersSoFar st ++ [c]
    /\ chapterNumber (parseLine wpc st line) = chapterNumber st + 1
    /\ number c = chapterNumber st
    /\ targetWordCount c = wpc
    /\ trimmed (title c)
    /\ Forall trimmed (sections c).
Proof.
  unfold isChapterHeader, parseLine, chaptersSoFar.
  destruct (chapterMatch (trim line)) as [group2|]; [|discriminate].
  intros ->.
  assert (Hch : chapters st ++ match currentChapter st with
                               | Some c => [c] | None => [] end
                = match currentChapter st with
                  | Some c => chapters st ++ [c]
                  | None => chapters st
                  end)
    by (destruct (currentChapter st); [reflexivity | apply app_nil_r]).
  rewrite Hch.
  destruct (sectionMatch (trim line)) as [group1|]; simpl.
  - eexists. split; [reflexivity|]. simpl. repeat split.
    + apply trim_trimmed.
    + repeat constructor. apply trim_trimmed.
  - eexists. split; [reflexivity|]. simpl. repeat split.
    + apply trim_trimmed.
    + constructor.
Qed.

Lemma parseLine_other (wpc : Z) (st : ParseState) (line : jsstring) :
  isChapterHeader line = false ->
  chapterNumber (parseLine wpc st line) = chapterNumber st
  /\ (chaptersSoFar (parseLine wpc st line) = chaptersSoFar st
      \/ exists c t,
           currentChapter st = Some c
           /\ chaptersSoFar (parseLine wpc st line)
              = chapters st ++ [pushSection (trim t) c]).
Proof.
  unfold isChapterHeader, parseLine, chaptersSoFar.
  intros Hh.
  assert (Hst : match chapterMatch (trim line) with
                | Some group2 =>
                    if negb (startsWith (trim line) (lit "-"))
                    then {| chapters :=
                              match currentChapter st with
                              | Some c => chapters st ++ [c]
                              | None => chapters st
                              end;
                            currentChapter :=
                              Some {| number := chapterNumber st;
                                      title := trim group2; sections := [];
                                      targetWordCount := wpc |};
                            chapterNumber := chapterNumber st + 1 |}
                    else st
                | None => st
                end = st).
  { destruct (chapterMatch (trim line)); [now rewrite Hh | reflexivity]. }
  rewrite Hst.
  destruct (sectionMatch (trim line)) as [group1|];
    destruct (currentChapter st) as [c|] eqn:Hc; simpl; rewrite ?Hc;
    split; try reflexivity; try (left; reflexivity).
  right. exists c, group1. split; reflexivity.
Qed.

End OutlineMoreFacts.

Section OutlineShape.
Import Outline.

Lemma seq_snoc (n : nat) :
  List.map Z.of_nat (seq 1 (S n))
  = List.map Z.of_nat (seq 1 n) ++ [Z.of_nat n + 1].
Proof.
  rewrite seq_S, List.map_app. simpl. do 2 f_equal. lia.
Qed.

Lemma shaped_line (wpc : Z) (n : nat) (st : ParseState) (line : jsstring) :
  shaped wpc n st ->
  shaped wpc (if isChapterHeader line then S n else n) (parseLine wpc st line).
Proof.
  intros (Hlen & Hnum & Hnext & Hw & Ht).
  destruct (isChapterHeader line) eqn:Hh.
  - destruct (parseLine_header wpc st line Hh)
      as (c & Hc & Hn & Hcn & Hcw & Hct & Hcs).
    unfold shaped. rewrite Hc, Hn, List.length_app, List.map_app, seq_snoc.
    simpl. rewrite Hlen, Hnum, Hcn, Hnext.
    repeat split; try lia.
    + apply Forall_app. split; [exact Hw | now constructor].
    + apply Forall_app. split; [exact Ht | now repeat constructor].
  - destruct (parseLine_other wpc st line Hh) as [Hn [Hsame | Hpush]].
    + unfold shaped. rewrite Hsame, Hn. repeat split; assumption.
    + destruct Hpush as (c & t & Hcur & Hc).
      unfold chaptersSoFar in Hlen, Hnum, Hw, Ht. rewrite Hcur in *.
      unfold shaped. rewrite Hc, Hn.
      rewrite List.length_app in *. rewrite List.map_app in *.
      apply Forall_app in Hw as [Hw1 Hw2]. apply Forall_app in Ht as [Ht1 Ht2].
      simpl in *. repeat split; try assumption.
      * apply Forall_app. split; [exact Hw1|].
        constructor; [|constructor]. now inversion Hw2.
      * apply Forall_app. split; [exact Ht1|].
        constructor; [|constructor]. inversion Ht2 as [|? ? [Ha Hb] _]; subst.
        split; [exact Ha|]. simpl. apply Forall_app. split; [exact Hb|].
        repeat constructor. apply trim_trimmed.
Qed.

Lemma shaped_fold (wpc : Z) (lines : list jsstring) :
  forall (n : nat) (st : ParseState),
    shaped wpc n st ->
    shaped wpc (n + List.length (List.filter isChapterHeader lines))
      (fold_left (parseLine wpc) lines st).
Proof.
  induction lines as [|line lines IH]; intros n st H; simpl.
  - now rewrite Nat.add_0_r.
  - pose proof (shaped_line wpc n st line H) as H'.
    destruct (isChapterHeader line); simpl.
    + rewrite Nat.add_succ_r. exact (IH (S n) _ H').
    + exact (IH n _ H').
Qed.

(** The result of the parser: the chapters that the loop opened, or the
    default structure when it opened none. *)
Lemma parse_result (outlineText : jsstring) (twc : Z) :
  let st := fold_left (parseLine (twc / 10)) (splitLines outlineText)
              {| chapters := []; currentChapter := None; chapterNumber := 1 |} in
  shaped (twc / 10) (headerCount outlineText) st
  /\ parseOutlineIntoChapters outlineText twc
     = match chaptersSoFar st with
       | [] => List.map (defaultChapter (twc / 10)) [1; 2; 3; 4; 5; 6; 7; 8]
       | _ => chaptersSoFar st
       end.
Proof.
  cbv zeta. split.
  - apply (shaped_fold (twc / 10) (splitLines outlineText) 0).
    repeat split; constructor.
  - unfold parseOutlineIntoChapters, chaptersSoFar. cbv zeta.
    destruct (currentChapter _); [reflexivity|]. now rewrite app_nil_r.
Qed.

End OutlineShape.

(** X7.  Whatever the text, the parser returns at least one chapter; the
    chapters are numbered 1, 2, 3, ... in the order of the text, whatever
    numbers the text wrote; and each gets the budget
    floor(targetWordCount / 10), whatever the number of chapters. *)
Theorem outline_numbering (outlineText : jsstring) (targetWordCount : Z) :
  let chapters := Outline.parseOutlineIntoChapters outlineText targetWordCount in
  chapters <> []
  /\ List.map Outline.number chapters
     = List.map Z.of_nat (seq 1 (List.length chapters))
  /\ Forall (fun c => Outline.targetWordCount c = targetWordCount / 10)
       chapters.
Proof.
  cbv zeta.
  destruct (parse_result outlineText targetWordCount)
    as [(Hlen & Hnum & _ & Hw & _) ->].
  destruct (chaptersSoFar _) as [|c l] eqn:E.
  - split; [discriminate|]. split; [reflexivity|]. repeat constructor.
  - split; [discriminate|]. rewrite Hlen. split; [exact Hnum | exact Hw].
Qed.

(** X8.  The parser returns one chapter per line that it takes as a
    chapter header, and the 8 default chapters when there is no such
    line. *)
Theorem outline_chapter_count (outlineText : jsstring) (targetWordCount : Z) :
  List.length (Outline.parseOutlineIntoChapters outlineText targetWordCount)
  = match headerCount outlineText with
    | O => 8%nat
    | n => n
    end.
Proof.
  destruct (parse_result outlineText targetWordCount)
    as [(Hlen & _) ->].
  destruct (chaptersSoFar _) as [|c l] eqn:E.
  - rewrite <- Hlen. reflexivity.
  - rewrite <- Hlen. reflexivity.
Qed.

(** X9.  Every chapter title and every section title that the parser
    returns is trimmed: it has no white space at either end. *)
Theorem outline_titles_trimmed (outlineText : jsstring) (targetWordCount : Z) :
  Forall (fun c => trimmed (Outline.title c)
                   /\ Forall trimmed (Outline.sections c))
    (Outline.parseOutlineIntoChapters outlineText targetWordCount).
Proof.
  destruct (parse_result outlineText targetWordCount)
    as [(_ & _ & _ & _ & Ht) ->].
  destruct (chaptersSoFar _) as [|c l] eqn:E; [|exact Ht].
  repeat constructor.
Qed.

Section OutlinePreamble.
Import Outline.

Lemma splitLines_aux_app (a b : jsstring) :
  forall cur,
    splitLines_aux cur (a ++ 10%N :: b)
    = splitLines_aux cur a ++ splitLines b.
Proof.
  induction a as [|c a IH]; intros cur; simpl; [reflexivity|].
  destruct (c =? 10)%N; simpl; now rewrite IH.
Qed.

Lemma splitLines_app (a b : jsstring) :
  splitLines (a ++ [10%N] ++ b) = splitLines a ++ splitLines b.
Proof. apply splitLines_aux_app. Qed.

End OutlinePreamble.

(** X10.  Lines that come before the first chapter header do not count:
    a text whose first lines hold no chapter header (a heading, stray
    bullets, prose) parses like the text without these lines. *)
Theorem outline_preamble_ignored (preamble rest : jsstring)
  (targetWordCount : Z) :
  (forall line, In line (splitLines preamble) ->
                Outline.isChapterHeader line = false) ->
  Outline.parseOutlineIntoChapters (preamble ++ [10%N] ++ rest) targetWordCount
  = Outline.parseOutlineIntoChapters rest targetWordCount.
Proof.
  intros H. unfold Outline.parseOutlineIntoChapters. cbv zeta.
  rewrite splitLines_app, fold_left_app.
  rewrite (fold_parseLine_no_header _ (splitLines preamble));
    [reflexivity | reflexivity | exact H].
Qed.

Lemma outline_preamble_ignored_witness :
  Outline.parseOutlineIntoChapters
    ((lit "CHAPTER OUTLINE:" ++ Samples.lineFeed ++ lit "- a stray bullet")
     ++ [10%N] ++ Samples.outlineText) 8000
  = Outline.parseOutlineIntoChapters Samples.outlineText 8000.
Proof.
  apply (outline_preamble_ignored
           (lit "CHAPTER OUTLINE:" ++ Samples.lineFeed
            ++ lit "- a stray bullet")
           Samples.outlineText 8000).
  intros line Hl. vm_compute in Hl.
  destruct Hl as [<- | [<- | []]]; vm_compute; reflexivity.
Defined.

(* ===================================================================== *)
(** * More facts: step 2 of the workflow                                  *)
(* ===================================================================== *)

Section GenerateResult.

Lemma sumZ_app (a b : list Z) : sumZ (a ++ b) = sumZ a + sumZ b.
Proof. unfold sumZ. induction a as [|x a IH]; simpl; lia. Qed.

(** The chunk that the adapter returns carries the title of the section
    asked for and the word count of its content. *)
Lemma attemptLoop_chunk (title : jsstring) (idx : nat) (maxRetries : Z) :
  forall (remaining : nat) (attempt : Z) (w : World),
    match fst (ChunkedGeneration.attemptLoop title idx maxRetries remaining
                 attempt w) with
    | Ok chunk =>
        ChunkedGeneration.sectionTitle chunk = title
        /\ ChunkedGeneration.wordCount chunk
           = WordCount.wordCount (ChunkedGeneration.content chunk)
        /\ ChunkedGeneration.chunkIndex chunk = idx
    | Throw _ => True
    end.
Proof.
  induction remaining as [|remaining IH]; intros attempt w; [exact I|].
  rewrite attemptLoop_step. cbv zeta.
  destruct (writingAgent w (tick w)); [simpl; auto|].
  destruct (attempt =? maxRetries); [exact I | apply IH].
Qed.

Lemma execute_chunk (config : ChunkedGeneration.ChunkGenerationConfig)
  (idx : nat) (w : World) :
  match fst (ChunkedGeneration.execute config idx w) with
  | Ok sectionResult =>
      ChunkedGeneration.sectionTitle (fst sectionResult)
      = nth idx (ChunkedGeneration.sectionTitles config) (lit "undefined")
      /\ ChunkedGeneration.wordCount (fst sectionResult)
         = WordCount.wordCount (ChunkedGeneration.content (fst sectionResult))
  | Throw _ => True
  end.
Proof.
  unfold ChunkedGeneration.execute, ChunkedGeneration.generateContentChunk, bind.
  pose proof (attemptLoop_chunk
                (nth idx (ChunkedGeneration.sectionTitles config)
                   (lit "undefined"))
                idx
                (ChunkedGeneration.maxRetriesOf
                   (ChunkedGeneration.retryAttempts config))
                (Z.to_nat (ChunkedGeneration.maxRetriesOf
                             (ChunkedGeneration.retryAttempts config)))
                1 w) as H.
  destruct (ChunkedGeneration.attemptLoop _ _ _ _ _ w) as [[chunk|e] w'];
    simpl in *; [tauto | exact I].
Qed.

(** A Hoare triple that speaks of the result only. *)
Lemma hoare_result {A : Type} (m : M A) (Q : Result A -> Prop) :
  (forall w, Q (fst (m w))) -> hoare (fun _ => True) m (fun r _ => Q r).
Proof. intros H w _. apply H. Qed.

Variables workflowId topic outline : jsstring.

Lemma sectionLoop_result (chapter : Outline.Chapter) (twps total : Z) :
  forall (rest done0 : list jsstring) (vars : Workflow.SectionVars),
    Outline.sections chapter = done0 ++ rest ->
    hoare (fun _ => True)
      (Workflow.sectionLoop workflowId topic outline chapter twps total rest
         (List.length done0) vars)
      (fun r _ =>
         match r with
         | Ok vars' =>
             exists new,
               Workflow.chapterSections vars'
               = Workflow.chapterSections vars ++ new
               /\ List.map Workflow.GeneratedSection.title new = rest
               /\ Workflow.chapterWordCount vars'
                  = Workflow.chapterWordCount vars + sumZ (sectionWords new)
               /\ Workflow.completedSections vars'
                  = Workflow.completedSections vars
                    + Z.of_nat (List.length rest)
         | Throw _ => True
         end).
Proof.
  induction rest as [|sectionTitle rest IH]; intros done0 vars Hs; simpl.
  - intros w _. exists []. rewrite app_nil_r. simpl. repeat split; lia.
  - eapply hoare_bind with
      (R := fun vars' _ =>
              exists s,
                Workflow.chapterSections vars'
                = Workflow.chapterSections vars ++ [s]
                /\ Workflow.GeneratedSection.title s = sectionTitle
                /\ Workflow.chapterWordCount vars'
                   = Workflow.chapterWordCount vars
                     + Workflow.GeneratedSection.wordCount s
                /\ Workflow.completedSections vars'
                   = Workflow.completedSections vars + 1).
    + eapply hoare_tryCatch with (R := fun _ _ => True).
      * eapply hoare_bind with
          (R := fun sectionResult _ =>
                  ChunkedGeneration.sectionTitle (fst sectionResult)
                  = sectionTitle).
        -- intros w _.
           match goal with
           | |- context [ChunkedGeneration.execute ?cfg ?i w] =>
               pose proof (execute_chunk cfg i w) as H
           end.
           destruct (fst (ChunkedGeneration.execute _ _ w)); [|exact I].
           destruct H as [H _]. rewrite H. simpl. rewrite Hs.
           rewrite app_nth2 by lia. now rewrite Nat.sub_diag.
        -- intros sectionResult.
           eapply hoare_bind with
             (R := fun _ _ =>
                     ChunkedGeneration.sectionTitle (fst sectionResult)
                     = sectionTitle).
           ++ apply hoare_progress. intros w _ H. exact H.
           ++ intros _ w H. eexists. simpl. repeat split. exact H.
      * intros e. eapply hoare_bind with (R := fun _ _ => True).
        -- apply hoare_progress. intros; exact I.
        -- intros _ w _. exact I.
    + intros vars'.
      intros w (s & H1 & H2 & H3 & H4).
      assert (Hs' : Outline.sections chapter = (done0 ++ [sectionTitle]) ++ rest)
        by (rewrite <- app_assoc; exact Hs).
      pose proof (IH (done0 ++ [sectionTitle]) vars' Hs' w I) as H.
      rewrite List.length_app in H. simpl in H.
      replace (List.length done0 + 1)%nat with (S (List.length done0)) in H
        by lia.
      destruct (fst _) as [vars''|]; [|exact I].
      destruct H as (new & G1 & G2 & G3 & G4).
      exists (s :: new). rewrite G1, H1, <- app_assoc. simpl.
      unfold sectionWords in *. simpl. unfold sumZ in *. simpl.
      rewrite G2, H2, G3, H3, G4, H4. repeat split; lia.
Qed.

Lemma chapterLoop_result :
  forall (chapters : list Outline.Chapter) (vars : Workflow.ChapterVars),
    hoare (fun _ => True)
      (Workflow.chapterLoop workflowId topic outline chapters vars)
      (fun r _ =>
         match r with
         | Ok vars' =>
             exists new,
               Workflow.generatedChapters vars'
               = Workflow.generatedChapters vars ++ new
               /\ Forall2 writtenFor chapters new
               /\ Workflow.totalWordCount vars'
                  = Workflow.totalWordCount vars + sumZ (chapterWords new)
               /\ Workflow.completedSectionsSoFar vars'
                  = Workflow.completedSectionsSoFar vars
                    + sumZ (sectionCounts new)
         | Throw _ => True
         end).
Proof.
  induction chapters as [|chapter rest IH]; intros vars; simpl.
  - intros w _. exists []. rewrite app_nil_r. simpl.
    repeat split; try lia. constructor.
  - eapply hoare_bind with (R := fun _ _ => True).
    { apply hoare_progress. intros; exact I. }
    intros _.
    eapply hoare_bind with
      (R := fun sv _ =>
              List.map Workflow.GeneratedSection.title
                (Workflow.chapterSections sv) = Outline.sections chapter
              /\ Workflow.chapterWordCount sv
                 = sumZ (sectionWords (Workflow.chapterSections sv))
              /\ Workflow.completedSections sv
                 = Workflow.completedSectionsSoFar vars
                   + Z.of_nat (List.length (Outline.sections chapter))).
    { intros w _.
      pose proof (sectionLoop_result chapter
                    (Outline.targetWordCount chapter
                     / Z.of_nat (List.length (Outline.sections chapter)))
                    (Workflow.totalWordCount vars)
                    (Outline.sections chapter) []
                    {| Workflow.chapterSections := [];
                       Workflow.chapterWordCount := 0;
                       Workflow.completedSections :=
                         Workflow.completedSectionsSoFar vars |}
                    eq_refl w I) as H.
      simpl List.length in H.
      destruct (fst _) as [sv|]; [|exact I].
      destruct H as (new & G1 & G2 & G3 & G4). simpl in G1, G3, G4.
      rewrite G1, G2, G3, G4. repeat split. }
    intros sv. cbv zeta.
    eapply hoare_bind with
      (R := fun _ _ =>
              List.map Workflow.GeneratedSection.title
                (Workflow.chapterSections sv) = Outline.sections chapter
              /\ Workflow.chapterWordCount sv
                 = sumZ (sectionWords (Workflow.chapterSections sv))
              /\ Workflow.completedSections sv
                 = Workflow.completedSectionsSoFar vars
                   + Z.of_nat (List.length (Outline.sections chapter))).
    { apply hoare_progress. intros w _ H. exact H. }
    intros _ w (H1 & H2 & H3).
    match goal with
    | |- context [Workflow.chapterLoop _ _ _ rest ?v] =>
        pose proof (IH v w I) as H
    end.
    destruct (fst _) as [vars'|]; [|exact I].
    destruct H as (new & G1 & G2 & G3 & G4). simpl in G1, G3, G4.
    eexists (_ :: new). rewrite G1, <- app_assoc. split; [reflexivity|].
    split; [constructor; [|exact G2]|].
    + unfold writtenFor. simpl. repeat split; assumption.
    + unfold chapterWords, sectionCounts, sumZ in *. simpl.
      rewrite G3, G4, H3. rewrite <- H1, List.length_map. split; lia.
Qed.

End GenerateResult.

(** X11.  When step 2 succeeds, it returns one generated chapter per chapter
    of the outline, in order, each with the number and the title of its
    chapter, one section per section title of the outline in order, a word
    count that is the sum of the word counts of its sections and a content
    that is the joined sections; and the total word count is the sum of the
    word counts of the chapters. *)
Theorem generate_result_coherent (inputData : Workflow.PlanOutput.t)
  (w : World) (g : Workflow.GenerateOutput.t) :
  fst (Workflow.generateAllContentStep inputData w) = Ok g ->
  Forall2 writtenFor (Workflow.PlanOutput.chapters inputData)
    (Workflow.GenerateOutput.generatedChapters g)
  /\ Workflow.GenerateOutput.totalWordCount g
     = sumZ (chapterWords (Workflow.GenerateOutput.generatedChapters g))
  /\ Workflow.GenerateOutput.workflowId g
     = Workflow.PlanOutput.workflowId inputData
  /\ Workflow.GenerateOutput.topic g = Workflow.PlanOutput.topic inputData.
Proof.
  unfold Workflow.generateAllContentStep, bind.
  match goal with
  | |- context [Workflow.chapterLoop ?a ?b ?c ?d ?v w] =>
      pose proof (chapterLoop_result a b c d v w I) as H
  end.
  destruct (Workflow.chapterLoop _ _ _ _ _ w) as [[vars|e] w'];
    simpl in *; [|discriminate].
  intros [= <-]. simpl.
  destruct H as (new & G1 & G2 & G3 & G4). rewrite G1, G3.
  repeat split; auto.
Qed.

Lemma generate_result_coherent_witness :
  Forall2 writtenFor (Workflow.PlanOutput.chapters Samples.plan)
    (Workflow.GenerateOutput.generatedChapters MoreSamples.generatedOutput)
  /\ Workflow.GenerateOutput.totalWordCount MoreSamples.generatedOutput
     = sumZ (chapterWords
               (Workflow.GenerateOutput.generatedChapters
                  MoreSamples.generatedOutput))
  /\ Workflow.GenerateOutput.workflowId MoreSamples.generatedOutput
     = Workflow.PlanOutput.workflowId Samples.plan
  /\ Workflow.GenerateOutput.topic MoreSamples.generatedOutput
     = Workflow.PlanOutput.topic Samples.plan.
Proof.
  assert (E : fst (Workflow.generateAllContentStep Samples.plan
                     (snd MoreSamples.planned))
              = Ok MoreSamples.generatedOutput)
    by (vm_compute; reflexivity).
  exact (generate_result_coherent Samples.plan (snd MoreSamples.planned)
           MoreSamples.generatedOutput E).
Defined.

Section GenerateRecord.
Import ProgressTracking.
Variable wid : jsstring.

Lemma recordIs_quietly errs s c wds w w' :
  quietly w w' -> recordIs wid errs s c wds w -> recordIs wid errs s c wds w'.
Proof. intros [Hf _] (p & Hp & H). exists p. now rewrite Hf. Qed.

(** An update of the record of the run. *)
Lemma recordIs_update (ctx : Context.t) errs s c wds (w : World) :
  Context.action ctx = Update ->
  Context.workflowId ctx = wid ->
  recordIs wid errs s c wds w ->
  recordIs wid (errs ++ loggedError (dateNow w (tick w)) ctx)
    (match Context.completedSections ctx with Some v => v | None => s end)
    (match Context.completedChapters ctx with Some v => v | None => c end)
    (match Context.totalWordsGenerated ctx with Some v => v | None => wds end)
    (snd (progressTrackingTool_execute ctx w)).
Proof.
  intros Ha Hw (p & Hp & He & Hs & Hc & Hd). unfold recordIs.
  rewrite progress_call_files.
  rewrite (execute_existing _ ctx (files w) p)
    by (congruence || (rewrite Hw; exact Hp)).
  rewrite Ha, Hw. simpl snd. rewrite lookup_insert_eq.
  eexists. split; [reflexivity|].
  rewrite applyUpdate_errors by exact Ha.
  rewrite applyUpdate_completedSections, applyUpdate_completedChapters,
    applyUpdate_totalWordsGenerated.
  rewrite He, Hs, Hc, Hd. repeat split.
Qed.

Variables topic outline : jsstring.
Variable errs : list (Z * jsstring).

Lemma sectionLoop_record (chapter : Outline.Chapter) (twps total c : Z) :
  forall (rest : list jsstring) (idx : nat) (vars : Workflow.SectionVars),
    hoare
      (recordIs wid errs (Workflow.completedSections vars) c
         (total + Workflow.chapterWordCount vars))
      (Workflow.sectionLoop wid topic outline chapter twps total rest idx vars)
      (fun r w =>
         match r with
         | Ok vars' =>
             recordIs wid errs (Workflow.completedSections vars') c
               (total + Workflow.chapterWordCount vars') w
         | Throw m => failedOnce wid errs rest m w
         end).
Proof.
  induction rest as [|sectionTitle rest IH]; intros idx vars; simpl.
  - intros w H. exact H.
  - eapply hoare_bind with
      (R := fun vars' w =>
              recordIs wid errs (Workflow.completedSections vars') c
                (total + Workflow.chapterWordCount vars') w).
    + eapply hoare_tryCatch with
        (R := fun _ w =>
                recordIs wid errs (Workflow.completedSections vars) c
                  (total + Workflow.chapterWordCount vars) w).
      * eapply hoare_bind with
          (R := fun _ w =>
                  recordIs wid errs (Workflow.completedSections vars) c
                    (total + Workflow.chapterWordCount vars) w).
        -- apply hoare_quiet; [apply execute_quiet|].
           intros w w' r Hq H.
           pose proof (recordIs_quietly _ _ _ _ w w' Hq H) as H'.
           destruct r; exact H'.
        -- intros sectionResult. cbv zeta.
           eapply hoare_bind with (R := fun _ w => _ w).
           ++ apply hoare_progress. intros w _ H.
              match goal with
              | |- context [progressTrackingTool_execute ?ctx w] =>
                  pose proof (recordIs_update ctx _ _ _ _ w eq_refl eq_refl H)
                    as H'
              end.
              simpl in H'. rewrite app_nil_r in H'. exact H'.
           ++ intros _ w H. exact H.
      * intros e.
        eapply hoare_bind with
          (R := fun _ w => failedOnce wid errs (sectionTitle :: rest) e w).
        -- apply hoare_progress. intros w _ H.
           pose proof (recordIs_update
                         (Workflow.updateSectionError wid sectionTitle e)
                         _ _ _ _ w eq_refl eq_refl H) as (p & Hp & He & _).
           exists p, (dateNow w (tick w)), sectionTitle.
           split; [exact Hp|]. split; [now left|]. exact He.
        -- intros _ w H. exact H.
    + intros vars' w H. specialize (IH (S idx) vars' w H).
      destruct (fst _); [exact IH|].
      destruct IH as (p & t & title & Hp & Hin & He).
      exists p, t, title. split; [exact Hp|]. split; [now right | exact He].
Qed.

Lemma chapterLoop_record :
  forall (chapters : list Outline.Chapter) (vars : Workflow.ChapterVars),
    hoare
      (recordIs wid errs (Workflow.completedSectionsSoFar vars)
         (Z.of_nat (List.length (Workflow.generatedChapters vars)))
         (Workflow.totalWordCount vars))
      (Workflow.chapterLoop wid topic outline chapters vars)
      (fun r w =>
         match r with
         | Ok vars' =>
             recordIs wid errs (Workflow.completedSectionsSoFar vars')
               (Z.of_nat (List.length (Workflow.generatedChapters vars')))
               (Workflow.totalWordCount vars') w
         | Throw m =>
             failedOnce wid errs (concat (List.map Outline.sections chapters)) m w
         end).
Proof.
  induction chapters as [|chapter rest IH]; intros vars; simpl.
  - intros w H. exact H.
  - set (s := Workflow.completedSectionsSoFar vars).
    set (c := Z.of_nat (List.length (Workflow.generatedChapters vars))).
    set (t := Workflow.totalWordCount vars).
    eapply hoare_bind with (R := fun _ w => recordIs wid errs s c (t + 0) w).
    { apply hoare_progress. intros w _ H.
      pose proof (recordIs_update (Workflow.updateChapterStart wid chapter s)
                    _ _ _ _ w eq_refl eq_refl H) as H'.
      simpl in H'. rewrite app_nil_r in H'. now rewrite Z.add_0_r. }
    intros _.
    eapply hoare_bind with
      (R := fun sv w =>
              recordIs wid errs (Workflow.completedSections sv) c
                (t + Workflow.chapterWordCount sv) w).
    { intros w H.
      match goal with
      | |- context [Workflow.sectionLoop _ _ _ _ ?a _ ?r ?i ?v w] =>
          pose proof (sectionLoop_record chapter a t c r i v w H) as H'
      end.
      destruct (fst _); [exact H'|].
      destruct H' as (p & tm & title & Hp & Hin & He).
      exists p, tm, title. split; [exact Hp|]. split; [|exact He].
      apply in_or_app. now left. }
    intros sv. cbv zeta.
    rewrite List.length_app. simpl List.length.
    replace (Z.of_nat (List.length (Workflow.generatedChapters vars) + 1))
      with (c + 1) by (unfold c; lia).
    eapply hoare_bind with
      (R := fun _ w =>
              recordIs wid errs (Workflow.completedSections sv) (c + 1)
                (t + Workflow.chapterWordCount sv) w).
    { apply hoare_progress. intros w _ H.
      match goal with
      | |- context [progressTrackingTool_execute ?ctx w] =>
          pose proof (recordIs_update ctx _ _ _ _ w eq_refl eq_refl H) as H'
      end.
      simpl in H'. rewrite app_nil_r in H'. exact H'. }
    intros _ w H.
    match goal with
    | |- context [Workflow.chapterLoop _ _ _ rest ?v] =>
        pose proof (IH v w) as H'
    end.
    simpl in H'. rewrite List.length_app in H'. simpl List.length in H'.
    replace (Z.of_nat (List.length (Workflow.generatedChapters vars) + 1))
      with (c + 1) in H' by (unfold c; lia).
    specialize (H' H).
    destruct (fst _); [exact H'|].
    destruct H' as (p & tm & title & Hp & Hin & He).
    exists p, tm, title. split; [exact Hp|]. split; [|exact He].
    apply in_or_app. now right.
Qed.

End GenerateRecord.

(** X12.  When step 2 succeeds on a run whose record has zero counters (as
    [initialize] leaves it), the record ends with [completedChapters] equal
    to the number of generated chapters, [completedSections] equal to the
    number of generated sections, [totalWordsGenerated] equal to the total
    word count returned, and an error log that has not changed. *)
Theorem generate_success_record (inputData : Workflow.PlanOutput.t)
  (w : World) (g : Workflow.GenerateOutput.t) (errs : list (Z * jsstring)) :
  recordIs (Workflow.PlanOutput.workflowId inputData) errs 0 0 0 w ->
  fst (Workflow.generateAllContentStep inputData w) = Ok g ->
  recordIs (Workflow.PlanOutput.workflowId inputData) errs
    (sumZ (sectionCounts (Workflow.GenerateOutput.generatedChapters g)))
    (Z.of_nat (List.length (Workflow.GenerateOutput.generatedChapters g)))
    (Workflow.GenerateOutput.totalWordCount g)
    (snd (Workflow.generateAllContentStep inputData w)).
Proof.
  intros Hrec. unfold Workflow.generateAllContentStep, bind.
  match goal with
  | |- context [Workflow.chapterLoop ?a ?b ?c ?d ?v w] =>
      pose proof (chapterLoop_result a b c d v w I) as H;
      pose proof (chapterLoop_record a b c errs d v w Hrec) as H'
  end.
  destruct (Workflow.chapterLoop _ _ _ _ _ w) as [[vars|e] w'];
    simpl in *; [|discriminate].
  intros [= <-]. simpl.
  destruct H as (new & G1 & G2 & G3 & G4).
  rewrite G4, Z.add_0_l, G1 in H'. rewrite G1. exact H'.
Qed.

Lemma generate_success_record_witness :
  recordIs (Workflow.PlanOutput.workflowId Samples.plan) []
    (sumZ (sectionCounts
             (Workflow.GenerateOutput.generatedChapters
                MoreSamples.generatedOutput)))
    (Z.of_nat (List.length
                 (Workflow.GenerateOutput.generatedChapters
                    MoreSamples.generatedOutput)))
    (Workflow.GenerateOutput.totalWordCount MoreSamples.generatedOutput)
    (snd MoreSamples.generated)
  /\ Workflow.GenerateOutput.totalWordCount MoreSamples.generatedOutput = 10
  /\ List.length (Workflow.GenerateOutput.generatedChapters
                    MoreSamples.generatedOutput) = 1%nat.
Proof.
  assert (E : fst (Workflow.generateAllContentStep Samples.plan
                     (snd MoreSamples.planned))
              = Ok MoreSamples.generatedOutput)
    by (vm_compute; reflexivity).
  assert (R : recordIs (Workflow.PlanOutput.workflowId Samples.plan) []
                0 0 0 (snd MoreSamples.planned)).
  { eexists. split; [vm_compute; reflexivity|]. repeat split. }
  split; [|split; vm_compute; reflexivity].
  exact (generate_success_record Samples.plan (snd MoreSamples.planned)
           MoreSamples.generatedOutput [] R E).
Defined.

(** X13.  When step 2 fails with a message, on a run that has a record
    with zero counters, the error log of the record has grown by exactly
    one entry: "Failed to generate section <title>: <message>", for one of
    the section titles of the outline. *)
Theorem generate_failure_logged_once (inputData : Workflow.PlanOutput.t)
  (w : World) (message : jsstring) (errs : list (Z * jsstring)) :
  recordIs (Workflow.PlanOutput.workflowId inputData) errs 0 0 0 w ->
  fst (Workflow.generateAllContentStep inputData w) = Throw message ->
  failedOnce (Workflow.PlanOutput.workflowId inputData) errs
    (concat (List.map Outline.sections (Workflow.PlanOutput.chapters inputData)))
    message
    (snd (Workflow.generateAllContentStep inputData w)).
Proof.
  intros Hrec. unfold Workflow.generateAllContentStep, bind.
  match goal with
  | |- context [Workflow.chapterLoop ?a ?b ?c ?d ?v w] =>
      pose proof (chapterLoop_record a b c errs d v w Hrec) as H'
  end.
  destruct (Workflow.chapterLoop _ _ _ _ _ w) as [[vars|e] w'];
    simpl in *; [discriminate|].
  intros [= <-]. exact H'.
Qed.

Lemma generate_failure_logged_once_witness :
  failedOnce (Workflow.PlanOutput.workflowId Samples.plan) []
    [lit "Values"; lit "Types"]
    (lit "Failed to generate content for section "
     ++ dquote ++ lit "Values" ++ dquote
     ++ lit " after 3 attempts: model overloaded")
    (snd (Workflow.generateAllContentStep Samples.plan (snd Samples.planned))).
Proof.
  refine (generate_failure_logged_once Samples.plan (snd Samples.planned)
            _ [] _ _).
  - eexists. split; [vm_compute; reflexivity|]. repeat split.
  - vm_compute. reflexivity.
Defined.

(* ===================================================================== *)
(** * More facts: steps 1, 3 and 4 of the workflow                        *)
(* ===================================================================== *)

Section PublishOutcomes.
Import ProgressTracking.
Variable wid : jsstring.

Lemma completed_after_complete (w : World) :
  is_Some (files w !! wid) ->
  statusOf wid (snd (progressTrackingTool_execute
                       (Context.bare Complete wid) w))
  = Some completed.
Proof.
  intros [p Hp]. unfold statusOf. rewrite progress_call_files.
  rewrite (execute_existing _ (Context.bare Complete wid) (files w) p)
    by (discriminate || exact Hp).
  simpl. now rewrite lookup_insert_eq.
Qed.

(** The clock and the answers after a call of the progress tool. *)
Lemma progress_call_tick (c : Context.t) (w : World) :
  tick (snd (progressTrackingTool_execute c w)) = S (tick w)
  /\ generatePDF (snd (progressTrackingTool_execute c w)) = generatePDF w.
Proof. rewrite progress_call. split; reflexivity. Qed.

Lemma progress_call_reviewAgent (c : Context.t) (w : World) :
  reviewAgent (snd (progressTrackingTool_execute c w)) = reviewAgent w.
Proof. rewrite progress_call. reflexivity. Qed.

Lemma bind_progress {B : Type} (c : Context.t) (k : ToolResult -> M B)
  (w : World) :
  bind (progressTrackingTool_execute c) k w
  = k (fst (execute (dateNow w (tick w)) c (files w)))
      (snd (progressTrackingTool_execute c w)).
Proof. unfold bind. rewrite progress_call. reflexivity. Qed.

Lemma bind_ask_ret {A B : Type} (oracle : World -> nat -> A) (f : A -> B)
  (w : World) :
  bind (ask oracle) (fun a => ret (f a)) w
  = (Ok (f (oracle w (tick w))), advance w).
Proof. reflexivity. Qed.

Lemma tryCatch_await {A B : Type} (oracle : World -> nat -> Result A)
  (k : A -> M B) (h : jsstring -> M B) (w : World) :
  tryCatch (bind (await oracle) k) h w
  = match oracle w (tick w) with
    | Ok a => tryCatch (k a) h (advance w)
    | Throw e => h e (advance w)
    end.
Proof.
  unfold tryCatch, bind, await. destruct (oracle w (tick w)); reflexivity.
Qed.

Lemma tryCatch_progress {B : Type} (c : Context.t) (k : ToolResult -> M B)
  (h : jsstring -> M B) (w : World) :
  tryCatch (bind (progressTrackingTool_execute c) k) h w
  = tryCatch (k (fst (execute (dateNow w (tick w)) c (files w)))) h
      (snd (progressTrackingTool_execute c w)).
Proof. unfold tryCatch. rewrite bind_progress. reflexivity. Qed.

Lemma tryCatch_ask_ret {A B : Type} (oracle : World -> nat -> A) (f : A -> B)
  (h : jsstring -> M B) (w : World) :
  tryCatch (bind (ask oracle) (fun a => ret (f a))) h w
  = (Ok (f (oracle w (tick w))), advance w).
Proof. reflexivity. Qed.

Lemma statusOf_advance (w : World) : statusOf wid (advance w) = statusOf wid w.
Proof. reflexivity. Qed.

End PublishOutcomes.

(** X14.  Step 4, on a run that has a record.  When the review did not
    approve, the step returns normally with no book, no path and no size,
    and the record is [failed].  When the review approved and the book is
    written, the step returns the book with its path and its size and the
    record is [completed].  When the review approved and writing the book
    fails, the step rejects with that error and the record is [failed].
    The word count and the score are passed through. *)
Theorem publish_outcomes (rv : Workflow.ReviewOutput.t) (w : World) :
  is_Some (files w !! Workflow.ReviewOutput.workflowId rv) ->
  let wid := Workflow.ReviewOutput.workflowId rv in
  let out := Workflow.generateFinalPDFStep rv w in
  match Workflow.ReviewOutput.approvedForPublication rv,
        generatePDF w (S (tick w)) with
  | false, _ =>
      exists o,
        fst out = Ok o
        /\ Workflow.PdfOutput.bookGenerated o = false
        /\ Workflow.PdfOutput.bookPath o = None
        /\ Workflow.PdfOutput.fileSize o = None
        /\ Workflow.PdfOutput.finalWordCount o
           = Workflow.ReviewOutput.finalWordCount rv
        /\ Workflow.PdfOutput.qualityScore o
           = Workflow.ReviewOutput.qualityScore rv
        /\ statusOf wid (snd out) = Some ProgressTracking.failed
  | true, Ok pdf =>
      exists o,
        fst out = Ok o
        /\ Workflow.PdfOutput.bookGenerated o = true
        /\ Workflow.PdfOutput.bookPath o = Some (path pdf)
        /\ Workflow.PdfOutput.fileSize o = Some (fileSize pdf)
        /\ Workflow.PdfOutput.finalWordCount o
           = Workflow.ReviewOutput.finalWordCount rv
        /\ Workflow.PdfOutput.qualityScore o
           = Workflow.ReviewOutput.qualityScore rv
        /\ statusOf wid (snd out) = Some ProgressTracking.completed
  | true, Throw e =>
      fst out = Throw e
      /\ statusOf wid (snd out) = Some ProgressTracking.failed
  end.
Proof.
  intros Hrec. cbv zeta. unfold Workflow.generateFinalPDFStep.
  set (wid := Workflow.ReviewOutput.workflowId rv) in *.
  rewrite bind_progress.
  set (w1 := snd (progressTrackingTool_execute
                    (Workflow.updateStep wid (lit "Generating final PDF")) w)).
  assert (Hrec1 : is_Some (files w1 !! wid))
    by (apply recorded_update; [reflexivity | reflexivity | exact Hrec]).
  destruct (progress_call_tick
              (Workflow.updateStep wid (lit "Generating final PDF")) w)
    as [Ht Hg]. fold w1 in Ht, Hg.
  destruct (Workflow.ReviewOutput.approvedForPublication rv);
    [change (negb true) with false | change (negb false) with true];
    cbv iota.
  - rewrite tryCatch_await, Hg, Ht.
    destruct (generatePDF w (S (tick w))) as [pdf|e].
    + rewrite tryCatch_progress, tryCatch_ask_ret.
      eexists. split; [reflexivity|]. cbn [fst snd].
      repeat (split; [reflexivity|]).
      rewrite statusOf_advance.
      apply completed_after_complete. apply Hrec1.
    + rewrite bind_progress.
      unfold throw. cbn [fst snd]. split; [reflexivity|].
      apply failed_after_fail. apply Hrec1.
  - rewrite bind_progress, bind_ask_ret.
    destruct (generatePDF w (S (tick w)));
      (eexists; split; [reflexivity|]; cbn [fst snd];
       repeat (split; [reflexivity|]);
       rewrite statusOf_advance;
       apply failed_after_fail; exact Hrec1).
Qed.

Lemma publish_outcomes_witness :
  exists o : Workflow.PdfOutput.t,
    fst (Workflow.generateFinalPDFStep MoreSamples.reviewedOutput
           (snd MoreSamples.reviewed)) = Ok o
    /\ Workflow.PdfOutput.bookGenerated o = true
    /\ Workflow.PdfOutput.bookPath o = Some (lit "generated_books/book.html")
    /\ Workflow.PdfOutput.fileSize o = Some 2048
    /\ Workflow.PdfOutput.finalWordCount o = 10
    /\ Workflow.PdfOutput.qualityScore o = 8%Q
    /\ statusOf (Workflow.ReviewOutput.workflowId MoreSamples.reviewedOutput)
         (snd (Workflow.generateFinalPDFStep MoreSamples.reviewedOutput
                 (snd MoreSamples.reviewed)))
       = Some ProgressTracking.completed.
Proof.
  assert (H : is_Some (files (snd MoreSamples.reviewed)
                       !! Workflow.ReviewOutput.workflowId
                            MoreSamples.reviewedOutput))
    by (eexists; vm_compute; reflexivity).
  exact (publish_outcomes MoreSamples.reviewedOutput
           (snd MoreSamples.reviewed) H).
Defined.

(* ===================================================================== *)
(** * More facts: step 1 and step 3                                      *)
(* ===================================================================== *)

Section PlanFacts.

Lemma bind_ask {A B : Type} (oracle : World -> nat -> A) (k : A -> M B)
  (w : World) :
  bind (ask oracle) k w = k (oracle w (tick w)) (advance w).
Proof. reflexivity. Qed.

Lemma bind_await {A B : Type} (oracle : World -> nat -> Result A)
  (k : A -> M B) (w : World) :
  bind (await oracle) k w
  = match oracle w (tick w) with
    | Ok a => k a (advance w)
    | Throw e => (Throw e, advance w)
    end.
Proof. unfold bind, await. destruct (oracle w (tick w)); reflexivity. Qed.

Lemma fold_left_sum {A : Type} (f : A -> Z) (l : list A) :
  forall a,
    fold_left (fun sum x => sum + f x) l a = a + sumZ (List.map f l).
Proof.
  induction l as [|x l IH]; intros a; simpl; [lia|]. rewrite IH. lia.
Qed.

Lemma parse_nonempty (outlineText : jsstring) (twc : Z) :
  Outline.parseOutlineIntoChapters outlineText twc <> [].
Proof.
  destruct (parse_result outlineText twc) as [_ ->].
  destruct (chaptersSoFar _); discriminate.
Qed.

End PlanFacts.

(** X15.  Step 1 rejects exactly when the outline agent rejects, with the
    error of the agent and no record written.  Otherwise it returns the
    parsed chapters, the total of their section counts, and the id built
    from the clock and the random suffix; the progress record is created
    exactly when the topic is not empty, the outline has at least one
    section and the target word count is not zero: it then has zero
    counters, an empty error log and the status [in_progress]; else no
    file is written and [progressInitialized] is false, the step still
    returning normally. *)
Theorem plan_outcomes (inputData : Workflow.PlanInput.t) (w : World) :
  let out := Workflow.initializeAndPlanStep inputData w in
  match ideaGenerationAgent w (S (S (tick w))) with
  | Throw e => fst out = Throw e /\ files (snd out) = files w
  | Ok text =>
      exists o : Workflow.PlanOutput.t,
        fst out = Ok o
        /\ Workflow.PlanOutput.workflowId o = Workflow.workflowIdOf w
        /\ Workflow.PlanOutput.outline o = text
        /\ Workflow.PlanOutput.chapters o
           = Outline.parseOutlineIntoChapters text
               (Workflow.PlanInput.targetWordCount inputData)
        /\ Workflow.PlanOutput.totalSections o
           = sumZ (List.map (fun c => Z.of_nat (List.length (Outline.sections c)))
                     (Workflow.PlanOutput.chapters o))
        /\ Workflow.PlanOutput.progressInitialized o
           = ProgressTracking.truthyS (Some (Workflow.PlanInput.topic inputData))
             && negb (Workflow.PlanOutput.totalSections o =? 0)
             && negb (Workflow.PlanInput.targetWordCount inputData =? 0)
        /\ if Workflow.PlanOutput.progressInitialized o then
             recordIs (Workflow.PlanOutput.workflowId o) [] 0 0 0 (snd out)
             /\ statusOf (Workflow.PlanOutput.workflowId o) (snd out)
                = Some ProgressTracking.in_progress
           else files (snd out) = files w
  end.
Proof.
  cbv zeta. unfold Workflow.initializeAndPlanStep.
  rewrite !bind_ask, !bind_await.
  change (ideaGenerationAgent (advance (advance w))
            (tick (advance (advance w))))
    with (ideaGenerationAgent w (S (S (tick w)))).
  destruct (ideaGenerationAgent w (S (S (tick w)))) as [text|e];
    [|split; reflexivity].
  rewrite bind_progress. unfold ret. cbn [fst snd].
  eexists. split; [reflexivity|].
  cbn [Workflow.PlanOutput.workflowId Workflow.PlanOutput.outline
       Workflow.PlanOutput.chapters Workflow.PlanOutput.totalSections
       Workflow.PlanOutput.progressInitialized].
  split; [reflexivity|]. split; [reflexivity|]. split; [reflexivity|].
  rewrite fold_left_sum, Z.add_0_l.
  split; [reflexivity|].
  unfold statusOf, recordIs. rewrite progress_call_files.
  pose proof (parse_nonempty text
                (Workflow.PlanInput.targetWordCount inputData)) as Hne.
  unfold ProgressTracking.execute, ProgressTracking.executeBody,
    ProgressTracking.saveProgress, ProgressTracking.truthyS.
  cbn [ProgressTracking.Context.action ProgressTracking.Context.topic
       ProgressTracking.Context.totalChapters
       ProgressTracking.Context.totalSections
       ProgressTracking.Context.targetWordCount
       ProgressTracking.Context.workflowId].
  destruct (Workflow.PlanInput.topic inputData) as [|t0 tp].
  { cbn. split; reflexivity. }
  destruct (Outline.parseOutlineIntoChapters text _) as [|c0 cs] eqn:Ech;
    [congruence|].
  replace (Z.of_nat (List.length (c0 :: cs)) =? 0) with false
    by (symmetry; apply Z.eqb_neq; simpl List.length; lia).
  cbn [orb].
  destruct (sumZ _ =? 0); cbn; [split; reflexivity|].
  destruct (Workflow.PlanInput.targetWordCount inputData =? 0); cbn;
    [split; reflexivity|].
  split; [reflexivity|].
  rewrite lookup_insert_eq. split; [|reflexivity].
  eexists. split; [reflexivity|]. repeat split.
Qed.

Section ReviewFacts.

Lemma scoreAt_phrase (s : jsstring) (q : Q) :
  Workflow.scoreAt s = Some q ->
  startsWith (toLowerCase s) (lit "quality score") = true.
Proof.
  unfold Workflow.scoreAt.
  destruct (startsWith (toLowerCase s) (lit "quality score"));
    [reflexivity | discriminate].
Qed.

Lemma scoreMatch_phrase (text : jsstring) (q : Q) :
  Workflow.scoreMatch text = Some q ->
  includes (toLowerCase text) (lit "quality score") = true.
Proof.
  induction text as [|c text IH]; intros H.
  - simpl in H. discriminate.
  - cbn [Workflow.scoreMatch] in H.
    destruct (Workflow.scoreAt (c :: text)) as [q'|] eqn:E.
    + apply scoreAt_phrase in E.
      change (toLowerCase (c :: text)) with (lowerUnit c :: toLowerCase text)
        in *.
      cbn [includes]. rewrite E. reflexivity.
    + change (toLowerCase (c :: text)) with (lowerUnit c :: toLowerCase text).
      cbn [includes]. rewrite (IH H). apply orb_true_r.
Qed.

End ReviewFacts.

(** X16.  A review that does not contain the words quality score (in any
    letter case) gets the score 7.5: step 3 then approves exactly when the
    review contains neither not approved nor needs major revision (in any
    letter case); the review text and the total word count are passed on
    unchanged. *)
Theorem review_without_score (inputData : Workflow.GenerateOutput.t)
  (w : World) (text : jsstring) :
  reviewAgent w (S (tick w)) = Ok text ->
  includes (toLowerCase text) (lit "quality score") = false ->
  exists rv : Workflow.ReviewOutput.t,
    fst (Workflow.reviewContentStep inputData w) = Ok rv
    /\ Workflow.ReviewOutput.qualityScore rv = 75 # 10
    /\ Workflow.ReviewOutput.approvedForPublication rv
       = negb (includes (toLowerCase text) (lit "not approved"))
         && negb (includes (toLowerCase text) (lit "needs major revision"))
    /\ Workflow.ReviewOutput.reviewSummary rv = text
    /\ Workflow.ReviewOutput.finalWordCount rv
       = Workflow.GenerateOutput.totalWordCount inputData
    /\ Workflow.ReviewOutput.workflowId rv
       = Workflow.GenerateOutput.workflowId inputData.
Proof.
  intros Hrev Hno. unfold Workflow.reviewContentStep.
  rewrite bind_progress, bind_await.
  destruct (progress_call_tick
              (Workflow.updateStep (Workflow.GenerateOutput.workflowId inputData)
                 (lit "Reviewing generated content")) w) as [Ht _].
  rewrite Ht, progress_call_reviewAgent, Hrev. unfold ret. cbn [fst].
  destruct (Workflow.scoreMatch text) as [q|] eqn:E.
  { apply scoreMatch_phrase in E. congruence. }
  eexists. split; [reflexivity|].
  cbn [Workflow.ReviewOutput.qualityScore
       Workflow.ReviewOutput.approvedForPublication
       Workflow.ReviewOutput.reviewSummary
       Workflow.ReviewOutput.finalWordCount
       Workflow.ReviewOutput.workflowId].
  repeat split; reflexivity.
Qed.

Lemma review_without_score_witness :
  exists rv : Workflow.ReviewOutput.t,
    fst (Workflow.reviewContentStep MoreSamples.generatedSample
           (MoreSamples.reviewWorld (lit "Looks fine. Approve.")))
    = Ok rv
    /\ Workflow.ReviewOutput.qualityScore rv = 75 # 10
    /\ Workflow.ReviewOutput.approvedForPublication rv = true.
Proof.
  destruct (review_without_score MoreSamples.generatedSample
              (MoreSamples.reviewWorld (lit "Looks fine. Approve."))
              (lit "Looks fine. Approve.") eq_refl eq_refl)
    as (rv & H1 & H2 & H3 & _).
  exists rv. repeat split; assumption.
Defined.

Section FileNameFacts.
Import PdfGeneration.

Lemma sanitizedTitle_units (title : jsstring) :
  Forall (fun c => nameUnit c = true) (sanitizedTitle title).
Proof.
  induction title as [|c title IH]; simpl; constructor; [|exact IH].
  unfold nameUnit. destruct (isAlphaNumeric c) eqn:E.
  - now rewrite E.
  - reflexivity.
Qed.

Lemma timestampOf_units (iso : jsstring) :
  Forall (fun c => isoUnit c = true) iso ->
  Forall (fun c => nameUnit c = true) (timestampOf iso).
Proof.
  induction 1 as [|c iso Hc _ IH]; simpl; constructor; [|exact IH].
  destruct ((c =? 58) || (c =? 46))%N eqn:E; [reflexivity|].
  apply orb_false_iff in E. destruct E as [E1 E2].
  unfold isoUnit in Hc. rewrite E1, E2, !orb_false_r in Hc.
  unfold nameUnit, isAlphaNumeric, isDigit in *.
  apply orb_true_iff in Hc. destruct Hc as [Hc | Hc];
    [|rewrite Hc; apply orb_true_r].
  apply orb_true_iff in Hc. destruct Hc as [Hc | Hc].
  - apply orb_true_iff in Hc. destruct Hc as [Hc | Hc].
    + cbv zeta in Hc |- *. rewrite Hc. reflexivity.
    + apply N.eqb_eq in Hc. subst c. reflexivity.
  - apply N.eqb_eq in Hc. subst c. reflexivity.
Qed.

End FileNameFacts.

(** X17.  The name under which a book is written is made of letters,
    digits, [_] and [-] only, whatever the title of the book: it holds no
    path separator, no dot, no colon and no white space.  Its length is
    the length of the title, plus one, plus the length of the instant. *)
Theorem filename_safe (title iso : jsstring) :
  Forall (fun c => isoUnit c = true) iso ->
  Forall (fun c => nameUnit c = true) (PdfGeneration.filename title iso)
  /\ List.length (PdfGeneration.filename title iso)
     = (List.length title + 1 + List.length iso)%nat.
Proof.
  intros Hiso. unfold PdfGeneration.filename. split.
  - apply List.Forall_app. split; [apply sanitizedTitle_units|].
    apply List.Forall_app. split; [repeat constructor|].
    now apply timestampOf_units.
  - rewrite !length_app. unfold PdfGeneration.sanitizedTitle,
      PdfGeneration.timestampOf. rewrite !length_map. simpl. lia.
Qed.

Lemma filename_safe_witness :
  PdfGeneration.filename (lit "../etc: C++ & Co.") MoreSamples.isoText
  = lit "___etc__C_____Co__2026-01-02T03-04-05-678Z"
  /\ Forall (fun c => nameUnit c = true)
       (PdfGeneration.filename (lit "../etc: C++ & Co.") MoreSamples.isoText).
Proof.
  split; [vm_compute; reflexivity|].
  refine (proj1 (filename_safe (lit "../etc: C++ & Co.") MoreSamples.isoText
                   _)).
  vm_compute. repeat constructor.
Defined.

Section TimeEstimateFacts.
Import TimeEstimate.

Lemma Qfloor_null (x : Q) : (x == 0)%Q -> Qfloor x = 0.
Proof. intros H. now rewrite (Qfloor_comp _ _ H). Qed.

Lemma Qdiv_null (x k : Q) : (x == 0)%Q -> (x / k == 0)%Q.
Proof. intros H. unfold Qdiv. rewrite H. apply Qmult_0_l. Qed.

Lemma remainder_null (x m : Q) : (x == 0)%Q -> (remainder x m == 0)%Q.
Proof.
  intros H. unfold remainder, truncate.
  assert (Hd : (x / m == 0)%Q) by now apply Qdiv_null.
  assert (Hf : Qfloor (x / m) = 0) by now apply Qfloor_null.
  assert (Hc : Qceiling (x / m) = 0).
  { unfold Qceiling. rewrite (Qfloor_null (- (x / m))); [reflexivity|].
    rewrite Hd. reflexivity. }
  destruct (Qle_bool 0 (x / m)); rewrite ?Hf, ?Hc, H; ring.
Qed.

End TimeEstimateFacts.

(** X18.  The estimate of the time remaining reads Calculating... as long
    as no section is counted as completed (zero or less), and 0m once the
    completed sections equal the total, whatever the time elapsed. *)
Theorem estimate_at_the_ends (currentTime : Z)
  (p : ProgressTracking.ProgressData) :
  (ProgressTracking.completedSections p <= 0 ->
   TimeEstimate.estimatedTimeRemaining currentTime p = lit "Calculating...")
  /\ (0 < ProgressTracking.completedSections p ->
      ProgressTracking.completedSections p = ProgressTracking.totalSections p ->
      TimeEstimate.estimatedTimeRemaining currentTime p = lit "0m").
Proof.
  unfold TimeEstimate.estimatedTimeRemaining. split.
  - intros H. destruct (Z.ltb_spec 0 (ProgressTracking.completedSections p));
      [lia | reflexivity].
  - intros H E. destruct (Z.ltb_spec 0 (ProgressTracking.completedSections p));
      [|lia].
    cbv zeta. rewrite <- E, Z.sub_diag.
    set (rem := (_ * inject_Z 0)%Q).
    assert (Hrem : (rem == 0)%Q) by (unfold rem; apply Qmult_0_r).
    rewrite (Qfloor_null (rem / _)) by now apply Qdiv_null.
    rewrite (Qfloor_null (TimeEstimate.remainder rem _ / _))
      by now apply Qdiv_null, remainder_null.
    reflexivity.
Qed.

Lemma estimate_at_the_ends_witness :
  TimeEstimate.estimatedTimeRemaining 7 Samples.created = lit "Calculating..."
  /\ TimeEstimate.estimatedTimeRemaining 600001 MoreSamples.allDone = lit "0m".
Proof.
  split.
  - apply (proj1 (estimate_at_the_ends 7 Samples.created)).
    simpl. lia.
  - apply (proj2 (estimate_at_the_ends 600001 MoreSamples.allDone)).
    + simpl. lia.
    + reflexivity.
Defined.

(* ===================================================================== *)
(** * More facts: the four steps in sequence                              *)
(* ===================================================================== *)

Section RunStatus.
Import ProgressTracking.
Variable wid : jsstring.

Lemma plan_id (inputData : Workflow.PlanInput.t) (w : World)
  (plan : Workflow.PlanOutput.t) :
  fst (Workflow.initializeAndPlanStep inputData w) = Ok plan ->
  Workflow.PlanOutput.workflowId plan = Workflow.workflowIdOf w.
Proof.
  unfold Workflow.initializeAndPlanStep.
  rewrite !bind_ask, bind_await.
  destruct (ideaGenerationAgent _ _) as [text|e]; [|discriminate].
  rewrite bind_progress. unfold ret. cbn [fst].
  intros [= <-]. reflexivity.
Qed.

Lemma recorded_status (s : Status) (w : World) :
  statusOf wid w = Some s -> is_Some (files w !! wid).
Proof. unfold statusOf. destruct (files w !! wid); [eauto | discriminate]. Qed.

Lemma generate_status (plan : Workflow.PlanOutput.t) (st : option Status) :
  hoare (statusIs wid st) (Workflow.generateAllContentStep plan)
    (fun r w => statusIs wid st w
                /\ match r with
                   | Ok g => Workflow.GenerateOutput.workflowId g
                             = Workflow.PlanOutput.workflowId plan
                   | Throw _ => True
                   end).
Proof.
  unfold Workflow.generateAllContentStep.
  eapply hoare_bind with (R := fun _ w => statusIs wid st w).
  - intros w H.
    match goal with
    | |- context [Workflow.chapterLoop ?a ?b ?c ?d ?v w] =>
        pose proof (chapterLoop_status wid st a b c d v w H) as H'
    end.
    destruct (fst _); [exact H' | split; [exact H' | exact I]].
  - intros vars w H. split; [exact H | reflexivity].
Qed.

Lemma review_status (g : Workflow.GenerateOutput.t) (st : option Status) :
  hoare (statusIs wid st) (Workflow.reviewContentStep g)
    (fun r w => statusIs wid st w
                /\ match r with
                   | Ok rv => Workflow.ReviewOutput.workflowId rv
                              = Workflow.GenerateOutput.workflowId g
                   | Throw _ => True
                   end).
Proof.
  unfold Workflow.reviewContentStep.
  eapply hoare_bind with (R := fun _ w => statusIs wid st w).
  - apply hoare_progress. intros w _ H. unfold statusIs.
    now rewrite statusOf_update.
  - intros _. eapply hoare_bind with (R := fun _ w => statusIs wid st w).
    + apply hoare_quiet; [apply quiet_await|]. intros w w' r Hq H.
      pose proof (statusIs_quietly wid st w w' Hq H) as H'.
      destruct r; [exact H' | split; [exact H' | exact I]].
    + intros reviewText w H. split; [exact H | reflexivity].
Qed.

Lemma publish_status (rv : Workflow.ReviewOutput.t) :
  Workflow.ReviewOutput.workflowId rv = wid ->
  hoare (fun w => is_Some (files w !! wid))
    (Workflow.generateFinalPDFStep rv)
    (fun r w => match r with
                | Ok o =>
                    Workflow.PdfOutput.workflowId o = wid
                    /\ Workflow.PdfOutput.bookGenerated o
                       = Workflow.ReviewOutput.approvedForPublication rv
                    /\ statusOf wid w
                       = Some (if Workflow.PdfOutput.bookGenerated o
                               then completed else failed)
                | Throw _ => statusOf wid w = Some failed
                end).
Proof.
  intros Hid. unfold Workflow.generateFinalPDFStep. rewrite Hid.
  eapply hoare_bind with (R := fun _ w => is_Some (files w !! wid)).
  { apply hoare_progress. intros w _ H. now apply recorded_update. }
  intros _. destruct (Workflow.ReviewOutput.approvedForPublication rv);
    cbn [negb].
  - eapply hoare_tryCatch with (R := fun _ w => is_Some (files w !! wid)).
    + eapply hoare_bind with (R := fun _ w => is_Some (files w !! wid)).
      { apply hoare_quiet; [apply quiet_await|].
        intros w w' [a|e] Hq H; now apply (recorded_quietly wid w w'). }
      intros pdfResult.
      eapply hoare_bind with (R := fun _ w => statusOf wid w = Some completed).
      { apply hoare_progress. intros w _ H. now apply completed_after_complete. }
      intros _.
      eapply hoare_bind with (R := fun _ w => statusOf wid w = Some completed).
      { apply hoare_quiet; [apply quiet_ask|]. intros w w' r Hq H.
        rewrite <- (statusOf_quietly wid w w' Hq) in H.
        destruct r; [exact H | now apply (recorded_status completed)]. }
      intros t w H. repeat split. exact H.
    + intros e.
      eapply hoare_bind with (R := fun _ w => statusOf wid w = Some failed).
      { apply hoare_progress. intros w _ H. now apply failed_after_fail. }
      intros _ w H. exact H.
  - eapply hoare_bind with (R := fun _ w => statusOf wid w = Some failed).
    { apply hoare_progress. intros w _ H. now apply failed_after_fail. }
    intros _.
    eapply hoare_bind with (R := fun _ w => statusOf wid w = Some failed).
    { apply hoare_quiet; [apply quiet_ask|]. intros w w' r Hq H.
      rewrite (statusOf_quietly wid w w' Hq). destruct r; exact H. }
    intros t w H. repeat split. exact H.
Qed.

End RunStatus.

(** X19.  The four steps in sequence, on a run whose record step 1 has
    created.  When the workflow returns normally, the record is never left
    [in_progress]: it is [completed] when a book was generated and
    [failed] when it was not, and a book is generated exactly when the
    review approved.  When the workflow rejects, the record is [failed]
    or still [in_progress]. *)
Theorem workflow_final_status (inputData : Workflow.PlanInput.t) (w : World) :
  let wid := Workflow.workflowIdOf w in
  let out := Workflow.improvedEducationalContentWorkflow inputData w in
  statusOf wid (snd (Workflow.initializeAndPlanStep inputData w))
  = Some ProgressTracking.in_progress ->
  match fst out with
  | Ok o =>
      Workflow.PdfOutput.workflowId o = wid
      /\ statusOf wid (snd out)
         = Some (if Workflow.PdfOutput.bookGenerated o
                 then ProgressTracking.completed else ProgressTracking.failed)
  | Throw _ =>
      statusOf wid (snd out) = Some ProgressTracking.in_progress
      \/ statusOf wid (snd out) = Some ProgressTracking.failed
  end.
Proof.
  cbv zeta. intros H1.
  set (wid := Workflow.workflowIdOf w) in *.
  set (Q := fun (r : Result Workflow.PdfOutput.t) (w' : World) =>
              match r with
              | Ok o =>
                  Workflow.PdfOutput.workflowId o = wid
                  /\ statusOf wid w'
                     = Some (if Workflow.PdfOutput.bookGenerated o
                             then ProgressTracking.completed
                             else ProgressTracking.failed)
              | Throw _ =>
                  statusOf wid w' = Some ProgressTracking.in_progress
                  \/ statusOf wid w' = Some ProgressTracking.failed
              end).
  enough (Hh : hoare (eq w)
                 (Workflow.improvedEducationalContentWorkflow inputData) Q)
    by exact (Hh w eq_refl).
  unfold Workflow.improvedEducationalContentWorkflow.
  eapply hoare_bind with
    (R := fun plan w1 =>
            Workflow.PlanOutput.workflowId plan = wid
            /\ statusIs wid (Some ProgressTracking.in_progress) w1).
  { intros w0 <-. pose proof (plan_id inputData w) as Hid.
    destruct (Workflow.initializeAndPlanStep inputData w) as [[plan|e] w1];
      cbn [fst snd] in *; [|left; exact H1].
    split; [apply Hid; reflexivity | exact H1]. }
  intros plan.
  eapply hoare_bind with
    (R := fun g w2 =>
            Workflow.GenerateOutput.workflowId g = wid
            /\ statusIs wid (Some ProgressTracking.in_progress) w2).
  { intros w1 [Hid H].
    pose proof (generate_status wid plan _ w1 H) as H2.
    destruct (fst _); [|left; exact (proj1 H2)].
    destruct H2 as [H2 Hid2]. split; [congruence | exact H2]. }
  intros g.
  eapply hoare_bind with
    (R := fun rv w3 =>
            Workflow.ReviewOutput.workflowId rv = wid
            /\ statusIs wid (Some ProgressTracking.in_progress) w3).
  { intros w2 [Hid H].
    pose proof (review_status wid g _ w2 H) as H3.
    destruct (fst _); [|left; exact (proj1 H3)].
    destruct H3 as [H3 Hid3]. split; [congruence | exact H3]. }
  intros rv w3 [Hid H3].
  pose proof (publish_status wid rv Hid w3
                (recorded_status wid _ w3 H3)) as H4.
  unfold Q. destruct (fst (Workflow.generateFinalPDFStep rv w3)) as [o|e].
  - destruct H4 as (Ho & _ & Hs). split; assumption.
  - right. exact H4.
Qed.

Lemma workflow_final_status_witness :
  statusOf (Workflow.workflowIdOf (Samples.world Samples.workingWriter))
    (snd (Workflow.improvedEducationalContentWorkflow Samples.inputData
            (Samples.world Samples.workingWriter)))
  = Some ProgressTracking.completed.
Proof.
  assert (H : statusOf (Workflow.workflowIdOf
                          (Samples.world Samples.workingWriter))
                (snd (Workflow.initializeAndPlanStep Samples.inputData
                        (Samples.world Samples.workingWriter)))
              = Some ProgressTracking.in_progress)
    by (vm_compute; reflexivity).
  pose proof (workflow_final_status Samples.inputData
                (Samples.world Samples.workingWriter) H) as P.
  cbv zeta in P.
  destruct (fst (Workflow.improvedEducationalContentWorkflow
                   Samples.inputData (Samples.world Samples.workingWriter)))
    as [o|e] eqn:E.
  - destruct P as [_ P]. vm_compute in E. injection E as <-. exact P.
  - vm_compute in E. discriminate E.
Defined.
